(** * Win32Main.cpp of the d3d12book demo: a shallow embedding

    The program is one translation unit, [MyDemos/D3D12/D3D12/Win32Main.cpp]:
    a Win32 window procedure and message loop around a Direct3D 12 context
    held in the global [g_DxApp].  The embedding keeps the source's shape:

    - the global [DxApp] struct is a record with the source's field names;
    - every function of the file is a computation in a small state monad
      over the [World] (the globals, the driver/GPU, the call trace and the
      answers of the environment), with the source's early [return]s;
    - [float] is IEEE binary32, computed with the Standard Library's
      [SpecFloat] at precision 24; [UINT]/[UINT64] are [Z] with the
      wrap-around written out;
    - Direct3D, DXGI and Win32 are the environment: whether a call succeeds
      is an answer read from [w_answers], what the performance counter
      reads is taken from [w_counter], what a successful call does is
      stated once per call in the section on the driver. *)

From Stdlib Require Import ZArith List Lia Bool String.
From Stdlib Require Import Floats.SpecFloat.
From stdpp Require Import base option list gmap strings.
From coqutil Require Import Datatypes.RecordSetters.
Import TriangleBracketNotations.

Local Open Scope string_scope.
Local Open Scope list_scope.
Local Open Scope Z_scope.

(** ** Machine integers *)

Module MachineInt.

Definition UINT_MOD : Z := 2 ^ 32.
Definition UINT64_MOD : Z := 2 ^ 64.

(** [UINT] (32 bit) and [UINT64] values are kept in [Z]; an operation
    that can leave the range is followed by the reduction the hardware
    performs. *)
Definition wrap32 (z : Z) : Z := z mod UINT_MOD.
Definition wrap64 (z : Z) : Z := z mod UINT64_MOD.

Definition is_UINT (z : Z) : Prop := 0 <= z < UINT_MOD.
Definition is_UINT64 (z : Z) : Prop := 0 <= z < UINT64_MOD.

(** [~x] on a 32-bit unsigned operand. *)
Definition not32 (z : Z) : Z := wrap32 (Z.lnot z).

(** [(int)x] for a wider [x]: the low 32 bits, read as two's complement. *)
Definition int_of (z : Z) : Z := (z + 2 ^ 31) mod 2 ^ 32 - 2 ^ 31.

(** The Win32 macros on message parameters. *)
Definition LOWORD (l : Z) : Z := Z.land l 65535.
Definition HIWORD (l : Z) : Z := Z.land (Z.shiftr l 16) 65535.
(** [(int)(short)w]: reinterpret a 16-bit word as signed. *)
Definition short_of_word (w : Z) : Z := if w <? 32768 then w else w - 65536.
Definition GET_X_LPARAM (l : Z) : Z := short_of_word (LOWORD l).
Definition GET_Y_LPARAM (l : Z) : Z := short_of_word (HIWORD l).

End MachineInt.
Export MachineInt.

(** ** binary32 *)

Module F32.

Definition float : Type := spec_float.

Definition prec : Z := 24.
Definition emax : Z := 128.

Definition add : float -> float -> float := SFadd prec emax.
Definition sub : float -> float -> float := SFsub prec emax.
Definition mul : float -> float -> float := SFmul prec emax.
Definition div : float -> float -> float := SFdiv prec emax.
Definition ltb : float -> float -> bool := SFltb.
Definition leb : float -> float -> bool := SFleb.

(** [static_cast<float>(i)] for an integer [i]: round to nearest even. *)
Definition of_int (i : Z) : float := binary_normalize prec emax i 0 false.

Definition is_nan (x : float) : bool :=
  match x with S754_nan => true | _ => false end.

Definition is_finite (x : float) : bool :=
  match x with S754_zero _ | S754_finite _ _ _ => true | _ => false end.

(** The float [x] is exactly the integer [z]. *)
Definition exactly (x : float) (z : Z) : bool :=
  match x with
  | S754_zero _ => z =? 0
  | S754_finite s m e =>
      if 0 <=? e then z =? cond_Zopp s (Z.pos m * 2 ^ e)
      else z * 2 ^ (- e) =? cond_Zopp s (Z.pos m)
  | _ => false
  end.

(** [lit m e] is the literal whose binary32 value is [m * 2^e];
    [nearest m e num den] checks that it is the float a compiler picks for
    the decimal [num/den]: a 24-bit mantissa within half a unit in the last
    place. *)
Definition lit (m : positive) (e : Z) : float := S754_finite false m e.

Definition nearest (m : positive) (e : Z) (num den : Z) : bool :=
  bounded prec emax m e &&
  match e with
  | Z.neg p => 2 * Z.abs (Z.pos m * den - num * 2 ^ Z.pos p) <=? den
  | _ => 2 * Z.abs (Z.pos m * 2 ^ e * den - num) <=? 2 ^ e * den
  end.

Definition f0_25 : float := lit 8388608 (-25).       (* 0.25f *)
Definition f0_005 : float := lit 10737418 (-31).     (* 0.005f *)
Definition f0_1 : float := lit 13421773 (-27).       (* 0.1f *)
Definition f1 : float := lit 8388608 (-23).          (* 1.f *)
Definition f1_5 : float := lit 12582912 (-23).       (* 1.5f *)
Definition f3 : float := lit 12582912 (-22).         (* 3.f *)
Definition f5 : float := lit 10485760 (-21).         (* 5.0f *)
Definition f15 : float := lit 15728640 (-20).        (* 15.f *)
Definition f180 : float := lit 11796480 (-16).       (* 180.0f *)
Definition f1000 : float := lit 16384000 (-14).      (* 1000.f *)
Definition f0 : float := S754_zero false.            (* 0.f *)

(** DirectXMath.h: [XM_PI = 3.141592654f], [XM_PIDIV4 = 0.785398163f],
    [XMConvertToRadians(d) = d * (XM_PI / 180.0f)]. *)
Definition XM_PI : float := lit 13176795 (-22).
Definition XM_PIDIV4 : float := lit 13176795 (-24).
Definition XMConvertToRadians (fDegrees : float) : float :=
  mul fDegrees (div XM_PI f180).

End F32.

Abbreviation float := F32.float.

(** ** Direct3D 12 and DXGI data *)

(** Enumerations keep the values of d3d12.h and dxgiformat.h. *)
Definition D3D12_RESOURCE_STATE_COMMON : Z := 0.
Definition D3D12_RESOURCE_STATE_RENDER_TARGET : Z := 4.
Definition D3D12_RESOURCE_STATE_DEPTH_WRITE : Z := 16.
Definition D3D12_RESOURCE_STATE_COPY_DEST : Z := 1024.
Definition D3D12_RESOURCE_STATE_GENERIC_READ : Z := 2755.
Definition D3D12_RESOURCE_STATE_PRESENT : Z := 0.

Definition DXGI_FORMAT_R8G8B8A8_UNORM : Z := 28.
Definition DXGI_FORMAT_D24_UNORM_S8_UINT : Z := 45.
Definition DXGI_FORMAT_R16_UINT : Z := 57.

Inductive D3D12_HEAP_TYPE : Set :=
| D3D12_HEAP_TYPE_DEFAULT
| D3D12_HEAP_TYPE_UPLOAD.

Inductive D3D12_DESCRIPTOR_HEAP_TYPE : Set :=
| D3D12_DESCRIPTOR_HEAP_TYPE_CBV_SRV_UAV
| D3D12_DESCRIPTOR_HEAP_TYPE_RTV
| D3D12_DESCRIPTOR_HEAP_TYPE_DSV.

(** A resource is named by a handle; [ComPtr] is a nullable reference. *)
Definition Handle : Type := N.
Definition ComPtr (A : Type) : Type := option A.
Abbreviation nullptr := None (only parsing).

Inductive D3D12_RESOURCE_DESC : Type :=
| Buffer (width : Z)
| Texture2D (width height format sampleCount sampleQuality : Z)
| BackBufferDesc (width height format : Z).

Record Resource : Type := {
  res_heap : D3D12_HEAP_TYPE;
  res_desc : D3D12_RESOURCE_DESC;
  res_state : Z;
  res_bytes : list Byte.byte
}.

Record D3D12_VIEWPORT : Type := {
  TopLeftX : float; TopLeftY : float;
  Width : float; Height : float;
  MinDepth : float; MaxDepth : float
}.

Record D3D12_RECT : Type := { rc_left : Z; rc_top : Z; rc_right : Z; rc_bottom : Z }.

Record POINT : Type := { pt_x : Z; pt_y : Z }.

(** The commands a graphics command list records. *)
Inductive Command : Type :=
| ResourceBarrier (resource : ComPtr Handle) (stateBefore stateAfter : Z)
| CopyBufferRegion (dst : ComPtr Handle) (dstOffset : Z)
                   (src : ComPtr Handle) (srcOffset numBytes : Z)
| RSSetViewports (vp : D3D12_VIEWPORT)
| RSSetScissorRects (r : D3D12_RECT)
| ClearRenderTargetView (rtvOffset : Z)
| ClearDepthStencilView
| OMSetRenderTargets (rtvOffset : Z)
| SetDescriptorHeaps
| SetGraphicsRootSignature
| IASetVertexBuffers (buffer : ComPtr Handle) (stride size : Z)
| IASetIndexBuffer (buffer : ComPtr Handle) (format size : Z)
| IASetPrimitiveTopology
| SetGraphicsRootDescriptorTable
| DrawIndexedInstanced (indexCount instanceCount startIndex baseVertex startInstance : Z).

(** What the command queue holds, in submission order. *)
Inductive QueueItem : Type :=
| QExecute (cmds : list Command)
| QSignal (value : Z)
| QPresent.

Record CommandList : Type := {
  cl_recording : bool;
  cl_commands : list Command
}.

Record SwapChain : Type := {
  sc_Width : Z; sc_Height : Z; sc_Format : Z;
  sc_SampleCount : Z; sc_SampleQuality : Z;
  sc_BufferCount : Z;
  sc_buffers : list Handle
}.

(** DirectXMath matrices, kept symbolic: the library's trigonometry is not
    part of the program.  [XMMatrixPerspectiveFovLH] stores its arguments. *)
Inductive XMFLOAT4X4 : Type :=
| Identity4x4
| XMMatrixPerspectiveFovLH (fovAngleY aspectRatio nearZ farZ : float)
| XMMatrixLookAtLH_spherical (radius phi theta : float)
| XMMatrixMultiply (a b : XMFLOAT4X4)
| XMMatrixTranspose (a : XMFLOAT4X4).

Record SubmeshGeometry : Type := {
  m_IndexCount : Z;
  m_StartIndexLocation : Z;
  m_BaseVertexLocation : Z
}.

Record MeshGeometry : Type := {
  m_Name : string;
  m_VertexBufferCPU : ComPtr (list Byte.byte);
  m_IndexBufferCPU : ComPtr (list Byte.byte);
  m_VertexBufferGPU : ComPtr Handle;
  m_IndexBufferGPU : ComPtr Handle;
  m_VertexBufferUploader : ComPtr Handle;
  m_IndexBufferUploader : ComPtr Handle;
  m_VertexByteStride : Z;
  m_VertexBufferByteSize : Z;
  m_IndexFormat : Z;
  m_IndexBufferByteSize : Z;
  m_DrawArgs : gmap string SubmeshGeometry
}.

(** [UploadBuffer<ObjectConstants>]: the mapped resource and what was last
    copied into element 0. *)
Record UploadBuffer : Type := {
  m_UploadBuffer : ComPtr Handle;
  m_MappedData : ComPtr XMFLOAT4X4;
  m_ElementByteSize : Z;
  m_IsConstantBuffer : bool
}.

(** ** GameTimer *)

(** binary64, for the [double] members of the timer. *)
Module F64.

Definition float : Type := spec_float.
Definition prec : Z := 53.
Definition emax : Z := 1024.

Definition mul : float -> float -> float := SFmul prec emax.
Definition div : float -> float -> float := SFdiv prec emax.
Definition ltb : float -> float -> bool := SFltb.

(** [(double)i] for an [__int64] *)
Definition of_int (i : Z) : float := binary_normalize prec emax i 0 false.

(** [(float)d]: round to the nearest binary32 *)
Definition to_float (d : float) : F32.float :=
  match d with
  | S754_finite s m e => binary_normalize F32.prec F32.emax (cond_Zopp s (Z.pos m)) e s
  | _ => d
  end.

Definition f0 : float := S754_zero false.                              (* 0.0 *)
Definition f1 : float := S754_finite false 4503599627370496 (-52).      (* 1.0 *)
Definition fm1 : float := S754_finite true 4503599627370496 (-52).      (* -1.0 *)

End F64.

Module GameTimer.

(** [__int64] arithmetic; a result outside the type is undefined in the
    language and wraps on the machine. *)
Definition wrap_s64 (z : Z) : Z := (z + 2 ^ 63) mod 2 ^ 64 - 2 ^ 63.
Definition is_int64 (z : Z) : Prop := - 2 ^ 63 <= z < 2 ^ 63.
Definition sub64 (a b : Z) : Z := wrap_s64 (a - b).
Definition add64 (a b : Z) : Z := wrap_s64 (a + b).

Record t : Type := {
  m_SecondsPerCount : F64.float;
  m_DeltaTime : F64.float;
  m_BaseTime : Z;
  m_PausedTime : Z;
  m_StopTime : Z;
  m_PrevTime : Z;
  m_CurrTime : Z;
  m_IsStopped : bool
}.

(** The constructor; [countsPerSec] is what [QueryPerformanceFrequency]
    answers.  The other members have their default initializers. *)
Definition ctor (countsPerSec : Z) : t :=
  {| m_SecondsPerCount := F64.div F64.f1 (F64.of_int countsPerSec);
     m_DeltaTime := F64.fm1;
     m_BaseTime := 0; m_PausedTime := 0; m_StopTime := 0;
     m_PrevTime := 0; m_CurrTime := 0;
     m_IsStopped := false |}.

(** The integer that [TotalTime] converts: the counts the timer has been
    running. *)
Definition TotalCounts (g : t) : Z :=
  if m_IsStopped g
  then sub64 (sub64 (m_StopTime g) (m_PausedTime g)) (m_BaseTime g)
  else sub64 (sub64 (m_CurrTime g) (m_PausedTime g)) (m_BaseTime g).

Definition TotalTime (g : t) : F32.float :=
  F64.to_float (F64.mul (F64.of_int (TotalCounts g)) (m_SecondsPerCount g)).

Definition DeltaTime (g : t) : F32.float := F64.to_float (m_DeltaTime g).

(** In the four functions below the first argument is what
    [QueryPerformanceCounter] answers when the function asks. *)
Definition Reset (currTime : Z) (g : t) : t :=
  {| m_SecondsPerCount := m_SecondsPerCount g; m_DeltaTime := m_DeltaTime g;
     m_BaseTime := currTime; m_PausedTime := m_PausedTime g;
     m_StopTime := 0; m_PrevTime := currTime; m_CurrTime := m_CurrTime g;
     m_IsStopped := false |}.

Definition Start (startTime : Z) (g : t) : t :=
  if m_IsStopped g then
    {| m_SecondsPerCount := m_SecondsPerCount g; m_DeltaTime := m_DeltaTime g;
       m_BaseTime := m_BaseTime g;
       m_PausedTime := add64 (m_PausedTime g) (sub64 startTime (m_StopTime g));
       m_StopTime := 0; m_PrevTime := startTime; m_CurrTime := m_CurrTime g;
       m_IsStopped := false |}
  else g.

Definition Stop (currTime : Z) (g : t) : t :=
  if negb (m_IsStopped g) then
    {| m_SecondsPerCount := m_SecondsPerCount g; m_DeltaTime := m_DeltaTime g;
       m_BaseTime := m_BaseTime g; m_PausedTime := m_PausedTime g;
       m_StopTime := currTime; m_PrevTime := m_PrevTime g; m_CurrTime := m_CurrTime g;
       m_IsStopped := true |}
  else g.

Definition Tick (currTime : Z) (g : t) : t :=
  if m_IsStopped g then
    {| m_SecondsPerCount := m_SecondsPerCount g; m_DeltaTime := F64.f0;
       m_BaseTime := m_BaseTime g; m_PausedTime := m_PausedTime g;
       m_StopTime := m_StopTime g; m_PrevTime := m_PrevTime g; m_CurrTime := m_CurrTime g;
       m_IsStopped := m_IsStopped g |}
  else
    (* time diff *)
    let delta := F64.mul (F64.of_int (sub64 currTime (m_PrevTime g))) (m_SecondsPerCount g) in
    {| m_SecondsPerCount := m_SecondsPerCount g;
       (* avoid errors (during power save mode apparently) *)
       m_DeltaTime := if F64.ltb delta F64.f0 then F64.f0 else delta;
       m_BaseTime := m_BaseTime g; m_PausedTime := m_PausedTime g;
       m_StopTime := m_StopTime g;
       (* for next frame *)
       m_PrevTime := currTime; m_CurrTime := currTime;
       m_IsStopped := m_IsStopped g |}.

(** The calls a timer receives, each with the reading of the counter. *)
Inductive call : Type :=
| CallReset (currTime : Z)
| CallStart (startTime : Z)
| CallStop (currTime : Z)
| CallTick (currTime : Z).

Definition step (g : t) (c : call) : t :=
  match c with
  | CallReset x => Reset x g
  | CallStart x => Start x g
  | CallStop x => Stop x g
  | CallTick x => Tick x g
  end.

Definition run (cs : list call) (g : t) : t := fold_left step cs g.

Definition is_tick (c : call) : bool :=
  match c with CallTick _ => true | _ => false end.

End GameTimer.

(** ** CalculateFrameStats

    The function with its two static variables as a state; the result says
    what [SetWindowText] is given: the numbers [fps] and [mspf] that are
    printed into the title, when the title is set. *)
Module FrameStats.

Record t : Type := { s_FrameCount : Z; s_TimeElapsed : float }.

Definition initial : t := {| s_FrameCount := 0; s_TimeElapsed := F32.f0 |}.

(** [int], two's complement *)
Definition wrap_s32 (z : Z) : Z := (z + 2 ^ 31) mod 2 ^ 32 - 2 ^ 31.

(** [(TotalTime - s_TimeElapsed) >= 1.f] *)
Definition due (TotalTime : float) (s : t) : bool :=
  F32.leb F32.f1 (F32.sub TotalTime (s_TimeElapsed s)).

Definition CalculateFrameStats (timer : GameTimer.t) (s : t) : t * option (float * float) :=
  let count := wrap_s32 (s_FrameCount s + 1) in
  (* average per second to not be too spammy *)
  if due (GameTimer.TotalTime timer) s then
    let fps := F32.of_int count in
    let mspf := F32.div F32.f1000 fps in
    ({| s_FrameCount := 0; s_TimeElapsed := F32.add (s_TimeElapsed s) F32.f1 |},
     Some (fps, mspf))
  else
    ({| s_FrameCount := count; s_TimeElapsed := s_TimeElapsed s |}, None).

(** One call per entry of [timers], each with the timer as it is then. *)
Fixpoint calls (timers : list GameTimer.t) (s : t) : t * list (option (float * float)) :=
  match timers with
  | [] => (s, [])
  | timer :: rest =>
      let '(s1, title) := CalculateFrameStats timer s in
      let '(s2, titles) := calls rest s1 in
      (s2, title :: titles)
  end.

End FrameStats.

(** ** The globals *)

Module Settings.
Definition s_SwapChainBufferCount : Z := 2.
Definition m_MainWindowTitle : string := "D3D12 App".
Definition m_BackBufferFormat : Z := DXGI_FORMAT_R8G8B8A8_UNORM.
Definition m_DepthStencilFormat : Z := DXGI_FORMAT_D24_UNORM_S8_UINT.
End Settings.

#[projections(primitive)]
Record DxApp : Type := {
  m_DxgiFactory : ComPtr unit;
  m_D3dDevice : ComPtr unit;
  m_Fence : ComPtr unit;
  m_CurrentFence : Z;
  m_CommandQueue : ComPtr unit;
  m_DirectCommandListAllocator : ComPtr unit;
  m_CommandList : ComPtr unit;
  m_SwapChain : ComPtr SwapChain;
  m_CurrentBackBuffer : Z;
  m_SwapChainBuffer : list (ComPtr Handle);
  m_DepthStencilBuffer : ComPtr Handle;
  m_ScreenViewport : D3D12_VIEWPORT;
  m_ScissorRect : D3D12_RECT;
  m_RtvHeap : ComPtr unit;
  m_DsvHeap : ComPtr unit;
  m_RtvDescriptorSize : Z;
  m_DsvDescriptorSize : Z;
  m_CbvSrvUavDescriptorSize : Z;
  m_4xMsaaQuality : Z;
  m_MsaaEnabled : bool;
  m_Timer : GameTimer.t;
  m_IsPaused : bool;
  m_ClientWidth : Z;
  m_ClientHeight : Z;
  m_IsResizing : bool;
  m_IsMinimized : bool;
  m_IsMaximized : bool;
  m_RootSignature : ComPtr unit;
  m_CbvHeap : ComPtr unit;
  m_ObjectCB : option UploadBuffer;
  m_BoxGeo : option MeshGeometry;
  m_VsByteCode : ComPtr unit;
  m_PsByteCode : ComPtr unit;
  m_PSO : ComPtr unit;
  m_World : XMFLOAT4X4;
  m_View : XMFLOAT4X4;
  m_Proj : XMFLOAT4X4;
  m_Theta : float;
  m_Phi : float;
  m_Radius : float;
  m_LastMousePos : POINT
}.

(** What [QueryPerformanceFrequency] answers to the constructor of
    [m_Timer]: the frequency of the performance counter is fixed when the
    system starts; 10 MHz is what current systems report.  Only
    [m_SecondsPerCount] of the initial timer depends on it, and the facts
    about the timer below are stated for every timer. *)
Definition countsPerSec : Z := 10000000.

(** [DxApp g_DxApp;] at namespace scope: members with an initializer take
    it, the others are zero-initialized; [m_Timer] is constructed. *)
Definition g_DxApp_initial : DxApp := {|
  m_DxgiFactory := nullptr;
  m_D3dDevice := nullptr;
  m_Fence := nullptr;
  m_CurrentFence := 0;
  m_CommandQueue := nullptr;
  m_DirectCommandListAllocator := nullptr;
  m_CommandList := nullptr;
  m_SwapChain := nullptr;
  m_CurrentBackBuffer := 0;
  m_SwapChainBuffer := [nullptr; nullptr];
  m_DepthStencilBuffer := nullptr;
  m_ScreenViewport := {| TopLeftX := F32.f0; TopLeftY := F32.f0;
                         Width := F32.f0; Height := F32.f0;
                         MinDepth := F32.f0; MaxDepth := F32.f0 |};
  m_ScissorRect := {| rc_left := 0; rc_top := 0; rc_right := 0; rc_bottom := 0 |};
  m_RtvHeap := nullptr;
  m_DsvHeap := nullptr;
  m_RtvDescriptorSize := 0;
  m_DsvDescriptorSize := 0;
  m_CbvSrvUavDescriptorSize := 0;
  m_4xMsaaQuality := 0;
  m_MsaaEnabled := false;
  m_Timer := GameTimer.ctor countsPerSec;
  m_IsPaused := false;
  m_ClientWidth := 800;
  m_ClientHeight := 600;
  m_IsResizing := false;
  m_IsMinimized := false;
  m_IsMaximized := false;
  m_RootSignature := nullptr;
  m_CbvHeap := nullptr;
  m_ObjectCB := None;
  m_BoxGeo := None;
  m_VsByteCode := nullptr;
  m_PsByteCode := nullptr;
  m_PSO := nullptr;
  m_World := Identity4x4;
  m_View := Identity4x4;
  m_Proj := Identity4x4;
  m_Theta := F32.mul F32.f1_5 F32.XM_PI;
  m_Phi := F32.XM_PIDIV4;
  m_Radius := F32.f5;
  m_LastMousePos := {| pt_x := 0; pt_y := 0 |}
|}.

Module MathHelper.
(** [float const MathHelper::Pi = 3.1415926535f;] *)
Definition Pi : float := F32.lit 13176795 (-22).

(** [template<typename T> static T Clamp(const T& x, const T& low, const T& high)] at [T = float]. *)
Definition Clamp (x low high : float) : float :=
  if F32.ltb x low then low else if F32.ltb high x then high else x.
End MathHelper.

(** ** The environment: driver, GPU and call trace *)

(** The functions of the translation unit, as call sites. *)
Inductive Fn : Set :=
| FnWinMain | FnInitWindowsApp | FnRun | FnWndProc
| FnOnMouseDown | FnOnMouseUp | FnOnMouseMove
| FnInitD3D | FnCreateCommandObjects | FnCreateSwapChain | FnCreateDescriptorHeaps
| FnOnResize | FnFlushCommandQueue | FnSetMsaaEnabled
| FnCreateDefaultBuffer | FnCompileShader | FnOnInitialize | FnUpdate | FnDraw
| FnBuildDescriptorHeaps | FnBuildConstantBuffers | FnBuildRootSignature
| FnBuildShadersAndInputLayout | FnBuildBoxGeometry | FnBuildPSO
| FnUploadBuffer | FnGameTimer | FnCalculateFrameStats.

(** The calls that leave the translation unit. *)
Inductive Api : Type :=
| MessageBox (text caption : string)
| DestroyWindow | PostQuitMessage | DefWindowProc (msg : Z)
| SetCapture | ReleaseCapture | SetMinTrackSize (x y : Z)
| Sleep (ms : Z)
| RegisterClass | CreateWindow | ShowWindow | UpdateWindow
| TranslateMessage | DispatchMessage
| QueryPerformanceCounter
| SetWindowText (fps mspf : float)
| D3D12GetDebugInterface | EnableDebugLayer | LogAdapters
| CreateDXGIFactory1 | D3D12CreateDevice (warp : bool) | EnumWarpAdapter
| CreateFence (initial : Z)
| GetDescriptorHandleIncrementSize (t : D3D12_DESCRIPTOR_HEAP_TYPE)
| CheckFeatureSupport
| CreateCommandQueue | CreateCommandAllocator | CreateCommandList
| CommandAllocator_Reset | CommandList_Reset | CommandList_Close
| ExecuteCommandLists
| DXGI_CreateSwapChain | ResizeBuffers (count width height format : Z)
| GetBuffer (i : Z) | Present
| CreateDescriptorHeap (t : D3D12_DESCRIPTOR_HEAP_TYPE) (n : Z)
| CreateRenderTargetView (r : ComPtr Handle) (offset : Z)
| CreateDepthStencilView (r : ComPtr Handle)
| CreateConstantBufferView (size : Z)
| CreateCommittedResource (heap : D3D12_HEAP_TYPE) (desc : D3D12_RESOURCE_DESC) (state : Z)
| Resource_Map | Memcpy (n : Z)
| Signal (value : Z) | GetCompletedValue
| CreateEventEx | SetEventOnCompletion (value : Z) (hEvent : ComPtr unit)
| WaitForSingleObject (hEvent : ComPtr unit) | CloseHandle
| D3DCompile (entrypoint target : string) | OutputDebugStringA
| D3D12SerializeRootSignature | CreateRootSignature
| D3DCreateBlob (size : Z) | CreateGraphicsPipelineState.

Inductive Event : Type :=
| EvEnter (f : Fn)
| EvApi (site : Fn) (a : Api).

Definition Fn_eqb (a b : Fn) : bool :=
  match a, b with
  | FnWinMain, FnWinMain | FnInitWindowsApp, FnInitWindowsApp | FnRun, FnRun
  | FnWndProc, FnWndProc | FnOnMouseDown, FnOnMouseDown | FnOnMouseUp, FnOnMouseUp
  | FnOnMouseMove, FnOnMouseMove | FnInitD3D, FnInitD3D
  | FnCreateCommandObjects, FnCreateCommandObjects
  | FnCreateSwapChain, FnCreateSwapChain
  | FnCreateDescriptorHeaps, FnCreateDescriptorHeaps
  | FnOnResize, FnOnResize | FnFlushCommandQueue, FnFlushCommandQueue
  | FnSetMsaaEnabled, FnSetMsaaEnabled | FnCreateDefaultBuffer, FnCreateDefaultBuffer
  | FnCompileShader, FnCompileShader | FnOnInitialize, FnOnInitialize
  | FnUpdate, FnUpdate | FnDraw, FnDraw
  | FnBuildDescriptorHeaps, FnBuildDescriptorHeaps
  | FnBuildConstantBuffers, FnBuildConstantBuffers
  | FnBuildRootSignature, FnBuildRootSignature
  | FnBuildShadersAndInputLayout, FnBuildShadersAndInputLayout
  | FnBuildBoxGeometry, FnBuildBoxGeometry | FnBuildPSO, FnBuildPSO
  | FnUploadBuffer, FnUploadBuffer | FnGameTimer, FnGameTimer
  | FnCalculateFrameStats, FnCalculateFrameStats => true
  | _, _ => false
  end.

(** The calls that park the thread until the GPU has reached a fence
    value: [WaitForSingleObject] on the fence's event and, when there is no
    event, [SetEventOnCompletion] itself. *)
Definition blocks_on_gpu (a : Api) : bool :=
  match a with
  | WaitForSingleObject (Some _) => true
  | SetEventOnCompletion _ None => true
  | _ => false
  end.

Definition is_enter (f : Fn) (e : Event) : bool :=
  match e with EvEnter g => Fn_eqb f g | EvApi _ _ => false end.

Definition is_wait (e : Event) : bool :=
  match e with EvApi _ a => blocks_on_gpu a | EvEnter _ => false end.

Definition site_of (e : Event) : Fn :=
  match e with EvEnter f => f | EvApi f _ => f end.

(** How often function [f] was entered in a trace. *)
Definition entries (f : Fn) (t : list Event) : nat :=
  length (filter (fun e => is_enter f e = true) t).

(** *** The GPU *)

#[projections(primitive)]
Record Gpu : Type := {
  gpu_resources : gmap Handle Resource;
  gpu_next : Handle;
  gpu_cmdlist : CommandList;
  gpu_queue : list QueueItem;
  gpu_retired : list QueueItem;
  gpu_fence : Z
}.

Definition gpu_initial : Gpu := {|
  gpu_resources := ∅;
  gpu_next := 1%N;
  gpu_cmdlist := {| cl_recording := false; cl_commands := [] |};
  gpu_queue := [];
  gpu_retired := [];
  gpu_fence := 0
|}.

Definition set_state (s : Z) (r : Resource) : Resource :=
  {| res_heap := res_heap r; res_desc := res_desc r;
     res_state := s; res_bytes := res_bytes r |}.

Definition set_bytes (b : list Byte.byte) (r : Resource) : Resource :=
  {| res_heap := res_heap r; res_desc := res_desc r;
     res_state := res_state r; res_bytes := b |}.

(** Overwrite [n] bytes of [old] at [off] with [new]. *)
Definition splice (old : list Byte.byte) (off : nat) (new : list Byte.byte) : list Byte.byte :=
  take off old ++ new ++ drop (off + length new) old.

(** The effect of one recorded command when the GPU reaches it.  A barrier
    moves a resource that is in [stateBefore] to [stateAfter]; a buffer copy
    needs its destination in the copy-destination state, a readable source
    and both ranges inside the buffers; commands that only draw leave the
    buffers' bytes alone. *)
Definition exec_command (c : Command) (rs : gmap Handle Resource) : gmap Handle Resource :=
  match c with
  | ResourceBarrier (Some h) before after =>
      match rs !! h with
      | Some r => if res_state r =? before then <[h := set_state after r]> rs else rs
      | None => rs
      end
  | CopyBufferRegion (Some d) dstOff (Some s) srcOff n =>
      match rs !! d, rs !! s with
      | Some rd, Some rsrc =>
          if (res_state rd =? D3D12_RESOURCE_STATE_COPY_DEST)
             && (res_state rsrc =? D3D12_RESOURCE_STATE_GENERIC_READ)
             && (0 <=? dstOff) && (0 <=? srcOff) && (0 <=? n)
             && (dstOff + n <=? Z.of_nat (length (res_bytes rd)))
             && (srcOff + n <=? Z.of_nat (length (res_bytes rsrc)))
          then
            let chunk := take (Z.to_nat n) (drop (Z.to_nat srcOff) (res_bytes rsrc)) in
            <[d := set_bytes (splice (res_bytes rd) (Z.to_nat dstOff) chunk) rd]> rs
          else rs
      | _, _ => rs
      end
  | _ => rs
  end.

Definition exec_commands (cs : list Command) (rs : gmap Handle Resource) : gmap Handle Resource :=
  fold_left (fun acc c => exec_command c acc) cs rs.

(** The GPU retires the oldest item of the queue. *)
Definition gpu_step (g : Gpu) : Gpu :=
  match gpu_queue g with
  | [] => g
  | it :: rest =>
      let g' := g <| gpu_queue := rest |> <| gpu_retired := gpu_retired g ++ [it] |> in
      match it with
      | QExecute cs => g' <| gpu_resources := exec_commands cs (gpu_resources g) |>
      | QSignal v => g' <| gpu_fence := v |>
      | QPresent => g'
      end
  end.

Fixpoint gpu_run (n : nat) (g : Gpu) : Gpu :=
  match n with
  | O => g
  | S n' => gpu_run n' (gpu_step g)
  end.

(** The GPU works until the fence has reached [v]; [None] when the queue
    runs dry first, in which case a thread waiting for [v] is never woken. *)
Fixpoint gpu_run_until_aux (v : Z) (fuel : nat) (g : Gpu) : option Gpu :=
  if v <=? gpu_fence g then Some g
  else match fuel with
       | O => None
       | S fuel' => gpu_run_until_aux v fuel' (gpu_step g)
       end.

Definition gpu_run_until (v : Z) (g : Gpu) : option Gpu :=
  gpu_run_until_aux v (length (gpu_queue g)) g.

(** *** The world *)

#[projections(primitive)]
Record World : Type := {
  g_MainWnd : Z;
  g_DxApp : DxApp;
  s_FrameStats : FrameStats.t;  (* the two statics of CalculateFrameStats *)
  w_gpu : Gpu;
  w_trace : list Event;     (* newest event first *)
  w_answers : list Z;       (* what the environment will answer, in order *)
  w_counter : list Z        (* what the performance counter will read, in order *)
}.

Definition World_initial (answers : list Z) : World := {|
  g_MainWnd := 0;
  g_DxApp := g_DxApp_initial;
  s_FrameStats := FrameStats.initial;
  w_gpu := gpu_initial;
  w_trace := [];
  w_answers := answers;
  w_counter := []
|}.

(** Preprocessor configuration of a build. *)
Record BuildConfig : Set := {
  def_DEBUG : bool;      (* DEBUG is defined *)
  def__DEBUG : bool;     (* _DEBUG is defined *)
  def_NDEBUG : bool      (* NDEBUG is defined: assert() expands to nothing *)
}.

Inductive Fault : Type :=
| AssertionFailed (msg : string)
| NullDereference
| IndexOutOfRange
| WaitsForever.

(** A statement continues with a value, returns from the enclosing
    function, or ends the process. *)
Inductive Step (R A : Type) : Type :=
| Continue (a : A)
| Return (r : R)
| Abort (f : Fault).
Arguments Continue {R A} a.
Arguments Return {R A} r.
Arguments Abort {R A} f.

Definition M (R A : Type) : Type := World -> Step R A * World.

#[global] Instance M_ret {R} : MRet (M R) := fun A a w => (Continue a, w).

#[global] Instance M_bind {R} : MBind (M R) := fun A B k m w =>
  match m w with
  | (Continue a, w') => k a w'
  | (Return r, w') => (Return r, w')
  | (Abort f, w') => (Abort f, w')
  end.

Definition return_ {R A} (r : R) : M R A := fun w => (Return r, w).
Definition abort {R A} (f : Fault) : M R A := fun w => (Abort f, w).

(** Calling a function: its [return] ends the callee, not the caller. *)
Definition call {R R'} (f : M R R) : M R' R := fun w =>
  match f w with
  | (Continue r, w') | (Return r, w') => (Continue r, w')
  | (Abort x, w') => (Abort x, w')
  end.

Definition get {R} : M R World := fun w => (Continue w, w).
Definition app {R A} (f : DxApp -> A) : M R A := fun w => (Continue (f (g_DxApp w)), w).
Definition update_app {R} (f : DxApp -> DxApp) : M R unit :=
  fun w => (Continue tt, w <| g_DxApp := f (g_DxApp w) |>).
Definition update_gpu {R} (f : Gpu -> Gpu) : M R unit :=
  fun w => (Continue tt, w <| w_gpu := f (w_gpu w) |>).
Definition emit {R} (e : Event) : M R unit :=
  fun w => (Continue tt, w <| w_trace := e :: w_trace w |>).

Definition statics {R} : M R FrameStats.t := fun w => (Continue (s_FrameStats w), w).
Definition set_statics {R} (s : FrameStats.t) : M R unit :=
  fun w => (Continue tt, w <| s_FrameStats := s |>).

Definition enter {R} (f : Fn) : M R unit := emit (EvEnter f).
Definition api {R} (site : Fn) (a : Api) : M R unit := emit (EvApi site a).

(** The next answer of the environment; once the script is exhausted every
    answer is 0 ([S_OK], no progress). *)
Definition answer {R} : M R Z := fun w =>
  match w_answers w with
  | [] => (Continue 0, w)
  | a :: rest => (Continue a, w <| w_answers := rest |>)
  end.

(** The next reading of the performance counter, an [__int64]; once the
    script is exhausted every reading is 0. *)
Definition reading {R} : M R Z := fun w =>
  (Continue (GameTimer.wrap_s64 (hd 0 (w_counter w))),
   w <| w_counter := tl (w_counter w) |>).

(** A call that yields an [HRESULT]. *)
Definition hresult {R} (site : Fn) (a : Api) : M R Z := api site a;; answer.
Definition FAILED (hr : Z) : bool := hr <? 0.

(** [p->...] *)
Definition deref {R A} (p : ComPtr A) : M R A :=
  match p with
  | Some a => mret a
  | None => abort NullDereference
  end.

Definition run {R A} (m : M R A) (w : World) : Step R A * World := m w.

(** *** The driver: what a call does when it succeeds *)

Section Driver.
Context {R : Type}.

Definition enqueue (it : QueueItem) (g : Gpu) : Gpu :=
  g <| gpu_queue := gpu_queue g ++ [it] |>.

Definition alloc (r : Resource) : M R Handle := fun w =>
  let g := w_gpu w in
  let h := gpu_next g in
  (Continue h,
   w <| w_gpu := g <| gpu_resources := <[h := r]> (gpu_resources g) |>
                   <| gpu_next := N.succ h |> |>).

Definition initial_bytes (desc : D3D12_RESOURCE_DESC) : list Byte.byte :=
  match desc with
  | Buffer width => repeat Byte.x00 (Z.to_nat width)
  | _ => []
  end.

(** [ID3D12Device::CreateCommittedResource] *)
Definition Device_CreateCommittedResource (site : Fn)
    (heap : D3D12_HEAP_TYPE) (desc : D3D12_RESOURCE_DESC) (state : Z)
  : M R (Z * ComPtr Handle) :=
  hr ← hresult site (CreateCommittedResource heap desc state);
  if FAILED hr then mret (hr, nullptr)
  else
    h ← alloc {| res_heap := heap; res_desc := desc; res_state := state;
                 res_bytes := initial_bytes desc |};
    mret (hr, Some h).

(** [ID3D12GraphicsCommandList::Reset], [::Close] and the recording calls *)
Definition CmdList_Reset (site : Fn) : M R Z :=
  hr ← hresult site CommandList_Reset;
  (if FAILED hr then mret tt
   else update_gpu (fun g => g <| gpu_cmdlist := {| cl_recording := true; cl_commands := [] |} |>));;
  mret hr.

Definition CmdList_Close (site : Fn) : M R Z :=
  hr ← hresult site CommandList_Close;
  (if FAILED hr then mret tt
   else update_gpu (fun g => g <| gpu_cmdlist :=
          {| cl_recording := false; cl_commands := cl_commands (gpu_cmdlist g) |} |>));;
  mret hr.

Definition record (c : Command) : M R unit :=
  update_gpu (fun g => g <| gpu_cmdlist :=
    {| cl_recording := cl_recording (gpu_cmdlist g);
       cl_commands := cl_commands (gpu_cmdlist g) ++ [c] |} |>).

(** [ID3D12CommandQueue::ExecuteCommandLists] with the one command list *)
Definition Queue_ExecuteCommandLists (site : Fn) : M R unit :=
  api site ExecuteCommandLists;;
  update_gpu (fun g => enqueue (QExecute (cl_commands (gpu_cmdlist g))) g).

(** [ID3D12CommandQueue::Signal]: the fence takes the value once the GPU
    has retired everything submitted before. *)
Definition Queue_Signal (site : Fn) (value : Z) : M R Z :=
  hr ← hresult site (Signal value);
  (if FAILED hr then mret tt else update_gpu (enqueue (QSignal value)));;
  mret hr.

(** [ID3D12Fence::GetCompletedValue]: by the time the CPU looks, the GPU
    has retired some more items, as many as the environment says. *)
Definition Fence_GetCompletedValue (site : Fn) : M R Z :=
  api site GetCompletedValue;;
  n ← answer;
  update_gpu (gpu_run (Z.to_nat n));;
  w ← get;
  mret (gpu_fence (w_gpu w)).

(** Parks the thread until the fence has reached [value]. *)
Definition block_until (value : Z) : M R unit := fun w =>
  match gpu_run_until value (w_gpu w) with
  | Some g' => (Continue tt, w <| w_gpu := g' |>)
  | None => (Abort WaitsForever, w)
  end.

(** [CreateEventEx]: a handle, or [NULL] when the answer is an error. *)
Definition Win32_CreateEventEx (site : Fn) : M R (ComPtr unit) :=
  api site CreateEventEx;;
  e ← answer;
  mret (if e =? 0 then Some tt else nullptr).

(** [ID3D12Fence::SetEventOnCompletion]: arms the event; with a null
    event the call itself does not come back before the value is reached. *)
Definition Fence_SetEventOnCompletion (site : Fn) (value : Z) (hEvent : ComPtr unit) : M R Z :=
  hr ← hresult site (SetEventOnCompletion value hEvent);
  (if FAILED hr then mret tt
   else match hEvent with
        | Some _ => mret tt
        | None => block_until value
        end);;
  mret hr.

(** [WaitForSingleObject(h, INFINITE)] on an event armed for [value];
    on a null handle it fails at once. *)
Definition Win32_WaitForSingleObject (site : Fn) (hEvent : ComPtr unit) (value : Z) : M R unit :=
  api site (WaitForSingleObject hEvent);;
  match hEvent with
  | Some _ => block_until value
  | None => mret tt
  end.

Fixpoint alloc_back_buffers (n : nat) (width height format : Z) : M R (list Handle) :=
  match n with
  | O => mret []
  | S n' =>
      h ← alloc {| res_heap := D3D12_HEAP_TYPE_DEFAULT;
                   res_desc := BackBufferDesc width height format;
                   res_state := D3D12_RESOURCE_STATE_PRESENT;
                   res_bytes := [] |};
      hs ← alloc_back_buffers n' width height format;
      mret (h :: hs)
  end.

(** [IDXGIFactory::CreateSwapChain] *)
Definition Factory_CreateSwapChain (site : Fn)
    (width height format sampleCount sampleQuality bufferCount : Z)
  : M R (Z * ComPtr SwapChain) :=
  hr ← hresult site DXGI_CreateSwapChain;
  if FAILED hr then mret (hr, nullptr)
  else
    bs ← alloc_back_buffers (Z.to_nat bufferCount) width height format;
    mret (hr, Some {| sc_Width := width; sc_Height := height; sc_Format := format;
                      sc_SampleCount := sampleCount; sc_SampleQuality := sampleQuality;
                      sc_BufferCount := bufferCount; sc_buffers := bs |}).

(** [IDXGISwapChain::ResizeBuffers]: new buffers of the new size. *)
Definition SwapChain_ResizeBuffers (site : Fn) (sc : SwapChain)
    (bufferCount width height format : Z) : M R (Z * SwapChain) :=
  hr ← hresult site (ResizeBuffers bufferCount width height format);
  if FAILED hr then mret (hr, sc)
  else
    update_gpu (fun g => g <| gpu_resources :=
      foldr (fun h rs => delete h rs) (gpu_resources g) (sc_buffers sc) |>);;
    bs ← alloc_back_buffers (Z.to_nat bufferCount) width height format;
    mret (hr, {| sc_Width := width; sc_Height := height; sc_Format := format;
                 sc_SampleCount := sc_SampleCount sc;
                 sc_SampleQuality := sc_SampleQuality sc;
                 sc_BufferCount := bufferCount; sc_buffers := bs |}).

Definition E_INVALIDARG : Z := -2147024809.

(** [IDXGISwapChain::GetBuffer] *)
Definition SwapChain_GetBuffer (site : Fn) (sc : SwapChain) (i : Z) : M R (Z * ComPtr Handle) :=
  hr ← hresult site (GetBuffer i);
  if FAILED hr then mret (hr, nullptr)
  else match sc_buffers sc !! Z.to_nat i with
       | Some h => mret (hr, Some h)
       | None => mret (E_INVALIDARG, nullptr)
       end.

(** [IDXGISwapChain::Present] *)
Definition SwapChain_Present (site : Fn) : M R Z :=
  hr ← hresult site Present;
  (if FAILED hr then mret tt else update_gpu (enqueue QPresent));;
  mret hr.

(** A call that hands out an object: the pointer is set on success. *)
Definition create (site : Fn) (a : Api) : M R (Z * ComPtr unit) :=
  hr ← hresult site a;
  mret (hr, if FAILED hr then nullptr else Some tt).

(** [if (FAILED(hr)) { MessageBox(0, text, L"ERROR", MB_OK); return r; }] *)
Definition check (site : Fn) (hr : Z) (text : string) (r : R) : M R unit :=
  if FAILED hr then api site (MessageBox text "ERROR");; return_ r
  else mret tt.

End Driver.

(** ** The program *)

Section Program.

Variable cfg : BuildConfig.

(** [assert(cond && msg)] of <assert.h> *)
Definition assert {R} (cond : bool) (msg : string) : M R unit :=
  if def_NDEBUG cfg then mret tt
  else if cond then mret tt
  else abort (AssertionFailed msg).

Definition is_null {A} (p : ComPtr A) : bool :=
  match p with Some _ => false | None => true end.

(** *** FlushCommandQueue *)

Definition FlushCommandQueue : M unit unit :=
  enter FnFlushCommandQueue;;
  (* increment to the fence value we need the GPU to catch up to *)
  update_app (fun g => g <| m_CurrentFence := wrap64 (m_CurrentFence g + 1) |>);;
  queue ← app m_CommandQueue;
  deref queue;;
  target ← app m_CurrentFence;
  hr ← Queue_Signal FnFlushCommandQueue target;
  check FnFlushCommandQueue hr "Failed to signal new fence value to command queue!" tt;;
  fence ← app m_Fence;
  deref fence;;
  completed ← Fence_GetCompletedValue FnFlushCommandQueue;
  if completed <? target then
    eventHandle ← Win32_CreateEventEx FnFlushCommandQueue;
    hr ← Fence_SetEventOnCompletion FnFlushCommandQueue target eventHandle;
    check FnFlushCommandQueue hr "Failed to set up event waiting for fence value completion!" tt;;
    Win32_WaitForSingleObject FnFlushCommandQueue eventHandle target;;
    api FnFlushCommandQueue CloseHandle
  else mret tt.

(** *** CalcConstantBufferByteSize *)

(** [(byteSize + 255) & ~255] in [UINT] arithmetic *)
Definition CalcConstantBufferByteSize (byteSize : Z) : Z :=
  Z.land (wrap32 (byteSize + 255)) (not32 255).

(** *** CreateDefaultBuffer *)

(** Modelled from the spec: [UpdateSubresources<1>] of Common/d3dx12.h,
    which is not among the sources.  For a buffer it copies the caller's
    [byteSize] bytes into the mapped upload resource and records a copy of
    that byte range from the upload resource into the destination. *)
Definition UpdateSubresources (dest intermediate : ComPtr Handle)
    (data : list Byte.byte) (byteSize : Z) : M (ComPtr Handle * ComPtr Handle) unit :=
  up ← deref intermediate;
  update_gpu (fun g =>
    match gpu_resources g !! up with
    | Some r => g <| gpu_resources :=
                  <[up := set_bytes (splice (res_bytes r) 0 (take (Z.to_nat byteSize) data)) r]>
                    (gpu_resources g) |>
    | None => g
    end);;
  record (CopyBufferRegion dest 0 intermediate 0 byteSize).

(** The result is the pair of the returned pointer and the value left in
    the reference parameter [uploadBuffer]. *)
Definition CreateDefaultBuffer (device cmdList : ComPtr unit)
    (data : list Byte.byte) (byteSize : Z) (uploadBuffer : ComPtr Handle)
  : M (ComPtr Handle * ComPtr Handle) (ComPtr Handle * ComPtr Handle) :=
  enter FnCreateDefaultBuffer;;
  (* create the resource *)
  deref device;;
  '(hr, defaultBuffer) ← Device_CreateCommittedResource FnCreateDefaultBuffer
      D3D12_HEAP_TYPE_DEFAULT (Buffer byteSize) D3D12_RESOURCE_STATE_COMMON;
  check FnCreateDefaultBuffer hr "Failed to create buffer on default heap!"
    (nullptr, uploadBuffer);;
  (* create intermediate upload heap to copy our data from *)
  '(hr, uploadBuffer) ← Device_CreateCommittedResource FnCreateDefaultBuffer
      D3D12_HEAP_TYPE_UPLOAD (Buffer byteSize) D3D12_RESOURCE_STATE_GENERIC_READ;
  check FnCreateDefaultBuffer hr
    "Failed to create buffer on upload heap for intermediate data transfer to a default buffer!"
    (nullptr, uploadBuffer);;
  (* schedule copy of data to the default buffer resource *)
  deref cmdList;;
  record (ResourceBarrier defaultBuffer
            D3D12_RESOURCE_STATE_COMMON D3D12_RESOURCE_STATE_COPY_DEST);;
  UpdateSubresources defaultBuffer uploadBuffer data byteSize;;
  record (ResourceBarrier defaultBuffer
            D3D12_RESOURCE_STATE_COPY_DEST D3D12_RESOURCE_STATE_GENERIC_READ);;
  return_ (defaultBuffer, uploadBuffer).

(** *** CreateCommandObjects, CreateSwapChain, CreateDescriptorHeaps *)

Definition CreateCommandObjects : M bool bool :=
  enter FnCreateCommandObjects;;
  device ← app m_D3dDevice;
  deref device;;
  '(hr, queue) ← create FnCreateCommandObjects CreateCommandQueue;
  update_app (fun g => g <| m_CommandQueue := queue |>);;
  check FnCreateCommandObjects hr "Failed to create command queue!" false;;
  '(hr, allocator) ← create FnCreateCommandObjects CreateCommandAllocator;
  update_app (fun g => g <| m_DirectCommandListAllocator := allocator |>);;
  check FnCreateCommandObjects hr "Failed to create command allocator!" false;;
  '(hr, list) ← create FnCreateCommandObjects CreateCommandList;
  update_app (fun g => g <| m_CommandList := list |>);;
  (if FAILED hr then mret tt
   else update_gpu (fun g => g <| gpu_cmdlist := {| cl_recording := true; cl_commands := [] |} |>));;
  check FnCreateCommandObjects hr "Failed to create command list!" false;;
  (* close the command list from the start, so that we can reset it *)
  CmdList_Close FnCreateCommandObjects;;
  return_ true.

Definition sample_count (g : DxApp) : Z := if m_MsaaEnabled g then 4 else 1.
Definition sample_quality (g : DxApp) : Z :=
  if m_MsaaEnabled g then wrap32 (m_4xMsaaQuality g - 1) else 0.

Definition CreateSwapChain : M bool bool :=
  enter FnCreateSwapChain;;
  update_app (fun g => g <| m_SwapChain := nullptr |>);;
  g ← app id;
  factory ← app m_DxgiFactory;
  deref factory;;
  '(hr, sc) ← Factory_CreateSwapChain FnCreateSwapChain
      (wrap32 (m_ClientWidth g)) (wrap32 (m_ClientHeight g))
      Settings.m_BackBufferFormat (sample_count g) (sample_quality g)
      Settings.s_SwapChainBufferCount;
  update_app (fun g => g <| m_SwapChain := sc |>);;
  check FnCreateSwapChain hr "Failed to create swap chain!" false;;
  return_ true.

Definition CreateDescriptorHeaps : M bool bool :=
  enter FnCreateDescriptorHeaps;;
  device ← app m_D3dDevice;
  deref device;;
  '(hr, heap) ← create FnCreateDescriptorHeaps
      (CreateDescriptorHeap D3D12_DESCRIPTOR_HEAP_TYPE_RTV Settings.s_SwapChainBufferCount);
  update_app (fun g => g <| m_RtvHeap := heap |>);;
  check FnCreateDescriptorHeaps hr "Failed to create RTV heap!" false;;
  '(hr, heap) ← create FnCreateDescriptorHeaps
      (CreateDescriptorHeap D3D12_DESCRIPTOR_HEAP_TYPE_DSV 1);
  update_app (fun g => g <| m_DsvHeap := heap |>);;
  check FnCreateDescriptorHeaps hr "Failed to create DSV heap!" false;;
  return_ true.

(** *** InitD3D *)

(** The function body is written in the three parts its comments name:
    the debug layer, factory, device, fence and descriptor sizes; the block
    [// 4x MSAA Quality { ... }]; and [// other]. *)

Definition InitD3D_device : M bool unit :=
  (* debug layers *)
  (if def_DEBUG cfg || def__DEBUG cfg then
     hr ← hresult FnInitD3D D3D12GetDebugInterface;
     if FAILED hr
     then api FnInitD3D (MessageBox "Couldn't create debug layer for DX12!" "WARNING")
     else api FnInitD3D EnableDebugLayer
   else mret tt);;
  (* DXGI *)
  '(hr, factory) ← create FnInitD3D CreateDXGIFactory1;
  update_app (fun g => g <| m_DxgiFactory := factory |>);;
  check FnInitD3D hr "Couldn't create DXGI factory!" false;;
  (* attempt creating a hardware device *)
  '(hardwareResult, device) ← create FnInitD3D (D3D12CreateDevice false);
  update_app (fun g => g <| m_D3dDevice := device |>);;
  (* fallback to software renderer *)
  (if FAILED hardwareResult then
     factory ← app m_DxgiFactory;
     deref factory;;
     hr ← hresult FnInitD3D EnumWarpAdapter;
     check FnInitD3D hr
       "Couldn't find WARP adapter, falling back to software rendering failed!" false;;
     '(hr, device) ← create FnInitD3D (D3D12CreateDevice true);
     update_app (fun g => g <| m_D3dDevice := device |>);;
     check FnInitD3D hr "Couldn't init D3D12 with default or warp adapter" false;;
     api FnInitD3D (MessageBox
       "Couldn't find phyical graphics adapter, fallback to software rendering!" "WARNING")
   else mret tt);;
  (* Fence for synchronizing CPU and GPU *)
  device ← app m_D3dDevice;
  deref device;;
  '(hr, fence) ← create FnInitD3D (CreateFence 0);
  update_app (fun g => g <| m_Fence := fence |>);;
  (if FAILED hr then mret tt else update_gpu (fun g => g <| gpu_fence := 0 |>));;
  check FnInitD3D hr "Couldn't create a D3D12 Fence" false;;
  (* Descriptor sizes *)
  api FnInitD3D (GetDescriptorHandleIncrementSize D3D12_DESCRIPTOR_HEAP_TYPE_RTV);;
  size ← answer;
  update_app (fun g => g <| m_RtvDescriptorSize := wrap32 size |>);;
  api FnInitD3D (GetDescriptorHandleIncrementSize D3D12_DESCRIPTOR_HEAP_TYPE_DSV);;
  size ← answer;
  update_app (fun g => g <| m_DsvDescriptorSize := wrap32 size |>);;
  api FnInitD3D (GetDescriptorHandleIncrementSize D3D12_DESCRIPTOR_HEAP_TYPE_CBV_SRV_UAV);;
  size ← answer;
  update_app (fun g => g <| m_CbvSrvUavDescriptorSize := wrap32 size |>).

(** The query answers an [HRESULT] and, when it succeeds, the number of
    quality levels (which the caller had set to 0 before the call). *)
Definition InitD3D_msaa : M bool unit :=
  device ← app m_D3dDevice;
  deref device;;
  hr ← hresult FnInitD3D CheckFeatureSupport;
  check FnInitD3D hr "Couldn't check MSAA quality levels" false;;
  NumQualityLevels ← answer;
  update_app (fun g => g <| m_4xMsaaQuality := wrap32 NumQualityLevels |>);;
  quality ← app m_4xMsaaQuality;
  assert (0 <? quality) "Unexpected MSAA quality level!".

Definition InitD3D_other : M bool bool :=
  (if def__DEBUG cfg then api FnInitD3D LogAdapters else mret tt);;
  ok ← call CreateCommandObjects;
  (if negb ok then return_ false else mret tt);;
  ok ← call CreateSwapChain;
  (if negb ok then return_ false else mret tt);;
  ok ← call CreateDescriptorHeaps;
  (if negb ok then return_ false else mret tt);;
  return_ true.

Definition InitD3D : M bool bool :=
  enter FnInitD3D;;
  InitD3D_device;;
  InitD3D_msaa;;
  InitD3D_other.

(** *** Accessors *)

Definition CurrentBackBuffer {R} : M R (ComPtr Handle) :=
  g ← app id;
  if (0 <=? m_CurrentBackBuffer g) && (m_CurrentBackBuffer g <? Settings.s_SwapChainBufferCount)
  then match m_SwapChainBuffer g !! Z.to_nat (m_CurrentBackBuffer g) with
       | Some p => mret p
       | None => abort IndexOutOfRange
       end
  else abort IndexOutOfRange.

(** The CPU descriptor handle, as an offset from the start of the heap. *)
Definition CurrentBackBufferView {R} : M R Z :=
  g ← app id;
  deref (m_RtvHeap g);;
  mret (m_CurrentBackBuffer g * m_RtvDescriptorSize g).

Definition DepthStencilView {R} : M R Z :=
  heap ← app m_DsvHeap;
  deref heap;;
  mret 0.

Definition AspectRatio (g : DxApp) : float :=
  F32.div (F32.of_int (m_ClientWidth g)) (F32.of_int (m_ClientHeight g)).

(** *** OnResize *)

(** The loop [for (i = 0; i < s_SwapChainBufferCount; ++i)] that fetches
    the buffers and creates their views, from index [i] with [n] rounds
    left. *)
Fixpoint OnResize_views (n : nat) (i : Z) (rtvHeapHandle : Z) : M unit unit :=
  match n with
  | O => mret tt
  | S n' =>
      sc ← app m_SwapChain;
      sc ← deref sc;
      '(hr, buffer) ← SwapChain_GetBuffer FnOnResize sc i;
      update_app (fun g => g <| m_SwapChainBuffer :=
                    <[Z.to_nat i := buffer]> (m_SwapChainBuffer g) |>);;
      check FnOnResize hr "Failed to get buffer resource from swap chain!" tt;;
      device ← app m_D3dDevice;
      deref device;;
      api FnOnResize (CreateRenderTargetView buffer rtvHeapHandle);;
      size ← app m_RtvDescriptorSize;
      OnResize_views n' (i + 1) (rtvHeapHandle + 1 * size)
  end.

Definition OnResize : M unit unit :=
  enter FnOnResize;;
  g ← app id;
  assert (negb (is_null (m_D3dDevice g))) "g_DxApp.m_D3dDevice != nullptr";;
  assert (negb (is_null (m_SwapChain g))) "g_DxApp.m_SwapChain != nullptr";;
  assert (negb (is_null (m_DirectCommandListAllocator g)))
    "g_DxApp.m_DirectCommandListAllocator != nullptr";;
  (* cleanup *)
  call FlushCommandQueue;;
  list ← app m_CommandList;
  deref list;;
  hr ← CmdList_Reset FnOnResize;
  check FnOnResize hr "Failed to reset the command buffer!" tt;;
  (* Release resources that will be recreated *)
  update_app (fun g => g <| m_SwapChainBuffer := [nullptr; nullptr] |>);;
  update_app (fun g => g <| m_DepthStencilBuffer := nullptr |>);;
  (* Resize swap chain *)
  g ← app id;
  sc ← deref (m_SwapChain g);
  '(hr, sc) ← SwapChain_ResizeBuffers FnOnResize sc Settings.s_SwapChainBufferCount
      (wrap32 (m_ClientWidth g)) (wrap32 (m_ClientHeight g)) Settings.m_BackBufferFormat;
  update_app (fun g => g <| m_SwapChain := Some sc |>);;
  check FnOnResize hr "Failed to resize swap chain buffers!" tt;;
  update_app (fun g => g <| m_CurrentBackBuffer := 0 |>);;
  (* Render Target View *)
  heap ← app m_RtvHeap;
  deref heap;;
  OnResize_views (Z.to_nat Settings.s_SwapChainBufferCount) 0 0;;
  (* Depth stencil texture *)
  g ← app id;
  device ← app m_D3dDevice;
  deref device;;
  '(hr, depth) ← Device_CreateCommittedResource FnOnResize D3D12_HEAP_TYPE_DEFAULT
      (Texture2D (wrap64 (m_ClientWidth g)) (wrap32 (m_ClientHeight g))
         Settings.m_DepthStencilFormat (sample_count g) (sample_quality g))
      D3D12_RESOURCE_STATE_COMMON;
  update_app (fun g => g <| m_DepthStencilBuffer := depth |>);;
  check FnOnResize hr "Failed to get buffer resource from swap chain!" tt;;
  (* create depth stencil view *)
  DepthStencilView;;
  api FnOnResize (CreateDepthStencilView depth);;
  (* Transition resource from initial state to use as a depth buffer *)
  record (ResourceBarrier depth
            D3D12_RESOURCE_STATE_COMMON D3D12_RESOURCE_STATE_DEPTH_WRITE);;
  (* execute commands and wait for them to complete *)
  hr ← CmdList_Close FnOnResize;
  check FnOnResize hr "Command list failed to close!" tt;;
  queue ← app m_CommandQueue;
  deref queue;;
  Queue_ExecuteCommandLists FnOnResize;;
  call FlushCommandQueue;;
  (* reset viewport *)
  update_app (fun g => g <| m_ScreenViewport :=
    {| TopLeftX := F32.f0; TopLeftY := F32.f0;
       Width := F32.of_int (m_ClientWidth g);
       Height := F32.of_int (m_ClientHeight g);
       MinDepth := F32.f0; MaxDepth := F32.f1 |} |>);;
  update_app (fun g => g <| m_ScissorRect :=
    {| rc_left := 0; rc_top := 0;
       rc_right := m_ClientWidth g; rc_bottom := m_ClientHeight g |} |>);;
  (* recalc projection matrix *)
  update_app (fun g => g <| m_Proj :=
    XMMatrixPerspectiveFovLH (F32.mul F32.f0_25 MathHelper.Pi) (AspectRatio g)
      F32.f1 F32.f1000 |>).

(** *** SetMsaaEnabled *)

Definition SetMsaaEnabled (enabled : bool) : M unit unit :=
  enter FnSetMsaaEnabled;;
  current ← app m_MsaaEnabled;
  if negb (Bool.eqb current enabled) then
    update_app (fun g => g <| m_MsaaEnabled := enabled |>);;
    (* recreate swapchain and buffers with new settings *)
    call CreateSwapChain;;
    call OnResize
  else mret tt.

(** *** GameTimer, on [g_DxApp.m_Timer] *)

(** The member functions of [GameTimer], called on the timer of the
    application: each asks the performance counter where the source does
    and leaves the timer as the function of the same name in the module
    [GameTimer] says. *)

(** [QueryPerformanceCounter], which fills in an [__int64] *)
Definition QueryCounter {R} : M R Z :=
  api FnGameTimer QueryPerformanceCounter;; reading.

Definition update_timer {R} (f : GameTimer.t -> GameTimer.t) : M R unit :=
  update_app (fun g => g <| m_Timer := f (m_Timer g) |>).

Definition Timer_Reset {R} : M R unit :=
  currTime ← QueryCounter;
  update_timer (GameTimer.Reset currTime).

Definition Timer_Start {R} : M R unit :=
  startTime ← QueryCounter;
  update_timer (GameTimer.Start startTime).

(** A stopped timer does not read the counter. *)
Definition Timer_Stop {R} : M R unit :=
  stopped ← app (fun g : DxApp => GameTimer.m_IsStopped (m_Timer g));
  if negb stopped then
    currTime ← QueryCounter;
    update_timer (GameTimer.Stop currTime)
  else mret tt.

(** A stopped timer returns from [Tick] before the counter is read; the
    reading plays no part in what [GameTimer.Tick] does to it. *)
Definition Timer_Tick {R} : M R unit :=
  stopped ← app (fun g : DxApp => GameTimer.m_IsStopped (m_Timer g));
  if (stopped : bool) then
    update_timer (GameTimer.Tick 0)
  else
    currTime ← QueryCounter;
    update_timer (GameTimer.Tick currTime).

(** *** CalculateFrameStats *)

(** The two statics are part of the world; [SetWindowText] is given the
    title, of which the two numbers are kept. *)
Definition CalculateFrameStats : M unit unit :=
  enter FnCalculateFrameStats;;
  timer ← app m_Timer;
  s ← statics;
  let r := FrameStats.CalculateFrameStats timer s in
  match snd r with
  | Some (fps, mspf) => api FnCalculateFrameStats (SetWindowText fps mspf)
  | None => mret tt
  end;;
  set_statics (fst r).

(** *** Mouse *)

Definition MK_LBUTTON : Z := 1.
Definition MK_RBUTTON : Z := 2.

Definition OnMouseDown (btnState x y : Z) : M unit unit :=
  enter FnOnMouseDown;;
  update_app (fun g => g <| m_LastMousePos := {| pt_x := x; pt_y := y |} |>);;
  api FnOnMouseDown SetCapture.

Definition OnMouseUp (btnState x y : Z) : M unit unit :=
  enter FnOnMouseUp;;
  api FnOnMouseUp ReleaseCapture.

(** The body of [OnMouseMove] on the globals. *)
Definition OnMouseMove_app (btnState x y : Z) (g : DxApp) : DxApp :=
  let g :=
    if negb (Z.land btnState MK_LBUTTON =? 0) then
      (* 1 pixel = 0.25 degrees *)
      let dx := F32.XMConvertToRadians
                  (F32.mul F32.f0_25 (F32.of_int (x - pt_x (m_LastMousePos g)))) in
      let dy := F32.XMConvertToRadians
                  (F32.mul F32.f0_25 (F32.of_int (y - pt_y (m_LastMousePos g)))) in
      let g := g <| m_Theta := F32.add (m_Theta g) dx |> in
      let g := g <| m_Phi := F32.add (m_Phi g) dy |> in
      g <| m_Phi := MathHelper.Clamp (m_Phi g) F32.f0_1 (F32.sub MathHelper.Pi F32.f0_1) |>
    else if negb (Z.land btnState MK_RBUTTON =? 0) then
      (* 1 pixel = 0.005 units *)
      let dx := F32.mul F32.f0_005 (F32.of_int (x - pt_x (m_LastMousePos g))) in
      let dy := F32.mul F32.f0_005 (F32.of_int (y - pt_y (m_LastMousePos g))) in
      let g := g <| m_Radius := F32.add (m_Radius g) (F32.sub dx dy) |> in
      g <| m_Radius := MathHelper.Clamp (m_Radius g) F32.f3 F32.f15 |>
    else g in
  g <| m_LastMousePos := {| pt_x := x; pt_y := y |} |>.

Definition OnMouseMove (btnState x y : Z) : M unit unit :=
  enter FnOnMouseMove;;
  update_app (OnMouseMove_app btnState x y).

(** *** Shaders, geometry and pipeline state *)

Definition CompileShader (entrypoint target : string) : M (ComPtr unit) (ComPtr unit) :=
  enter FnCompileShader;;
  hr ← hresult FnCompileShader (D3DCompile entrypoint target);
  errors ← answer;
  (if negb (errors =? 0) then api FnCompileShader OutputDebugStringA else mret tt);;
  check FnCompileShader hr "Failed to compile shader!" nullptr;;
  return_ (Some tt).

Definition BuildDescriptorHeaps : M unit unit :=
  enter FnBuildDescriptorHeaps;;
  device ← app m_D3dDevice;
  deref device;;
  '(hr, heap) ← create FnBuildDescriptorHeaps
      (CreateDescriptorHeap D3D12_DESCRIPTOR_HEAP_TYPE_CBV_SRV_UAV 1);
  update_app (fun g => g <| m_CbvHeap := heap |>);;
  check FnBuildDescriptorHeaps hr "Failed to create CB descriptor heap!" tt.

Definition sizeof_ObjectConstants : Z := 64.
Definition sizeof_Vertex : Z := 28.
Definition sizeof_uint16 : Z := 2.

(** The constructor of [UploadBuffer<ObjectConstants>]; it returns early,
    leaving the object half built, when a call fails. *)
Definition UploadBuffer_ctor (device : ComPtr unit) (elementCount : Z)
    (isConstantBuffer : bool) : M UploadBuffer UploadBuffer :=
  enter FnUploadBuffer;;
  let elementByteSize :=
    if isConstantBuffer then CalcConstantBufferByteSize sizeof_ObjectConstants
    else sizeof_ObjectConstants in
  let this := {| m_UploadBuffer := nullptr; m_MappedData := nullptr;
                 m_ElementByteSize := elementByteSize;
                 m_IsConstantBuffer := isConstantBuffer |} in
  deref device;;
  '(hr, buffer) ← Device_CreateCommittedResource FnUploadBuffer D3D12_HEAP_TYPE_UPLOAD
      (Buffer (wrap32 (elementByteSize * elementCount))) D3D12_RESOURCE_STATE_GENERIC_READ;
  let this := {| m_UploadBuffer := buffer; m_MappedData := nullptr;
                 m_ElementByteSize := elementByteSize;
                 m_IsConstantBuffer := isConstantBuffer |} in
  (if FAILED hr then
     api FnUploadBuffer (MessageBox "Creating resource for wrapped upload buffer failed!" "ERROR");;
     return_ this
   else mret tt);;
  hr ← hresult FnUploadBuffer Resource_Map;
  (if FAILED hr then
     api FnUploadBuffer (MessageBox "Mapping wrapped upload buffer to data pointer failed!" "ERROR");;
     return_ this
   else mret tt);;
  return_ {| m_UploadBuffer := buffer; m_MappedData := Some Identity4x4;
             m_ElementByteSize := elementByteSize;
             m_IsConstantBuffer := isConstantBuffer |}.

Definition BuildConstantBuffers : M unit unit :=
  enter FnBuildConstantBuffers;;
  device ← app m_D3dDevice;
  cb ← call (UploadBuffer_ctor device 1 true);
  update_app (fun g => g <| m_ObjectCB := Some cb |>);;
  let objCBByteSize := CalcConstantBufferByteSize sizeof_ObjectConstants in
  (* m_ObjectCB->Resource()->GetGPUVirtualAddress() *)
  deref (m_UploadBuffer cb);;
  deref device;;
  heap ← app m_CbvHeap;
  deref heap;;
  api FnBuildConstantBuffers (CreateConstantBufferView objCBByteSize).

Definition BuildRootSignature : M unit unit :=
  enter FnBuildRootSignature;;
  hr ← hresult FnBuildRootSignature D3D12SerializeRootSignature;
  errorBlob ← answer;
  (if negb (errorBlob =? 0) then
     api FnBuildRootSignature OutputDebugStringA;;
     check FnBuildRootSignature hr "Failed to serialize root signature!" tt
   else mret tt);;
  device ← app m_D3dDevice;
  deref device;;
  (* serializedRootSig->GetBufferPointer() *)
  deref (if FAILED hr then nullptr else Some tt);;
  '(hr, sig) ← create FnBuildRootSignature CreateRootSignature;
  update_app (fun g => g <| m_RootSignature := sig |>);;
  check FnBuildRootSignature hr "Failed to create root signature!" tt.

Definition BuildShadersAndInputLayout : M unit unit :=
  enter FnBuildShadersAndInputLayout;;
  vs ← call (CompileShader "VS" "vs_5_0");
  update_app (fun g => g <| m_VsByteCode := vs |>);;
  ps ← call (CompileShader "PS" "ps_5_0");
  update_app (fun g => g <| m_PsByteCode := ps |>).

(** The bytes of a [std::uint16_t], little endian. *)
Definition byte_of_Z (z : Z) : Byte.byte :=
  match Byte.of_N (Z.to_N (z mod 256)) with
  | Some b => b
  | None => Byte.x00
  end.
Definition bytes_of_uint16 (z : Z) : list Byte.byte :=
  [byte_of_Z z; byte_of_Z (Z.shiftr z 8)].

Definition box_indices : list Z :=
  [ 0; 1; 2;   0; 2; 3;    (* front *)
    4; 6; 5;   4; 7; 6;    (* back *)
    4; 5; 1;   4; 1; 0;    (* left *)
    3; 2; 6;   3; 6; 7;    (* right *)
    1; 5; 6;   1; 6; 2;    (* top *)
    4; 0; 3;   4; 3; 7 ].  (* bottom *)

Definition box_index_bytes : list Byte.byte :=
  concat (map bytes_of_uint16 box_indices).

(** The memory image of a [float]: its IEEE 754 binary32 encoding. *)
Definition bits_of_float (x : float) : Z :=
  match x with
  | S754_zero s => if s then 2 ^ 31 else 0
  | S754_infinity s => (if s then 2 ^ 31 else 0) + 255 * 2 ^ 23
  | S754_nan => 255 * 2 ^ 23 + 2 ^ 22
  | S754_finite s m e =>
      (if s then 2 ^ 31 else 0) +
      (if Z.pos m <? 2 ^ 23 then Z.pos m
       else (e + 150) * 2 ^ 23 + (Z.pos m - 2 ^ 23))
  end.
Definition bytes_of_float (x : float) : list Byte.byte :=
  let b := bits_of_float x in
  [byte_of_Z b; byte_of_Z (Z.shiftr b 8); byte_of_Z (Z.shiftr b 16); byte_of_Z (Z.shiftr b 24)].

(** [struct Vertex { XMFLOAT3 m_Pos; XMFLOAT4 m_Color; }] *)
Record Vertex : Type := { m_Pos : float * float * float; m_Color : float * float * float * float }.

Definition bytes_of_Vertex (v : Vertex) : list Byte.byte :=
  let '(x, y, z) := m_Pos v in
  let '(r, g, b, a) := m_Color v in
  concat (map bytes_of_float [x; y; z; r; g; b; a]).

(** DirectXColors.h *)
Definition p1 : float := F32.f1.
Definition m1 : float := SFopp F32.f1.
Definition Colors_White := (F32.f1, F32.f1, F32.f1, F32.f1).
Definition Colors_Black := (F32.f0, F32.f0, F32.f0, F32.f1).
Definition Colors_Red := (F32.f1, F32.f0, F32.f0, F32.f1).
Definition Colors_Green := (F32.f0, F32.lit 8421505 (-24), F32.f0, F32.f1).
Definition Colors_Blue := (F32.f0, F32.f0, F32.f1, F32.f1).
Definition Colors_Yellow := (F32.f1, F32.f1, F32.f0, F32.f1).
Definition Colors_Cyan := (F32.f0, F32.f1, F32.f1, F32.f1).
Definition Colors_Magenta := (F32.f1, F32.f0, F32.f1, F32.f1).

Definition box_vertices : list Vertex :=
  [ {| m_Pos := (m1, m1, m1); m_Color := Colors_White |};
    {| m_Pos := (m1, p1, m1); m_Color := Colors_Black |};
    {| m_Pos := (p1, p1, m1); m_Color := Colors_Red |};
    {| m_Pos := (p1, m1, m1); m_Color := Colors_Green |};
    {| m_Pos := (m1, m1, p1); m_Color := Colors_Blue |};
    {| m_Pos := (m1, p1, p1); m_Color := Colors_Yellow |};
    {| m_Pos := (p1, p1, p1); m_Color := Colors_Cyan |};
    {| m_Pos := (p1, m1, p1); m_Color := Colors_Magenta |} ].

Definition box_vertex_bytes : list Byte.byte :=
  concat (map bytes_of_Vertex box_vertices).

Definition empty_geo (vcpu icpu : ComPtr (list Byte.byte)) : MeshGeometry :=
  {| m_Name := "boxGeo";
     m_VertexBufferCPU := vcpu; m_IndexBufferCPU := icpu;
     m_VertexBufferGPU := nullptr; m_IndexBufferGPU := nullptr;
     m_VertexBufferUploader := nullptr; m_IndexBufferUploader := nullptr;
     m_VertexByteStride := 0; m_VertexBufferByteSize := 0;
     m_IndexFormat := DXGI_FORMAT_R16_UINT; m_IndexBufferByteSize := 0;
     m_DrawArgs := ∅ |}.

Definition BuildBoxGeometry : M unit unit :=
  enter FnBuildBoxGeometry;;
  let vbByteSize := wrap32 (Z.of_nat (length box_vertices)) * sizeof_Vertex in
  let ibByteSize := wrap32 (Z.of_nat (length box_indices)) * sizeof_uint16 in
  update_app (fun g => g <| m_BoxGeo := Some (empty_geo nullptr nullptr) |>);;
  (* CPU side memory *)
  hr ← hresult FnBuildBoxGeometry (D3DCreateBlob vbByteSize);
  check FnBuildBoxGeometry hr "Failed to create CPU vertex buffer!" tt;;
  let vcpu := take (Z.to_nat vbByteSize) box_vertex_bytes in
  update_app (fun g => g <| m_BoxGeo := Some (empty_geo (Some vcpu) nullptr) |>);;
  hr ← hresult FnBuildBoxGeometry (D3DCreateBlob ibByteSize);
  check FnBuildBoxGeometry hr "Failed to create CPU index buffer!" tt;;
  let icpu := take (Z.to_nat ibByteSize) box_index_bytes in
  update_app (fun g => g <| m_BoxGeo := Some (empty_geo (Some vcpu) (Some icpu)) |>);;
  (* GPU side memory *)
  device ← app m_D3dDevice;
  list ← app m_CommandList;
  '(vgpu, vup) ← call (CreateDefaultBuffer device list box_vertex_bytes vbByteSize nullptr);
  '(igpu, iup) ← call (CreateDefaultBuffer device list box_index_bytes ibByteSize nullptr);
  update_app (fun g => g <| m_BoxGeo := Some
    {| m_Name := "boxGeo";
       m_VertexBufferCPU := Some vcpu; m_IndexBufferCPU := Some icpu;
       m_VertexBufferGPU := vgpu; m_IndexBufferGPU := igpu;
       m_VertexBufferUploader := vup; m_IndexBufferUploader := iup;
       m_VertexByteStride := sizeof_Vertex;
       m_VertexBufferByteSize := wrap32 vbByteSize;
       m_IndexFormat := DXGI_FORMAT_R16_UINT;
       m_IndexBufferByteSize := wrap32 ibByteSize;
       m_DrawArgs := {[ "box" := {| m_IndexCount := wrap32 (Z.of_nat (length box_indices));
                                    m_StartIndexLocation := 0;
                                    m_BaseVertexLocation := 0 |} ]} |} |>).

Definition BuildPSO : M unit unit :=
  enter FnBuildPSO;;
  g ← app id;
  deref (m_VsByteCode g);;
  deref (m_PsByteCode g);;
  deref (m_D3dDevice g);;
  '(hr, pso) ← create FnBuildPSO CreateGraphicsPipelineState;
  update_app (fun g => g <| m_PSO := pso |>);;
  check FnBuildPSO hr "Failed to create PSO!" tt.

(** *** OnInitialize *)

Definition OnInitialize : M unit unit :=
  enter FnOnInitialize;;
  list ← app m_CommandList;
  deref list;;
  hr ← CmdList_Reset FnOnInitialize;
  check FnOnInitialize hr "Failed to reset command list during init!" tt;;
  call BuildDescriptorHeaps;;
  call BuildConstantBuffers;;
  call BuildRootSignature;;
  call BuildShadersAndInputLayout;;
  call BuildBoxGeometry;;
  call BuildPSO;;
  (* execute all those commands *)
  hr ← CmdList_Close FnOnInitialize;
  check FnOnInitialize hr "Failed to close command list on init!" tt;;
  queue ← app m_CommandQueue;
  deref queue;;
  Queue_ExecuteCommandLists FnOnInitialize;;
  (* sync with CPU (wait) *)
  call FlushCommandQueue.

(** *** Update *)

Definition Update : M unit unit :=
  enter FnUpdate;;
  g ← app id;
  let view := XMMatrixLookAtLH_spherical (m_Radius g) (m_Phi g) (m_Theta g) in
  update_app (fun g => g <| m_View := view |>);;
  let worldViewProj := XMMatrixMultiply (XMMatrixMultiply (m_World g) view) (m_Proj g) in
  (* update cbuffer with that matrix *)
  cb ← deref (m_ObjectCB g);
  deref (m_MappedData cb);;
  api FnUpdate (Memcpy sizeof_ObjectConstants);;
  update_app (fun g => g <| m_ObjectCB := Some
    {| m_UploadBuffer := m_UploadBuffer cb;
       m_MappedData := Some (XMMatrixTranspose worldViewProj);
       m_ElementByteSize := m_ElementByteSize cb;
       m_IsConstantBuffer := m_IsConstantBuffer cb |} |>).

(** *** Draw *)

Definition Draw : M unit unit :=
  enter FnDraw;;
  (* prepare *)
  allocator ← app m_DirectCommandListAllocator;
  deref allocator;;
  hr ← hresult FnDraw CommandAllocator_Reset;
  check FnDraw hr "Failed to reset command list allocator!" tt;;
  list ← app m_CommandList;
  deref list;;
  hr ← CmdList_Reset FnDraw;
  check FnDraw hr "Failed to reset command list!" tt;;
  (* we need to reset viewport and scissor rect because command list reset *)
  g ← app id;
  record (RSSetViewports (m_ScreenViewport g));;
  record (RSSetScissorRects (m_ScissorRect g));;
  (* convert the old front buffer (read access) to a render target (write access) *)
  backBuffer ← CurrentBackBuffer;
  record (ResourceBarrier backBuffer
            D3D12_RESOURCE_STATE_PRESENT D3D12_RESOURCE_STATE_RENDER_TARGET);;
  (* Clear back and depth buffer *)
  rtv ← CurrentBackBufferView;
  record (ClearRenderTargetView rtv);;
  DepthStencilView;;
  record ClearDepthStencilView;;
  (* set render target (both color and depth) *)
  rtv ← CurrentBackBufferView;
  DepthStencilView;;
  record (OMSetRenderTargets rtv);;
  (* Draw scene *)
  record SetDescriptorHeaps;;
  record SetGraphicsRootSignature;;
  geo ← deref (m_BoxGeo g);
  deref (m_VertexBufferGPU geo);;
  record (IASetVertexBuffers (m_VertexBufferGPU geo)
            (m_VertexByteStride geo) (m_VertexBufferByteSize geo));;
  deref (m_IndexBufferGPU geo);;
  record (IASetIndexBuffer (m_IndexBufferGPU geo)
            (m_IndexFormat geo) (m_IndexBufferByteSize geo));;
  record IASetPrimitiveTopology;;
  deref (m_CbvHeap g);;
  record SetGraphicsRootDescriptorTable;;
  (* m_DrawArgs["box"]: a missing key is inserted with a zero submesh *)
  let zero := {| m_IndexCount := 0; m_StartIndexLocation := 0; m_BaseVertexLocation := 0 |} in
  let box := default zero (m_DrawArgs geo !! "box") in
  update_app (fun g => g <| m_BoxGeo := Some
    {| m_Name := m_Name geo;
       m_VertexBufferCPU := m_VertexBufferCPU geo; m_IndexBufferCPU := m_IndexBufferCPU geo;
       m_VertexBufferGPU := m_VertexBufferGPU geo; m_IndexBufferGPU := m_IndexBufferGPU geo;
       m_VertexBufferUploader := m_VertexBufferUploader geo;
       m_IndexBufferUploader := m_IndexBufferUploader geo;
       m_VertexByteStride := m_VertexByteStride geo;
       m_VertexBufferByteSize := m_VertexBufferByteSize geo;
       m_IndexFormat := m_IndexFormat geo;
       m_IndexBufferByteSize := m_IndexBufferByteSize geo;
       m_DrawArgs := <["box" := box]> (m_DrawArgs geo) |} |>);;
  record (DrawIndexedInstanced (m_IndexCount box) 1 0 0 0);;
  (* convert the back buffer to a front buffer for display *)
  backBuffer ← CurrentBackBuffer;
  record (ResourceBarrier backBuffer
            D3D12_RESOURCE_STATE_RENDER_TARGET D3D12_RESOURCE_STATE_PRESENT);;
  (* close command list so we can execute it, then queue it *)
  hr ← CmdList_Close FnDraw;
  check FnDraw hr "Failed to close command list!" tt;;
  queue ← app m_CommandQueue;
  deref queue;;
  Queue_ExecuteCommandLists FnDraw;;
  (* swap buffers *)
  sc ← app m_SwapChain;
  deref sc;;
  hr ← SwapChain_Present FnDraw;
  check FnDraw hr "Failed to present swap chain!" tt;;
  update_app (fun g => g <| m_CurrentBackBuffer :=
    Z.rem (m_CurrentBackBuffer g + 1) Settings.s_SwapChainBufferCount |>);;
  (* wait for GPU to catch up *)
  call FlushCommandQueue.

(** *** WndProc *)

Definition WM_CREATE : Z := 1.
Definition WM_DESTROY : Z := 2.
Definition WM_SIZE : Z := 5.
Definition WM_ACTIVATE : Z := 6.
Definition WM_QUIT : Z := 18.
Definition WM_GETMINMAXINFO : Z := 36.
Definition WM_KEYUP : Z := 257.
Definition WM_MOUSEMOVE : Z := 512.
Definition WM_LBUTTONDOWN : Z := 513.
Definition WM_LBUTTONUP : Z := 514.
Definition WM_RBUTTONDOWN : Z := 516.
Definition WM_RBUTTONUP : Z := 517.
Definition WM_MBUTTONDOWN : Z := 519.
Definition WM_MBUTTONUP : Z := 520.
Definition WM_ENTERSIZEMOVE : Z := 561.
Definition WM_EXITSIZEMOVE : Z := 562.

Definition WA_INACTIVE : Z := 0.
Definition SIZE_RESTORED : Z := 0.
Definition SIZE_MINIMIZED : Z := 1.
Definition SIZE_MAXIMIZED : Z := 2.
Definition VK_ESCAPE : Z := 27.
Definition VK_F2 : Z := 113.

Definition WndProc_SIZE (wParam lParam : Z) : M Z unit :=
  update_app (fun g => g <| m_ClientWidth := LOWORD lParam |>);;
  update_app (fun g => g <| m_ClientHeight := HIWORD lParam |>);;
  (* check minimized // maximized *)
  g ← app id;
  if negb (is_null (m_D3dDevice g)) then
    if wParam =? SIZE_MINIMIZED then
      update_app (fun g => g <| m_IsPaused := true |>);;
      update_app (fun g => g <| m_IsMinimized := true |>);;
      update_app (fun g => g <| m_IsMaximized := false |>)
    else if wParam =? SIZE_MAXIMIZED then
      update_app (fun g => g <| m_IsPaused := false |>);;
      update_app (fun g => g <| m_IsMinimized := false |>);;
      update_app (fun g => g <| m_IsMaximized := true |>);;
      call OnResize
    else if wParam =? SIZE_RESTORED then
      if m_IsMinimized g then
        update_app (fun g => g <| m_IsPaused := false |>);;
        update_app (fun g => g <| m_IsMinimized := false |>);;
        call OnResize
      else if m_IsMaximized g then
        update_app (fun g => g <| m_IsPaused := false |>);;
        update_app (fun g => g <| m_IsMaximized := false |>);;
        call OnResize
      else if m_IsResizing g then
        (* no action required, we will resize buffer when drag is finished *)
        mret tt
      else
        call OnResize
    else mret tt
  else mret tt.

Definition WndProc (hWnd msg wParam lParam : Z) : M Z Z :=
  enter FnWndProc;;
  (if msg =? WM_CREATE then
     (* init DX12 before window is shown *)
     (fun w => (Continue tt, w <| g_MainWnd := hWnd |>));;
     ok ← call InitD3D;
     (if negb ok then
        api FnWndProc (MessageBox "Initializing D3D 12 failed!" "ERROR");;
        api FnWndProc DestroyWindow;;
        return_ 0
      else mret tt);;
     call OnResize;;
     call OnInitialize;;
     return_ 0
   else if msg =? WM_ACTIVATE then
     (* make sure we don't render when the window isn't focused *)
     (if LOWORD wParam =? WA_INACTIVE then
        update_app (fun g => g <| m_IsPaused := true |>);;
        Timer_Stop
      else
        update_app (fun g => g <| m_IsPaused := false |>);;
        Timer_Start);;
     return_ 0
   else if msg =? WM_SIZE then
     WndProc_SIZE wParam lParam;;
     return_ 0
   else if msg =? WM_ENTERSIZEMOVE then
     update_app (fun g => g <| m_IsPaused := true |>);;
     update_app (fun g => g <| m_IsResizing := true |>);;
     Timer_Stop;;
     return_ 0
   else if msg =? WM_EXITSIZEMOVE then
     update_app (fun g => g <| m_IsPaused := false |>);;
     update_app (fun g => g <| m_IsResizing := false |>);;
     Timer_Start;;
     call OnResize;;
     return_ 0
   else if msg =? WM_GETMINMAXINFO then
     (* don't let the window get smaller than this *)
     api FnWndProc (SetMinTrackSize 200 200);;
     return_ 0
   else if (msg =? WM_LBUTTONDOWN) || (msg =? WM_MBUTTONDOWN) || (msg =? WM_RBUTTONDOWN) then
     call (OnMouseDown wParam (GET_X_LPARAM lParam) (GET_Y_LPARAM lParam));;
     return_ 0
   else if (msg =? WM_LBUTTONUP) || (msg =? WM_MBUTTONUP) || (msg =? WM_RBUTTONUP) then
     call (OnMouseUp wParam (GET_X_LPARAM lParam) (GET_Y_LPARAM lParam));;
     return_ 0
   else if msg =? WM_MOUSEMOVE then
     call (OnMouseMove wParam (GET_X_LPARAM lParam) (GET_Y_LPARAM lParam));;
     return_ 0
   else if msg =? WM_KEYUP then
     (if wParam =? VK_ESCAPE then
        (* destroy window on escape *)
        api FnWndProc DestroyWindow
      else if wParam =? VK_F2 then
        enabled ← app m_MsaaEnabled;
        call (SetMsaaEnabled (negb enabled))
      else mret tt);;
     return_ 0
   else if msg =? WM_DESTROY then
     (* terminate the message loop when the window is destroyed *)
     api FnWndProc PostQuitMessage;;
     return_ 0
   else mret tt);;
  (* any unhandled messages are passed on to default event handling *)
  api FnWndProc (DefWindowProc msg);;
  answer.

(** *** Run *)

(** [MSG]: the window the message is for (0 for a message posted to the
    thread, such as the [WM_QUIT] of [PostQuitMessage]), the message and
    its two parameters. *)
Record MSG : Type := { hwnd : Z; message : Z; msg_wParam : Z; msg_lParam : Z }.

(** [DispatchMessage(&msg)] calls the window procedure of the window the
    message is for; the windows of this program have [WndProc].  A message
    for no window reaches no window procedure. *)
Definition Dispatch (m : MSG) : M Z unit :=
  api FnRun DispatchMessage;;
  if hwnd m =? 0 then mret tt
  else
    call (WndProc (hwnd m) (message m) (msg_wParam m) (msg_lParam m));;
    mret tt.

(** The branch of the message loop taken when [PeekMessage] finds nothing. *)
Definition Run_idle : M Z unit :=
  Timer_Tick;;
  paused ← app m_IsPaused;
  if negb paused then
    call CalculateFrameStats;;
    call Update;;
    call Draw
  else
    api FnRun (Sleep 100).

(** The branch taken for a message, whichever it is. *)
Definition Run_message (m : MSG) : M Z unit :=
  api FnRun TranslateMessage;;  (* convert to charset *)
  Dispatch m.                   (* handle message by the correct WndProc *)

(** [while (msg.message != WM_QUIT)] over what [PeekMessage] finds in
    each round, and [return (int)msg.wParam] after it; the loop is still
    running when the rounds are used up. *)
Fixpoint Run_loop (peeks : list (option MSG)) (msg : MSG) : M Z (option Z) :=
  if message msg =? WM_QUIT then mret (Some (int_of (msg_wParam msg)))
  else match peeks with
       | [] => mret None
       | Some m :: rest => Run_message m;; Run_loop rest m
       | None :: rest => Run_idle;; Run_loop rest msg
       end.

Definition Run (peeks : list (option MSG)) : M Z (option Z) :=
  enter FnRun;;
  Timer_Reset;;
  Run_loop peeks {| hwnd := 0; message := 0; msg_wParam := 0; msg_lParam := 0 |}.

End Program.


(** ** Vocabulary of the properties *)

(** [x] rounded up to a multiple of 256, as an integer. *)
Definition next_multiple_of_256 (x : Z) : Z := 256 * ((x + 255) / 256).

Definition in_range (x low high : float) : bool := F32.leb low x && F32.leb x high.

Definition Phi_low : float := F32.f0_1.
Definition Phi_high : float := F32.sub MathHelper.Pi F32.f0_1.
Definition Radius_low : float := F32.f3.
Definition Radius_high : float := F32.f15.

Definition is_short (z : Z) : Prop := -32768 <= z <= 32767.

(** The camera as the mouse handlers keep it: polar angle and radius inside
    their ranges, the last mouse position a pair of 16-bit coordinates. *)
Definition camera_ok (g : DxApp) : Prop :=
  in_range (m_Phi g) Phi_low Phi_high = true /\
  in_range (m_Radius g) Radius_low Radius_high = true /\
  is_short (pt_x (m_LastMousePos g)) /\ is_short (pt_y (m_LastMousePos g)).

(** The fence values still waiting in the queue. *)
Fixpoint signals (q : list QueueItem) : list Z :=
  match q with
  | [] => []
  | QSignal v :: q' => v :: signals q'
  | _ :: q' => signals q'
  end.

(** [lo < v1 < v2 < ... <= hi] *)
Fixpoint increasing (lo : Z) (l : list Z) (hi : Z) : bool :=
  match l with
  | [] => lo <=? hi
  | v :: l' => (lo <? v) && increasing v l' hi
  end.

(** The fence invariant: the completed value, the values signalled and not
    yet completed, and the CPU's current target are in increasing order. *)
Definition fence_inv (w : World) : bool :=
  increasing (gpu_fence (w_gpu w)) (signals (gpu_queue (w_gpu w)))
    (m_CurrentFence (g_DxApp w)).

(** The fence values passed to [Signal] in a trace, oldest first. *)
Fixpoint signalled (t : list Event) : list Z :=
  match t with
  | [] => []
  | EvApi _ (Signal v) :: t' => signalled t' ++ [v]
  | _ :: t' => signalled t'
  end.

(** A run of [flush()] calls, each of which comes back to its caller, with
    the targets they set. *)
Inductive flushes : World -> list Z -> World -> Prop :=
| flushes_nil w : flushes w [] w
| flushes_cons w s w1 ts w2 :
    FlushCommandQueue w = (s, w1) ->
    (forall f, s <> Abort f) ->
    flushes w1 ts w2 ->
    flushes w (m_CurrentFence (g_DxApp w1) :: ts) w2.

(** An event is fine when, if it parks the thread on the GPU, it is issued
    by [FlushCommandQueue]. *)
Definition waits_in_flush (e : Event) : bool :=
  match e with
  | EvEnter _ => true
  | EvApi site a =>
      if blocks_on_gpu a
      then match site with FnFlushCommandQueue => true | _ => false end
      else true
  end.

Definition not_enter (f : Fn) (e : Event) : bool := negb (is_enter f e).

(** [n] successful [Draw()] calls in a row. *)
Inductive draws : nat -> World -> World -> Prop :=
| draws_O w : draws O w w
| draws_S n w w1 w2 :
    Draw w = (Continue tt, w1) -> draws n w1 w2 -> draws (S n) w w2.

(** The handles a recorded command writes to. *)
Definition written (c : Command) : option Handle :=
  match c with
  | ResourceBarrier r _ _ => r
  | CopyBufferRegion d _ _ _ _ => d
  | _ => None
  end.

Definition writes_below (n : Handle) (c : Command) : bool :=
  match written c with
  | Some h => (h <? n)%N
  | None => true
  end.

Definition item_below (n : Handle) (it : QueueItem) : bool :=
  match it with
  | QExecute cs => forallb (writes_below n) cs
  | _ => true
  end.

(** Nothing recorded or submitted so far writes to a handle that has not
    been handed out yet. *)
Definition gpu_wf (g : Gpu) : bool :=
  forallb (writes_below (gpu_next g)) (cl_commands (gpu_cmdlist g))
  && forallb (item_below (gpu_next g)) (gpu_queue g).

(** The window messages of an interactive drag: enter, the size changes
    in between, exit. *)
Definition dispatch (cfg : BuildConfig) (hWnd msg wParam lParam : Z) (w : World) : World :=
  snd (WndProc cfg hWnd msg wParam lParam w).

Definition drag_sizes (cfg : BuildConfig) (hWnd : Z) (lParams : list Z) (w : World) : World :=
  fold_left (fun w l => dispatch cfg hWnd WM_SIZE SIZE_RESTORED l w) lParams w.

(** A build without and a build with assertions. *)
Definition release_build : BuildConfig :=
  {| def_DEBUG := false; def__DEBUG := false; def_NDEBUG := true |}.
Definition debug_build : BuildConfig :=
  {| def_DEBUG := false; def__DEBUG := true; def_NDEBUG := false |}.

(** [p] holds of every integer from [lo] to [hi]; decided by running [p]. *)
Fixpoint all_from (n : nat) (z : Z) (p : Z -> bool) : bool :=
  match n with
  | O => true
  | S n' => p z && all_from n' (z + 1) p
  end.
Definition all_between (lo hi : Z) (p : Z -> bool) : bool :=
  all_from (Z.to_nat (hi - lo + 1)) lo p.

(** The angle and the distance a mouse movement of [d] pixels stands for. *)
Definition angle_of_pixels (d : Z) : float :=
  F32.XMConvertToRadians (F32.mul F32.f0_25 (F32.of_int d)).
Definition distance_of_pixels (d : Z) : float :=
  F32.mul F32.f0_005 (F32.of_int d).

(** ** Reasoning about computations *)

(** [wp m Q w]: running [m] in [w] ends in a step and a world that
    satisfy [Q]. *)
Definition wp {R A} (m : M R A) (Q : Step R A -> World -> Prop) (w : World) : Prop :=
  Q (fst (m w)) (snd (m w)).

(** A computation keeps a property of the trace. *)
Definition keeps {R A} (P : list Event -> Prop) (m : M R A) : Prop :=
  forall w, P (w_trace w) -> P (w_trace (snd (m w))).

(** What retiring the items [its] does to the fence and to the resources. *)
Definition retire_fence (f : Z) (it : QueueItem) : Z :=
  match it with
  | QSignal v => v
  | _ => f
  end.

Definition fence_after (f : Z) (its : list QueueItem) : Z := fold_left retire_fence its f.

Definition retire_item (rs : gmap Handle Resource) (it : QueueItem) : gmap Handle Resource :=
  match it with
  | QExecute cs => exec_commands cs rs
  | _ => rs
  end.

Definition resources_after (rs : gmap Handle Resource) (its : list QueueItem)
  : gmap Handle Resource :=
  fold_left retire_item its rs.

(** What one [FlushCommandQueue] call does, whichever way it ends: the
    target is advanced; unless the call dies on a null pointer the target is
    passed to [Signal]; the GPU state is either untouched or the old one with
    the signal queued and some items retired; and when the call runs to its
    end the fence has reached the target. *)
Definition flush_target (w : World) : Z := wrap64 (m_CurrentFence (g_DxApp w) + 1).

Definition FlushPost (w : World) (s : Step unit unit) (w' : World) : Prop :=
  g_DxApp w' = (g_DxApp w) <| m_CurrentFence := flush_target w |> /\
  g_MainWnd w' = g_MainWnd w /\
  match s with
  | Abort f =>
      f = NullDereference /\
      (m_CommandQueue (g_DxApp w) = None \/ m_Fence (g_DxApp w) = None)
  | Return _ =>
      signalled (w_trace w') = signalled (w_trace w) ++ [flush_target w] /\
      (w_gpu w' = w_gpu w \/
       exists n, w_gpu w' = gpu_run n (enqueue (QSignal (flush_target w)) (w_gpu w)))
  | Continue _ =>
      signalled (w_trace w') = signalled (w_trace w) ++ [flush_target w] /\
      flush_target w <= gpu_fence (w_gpu w') /\
      exists n, w_gpu w' = gpu_run n (enqueue (QSignal (flush_target w)) (w_gpu w))
  end.

(** The world once the window has been created: [WM_CREATE] has run
    [InitD3D], [OnResize] and [OnInitialize]. *)
Definition started (cfg : BuildConfig) (answers : list Z) : World :=
  dispatch cfg 1 WM_CREATE 0 0 (World_initial answers).

(** The answers of a machine on which everything succeeds and 4x MSAA has
    one quality level; a debug build asks one question more, for the debug
    layer. *)
Definition answers_ok : list Z := [0; 0; 0; 32; 8; 32; 0; 1].

(** [n] calls of [FlushCommandQueue] in a row. *)
Definition flush_many (n : N) (w : World) : World :=
  N.iter n (fun w => snd (FlushCommandQueue w)) w.

(** A world with a queue and a fence and nothing else. *)
Definition World_with_queue : World :=
  (World_initial [])
    <| g_DxApp := g_DxApp_initial <| m_CommandQueue := Some tt |> <| m_Fence := Some tt |> |>.

(** What a completed [OnResize] leaves behind, for the client size
    [width], [height] it found. *)
Definition resized (width height : Z) (g : DxApp) : Prop :=
  m_ClientWidth g = width /\ m_ClientHeight g = height /\
  (exists sc b0 b1,
     m_SwapChain g = Some sc /\
     sc_BufferCount sc = Settings.s_SwapChainBufferCount /\
     sc_Width sc = wrap32 width /\ sc_Height sc = wrap32 height /\
     sc_buffers sc = [b0; b1] /\
     m_SwapChainBuffer g = [Some b0; Some b1]) /\
  Width (m_ScreenViewport g) = F32.of_int width /\
  Height (m_ScreenViewport g) = F32.of_int height /\
  m_Proj g = XMMatrixPerspectiveFovLH (F32.mul F32.f0_25 MathHelper.Pi)
               (F32.div (F32.of_int width) (F32.of_int height)) F32.f1 F32.f1000 /\
  m_CurrentBackBuffer g = 0.

(** The two buffers of [CreateDefaultBuffer] as they are allocated, and
    the commands it records for the buffers [d] and [u]. *)
Definition default_resource (byteSize : Z) : Resource :=
  {| res_heap := D3D12_HEAP_TYPE_DEFAULT; res_desc := Buffer byteSize;
     res_state := D3D12_RESOURCE_STATE_COMMON;
     res_bytes := repeat Byte.x00 (Z.to_nat byteSize) |}.

Definition upload_resource (byteSize : Z) (bytes : list Byte.byte) : Resource :=
  {| res_heap := D3D12_HEAP_TYPE_UPLOAD; res_desc := Buffer byteSize;
     res_state := D3D12_RESOURCE_STATE_GENERIC_READ;
     res_bytes := bytes |}.

Definition upload_commands (d u : Handle) (byteSize : Z) : list Command :=
  [ ResourceBarrier (Some d) D3D12_RESOURCE_STATE_COMMON D3D12_RESOURCE_STATE_COPY_DEST;
    CopyBufferRegion (Some d) 0 (Some u) 0 byteSize;
    ResourceBarrier (Some d) D3D12_RESOURCE_STATE_COPY_DEST D3D12_RESOURCE_STATE_GENERIC_READ ].

(** The last thing that happened is a message box with [text]. *)
Definition reported (site : Fn) (text : string) (w : World) : Prop :=
  hd_error (w_trace w) = Some (EvApi site (MessageBox text "ERROR")).

(** What a call of [CreateDefaultBuffer] with a device and a command
    list does, by the answers [hr1] and [hr2] of the two allocations. *)
Definition CreateDefaultBuffer_post (data : list Byte.byte) (byteSize : Z)
    (uploadBuffer : ComPtr Handle) (w : World)
    (s : Step (ComPtr Handle * ComPtr Handle) (ComPtr Handle * ComPtr Handle))
    (w' : World) : Prop :=
  let hr1 := hd 0 (w_answers w) in
  let hr2 := hd 0 (tl (w_answers w)) in
  let d := gpu_next (w_gpu w) in
  let u := N.succ d in
  g_DxApp w' = g_DxApp w /\
  gpu_queue (w_gpu w') = gpu_queue (w_gpu w) /\
  gpu_fence (w_gpu w') = gpu_fence (w_gpu w) /\
  if FAILED hr1 then
    s = Return (nullptr, uploadBuffer) /\
    reported FnCreateDefaultBuffer "Failed to create buffer on default heap!" w' /\
    w_gpu w' = w_gpu w
  else if FAILED hr2 then
    s = Return (nullptr, nullptr) /\
    reported FnCreateDefaultBuffer
      "Failed to create buffer on upload heap for intermediate data transfer to a default buffer!"
      w' /\
    gpu_resources (w_gpu w') = <[d := default_resource byteSize]> (gpu_resources (w_gpu w)) /\
    gpu_cmdlist (w_gpu w') = gpu_cmdlist (w_gpu w)
  else
    s = Return (Some d, Some u) /\
    gpu_resources (w_gpu w') =
      <[u := upload_resource byteSize
               (splice (repeat Byte.x00 (Z.to_nat byteSize)) 0 (take (Z.to_nat byteSize) data))]>
        (<[d := default_resource byteSize]> (gpu_resources (w_gpu w))) /\
    gpu_next (w_gpu w') = N.succ u /\
    cl_recording (gpu_cmdlist (w_gpu w')) = cl_recording (gpu_cmdlist (w_gpu w)) /\
    cl_commands (gpu_cmdlist (w_gpu w')) =
      cl_commands (gpu_cmdlist (w_gpu w)) ++ upload_commands d u byteSize.

(** A message box was shown. *)
Definition is_MessageBox (e : Event) : bool :=
  match e with EvApi _ (MessageBox _ _) => true | _ => false end.

(** The world in which the body of [InitD3D] starts. *)
Definition InitD3D_entered (w : World) : World :=
  w <| w_trace := EvEnter FnInitD3D :: w_trace w |>.

(** The globals [g'] are the globals [g] but for the client size. *)
Definition same_but_size (g g' : DxApp) : Prop :=
  g' = g <| m_ClientWidth := m_ClientWidth g' |> <| m_ClientHeight := m_ClientHeight g' |>.

(** [lParam] of a [WM_SIZE] for a client area of [width] by [height]. *)
Definition MAKELPARAM (width height : Z) : Z := height * 65536 + width.


(** The sign of a number, zero or infinity. *)
Definition has_sign (s : bool) (x : spec_float) : Prop :=
  match x with
  | S754_zero s' | S754_infinity s' | S754_finite s' _ _ => s' = s
  | S754_nan => False
  end.



(** ** The window procedure and the message loop, seen from outside *)

(** The messages [WndProc] has a [case] for. *)
Definition handled_messages : list Z :=
  [ WM_CREATE; WM_ACTIVATE; WM_SIZE; WM_ENTERSIZEMOVE; WM_EXITSIZEMOVE; WM_GETMINMAXINFO;
    WM_LBUTTONDOWN; WM_MBUTTONDOWN; WM_RBUTTONDOWN;
    WM_LBUTTONUP; WM_MBUTTONUP; WM_RBUTTONUP;
    WM_MOUSEMOVE; WM_KEYUP; WM_DESTROY ].

Definition handled (msg : Z) : bool := existsb (Z.eqb msg) handled_messages.

(** [n] rounds of the message loop in which [PeekMessage] finds nothing. *)
Definition idle_rounds (n : nat) (w : World) : World :=
  Nat.iter n (fun w => snd (Run_idle w)) w.

(** A step that ended in [return 0], or died. *)
Definition returns_0 (s : Step Z Z) : Prop :=
  match s with
  | Return r => r = 0
  | Abort _ => True
  | Continue _ => False
  end.

(** A message was peeked that is not [WM_QUIT]. *)
Definition not_quit (p : option MSG) : bool :=
  match p with
  | Some m => negb (message m =? WM_QUIT)
  | None => true
  end.

(** The message [PostQuitMessage] posts, with the exit code [wParam]: it
    is for no window. *)
Definition quit_message (wParam : Z) : MSG :=
  {| hwnd := 0; message := WM_QUIT; msg_wParam := wParam; msg_lParam := 0 |}.

(** The message the loop holds after the rounds [peeks], having held
    [msg] before. *)
Definition last_message (peeks : list (option MSG)) (msg : MSG) : MSG :=
  fold_left (fun m p => match p with Some m' => m' | None => m end) peeks msg.

(** What the performance counter reads when it is asked next. *)
Definition next_reading (w : World) : Z := GameTimer.wrap_s64 (hd 0 (w_counter w)).

(** The timer after [n] ticks while it is stopped: the time of the frame
    is 0.0 from the first tick on. *)
Definition ticked_at_rest (n : nat) (t : GameTimer.t) : GameTimer.t :=
  match n with
  | O => t
  | S _ => t <| GameTimer.m_DeltaTime := F64.f0 |>
  end.

(** The world after [TranslateMessage] and [DispatchMessage] of a
    [WM_QUIT]. *)
Definition quit_dispatched (q : MSG) (w : World) : World :=
  let w1 := w <| w_trace := EvApi FnRun DispatchMessage
                              :: EvApi FnRun TranslateMessage :: w_trace w |> in
  if hwnd q =? 0 then w1
  else w1 <| w_trace := EvApi FnWndProc (DefWindowProc WM_QUIT)
                          :: EvEnter FnWndProc :: w_trace w1 |>
          <| w_answers := tl (w_answers w1) |>.

(** The world in which the loop of [Run] starts. *)
Definition Run_entered (w : World) : World :=
  snd (Timer_Reset (R := Z) (w <| w_trace := EvEnter FnRun :: w_trace w |>)).

(** ** What initialization leaves behind *)

(** Everything [InitD3D] creates exists. *)
Definition d3d_objects_exist (g : DxApp) : Prop :=
  m_DxgiFactory g <> None /\ m_D3dDevice g <> None /\ m_Fence g <> None /\
  m_CommandQueue g <> None /\ m_DirectCommandListAllocator g <> None /\
  m_CommandList g <> None /\ m_SwapChain g <> None /\
  m_RtvHeap g <> None /\ m_DsvHeap g <> None.

(** The last thing that happened is an error box. *)
Definition error_reported (w : World) : Prop :=
  exists site text, hd_error (w_trace w) = Some (EvApi site (MessageBox text "ERROR")).

(** The world in which [WM_CREATE] calls [InitD3D]. *)
Definition WM_CREATE_entered (hWnd : Z) (w : World) : World :=
  w <| g_MainWnd := hWnd |> <| w_trace := EvEnter FnWndProc :: w_trace w |>.

(** The swap chain [InitD3D] leaves: two buffers of the client size of [g],
    sampled as the settings of [g'] say. *)
Definition swap_chain_for (g g' : DxApp) : Prop :=
  exists sc, m_SwapChain g' = Some sc /\
    sc_BufferCount sc = 2 /\ length (sc_buffers sc) = 2%nat /\
    sc_Width sc = wrap32 (m_ClientWidth g) /\
    sc_Height sc = wrap32 (m_ClientHeight g) /\
    sc_SampleCount sc = sample_count g' /\
    sc_SampleQuality sc = sample_quality g'.

(** What [CreateSwapChain] asks for in the state [g]. *)
Definition swap_chain_of (g : DxApp) (sc : SwapChain) : Prop :=
  sc_Width sc = wrap32 (m_ClientWidth g) /\
  sc_Height sc = wrap32 (m_ClientHeight g) /\
  sc_Format sc = Settings.m_BackBufferFormat /\
  sc_SampleCount sc = (if m_MsaaEnabled g then 4 else 1) /\
  sc_SampleQuality sc = (if m_MsaaEnabled g then wrap32 (m_4xMsaaQuality g - 1) else 0) /\
  sc_BufferCount sc = 2 /\
  length (sc_buffers sc) = 2%nat.

(** [lParam] of a mouse message at the client position ([x], [y]): the two
    coordinates as 16-bit words. *)
Definition mouse_lParam (x y : Z) : Z := MAKELPARAM (x mod 65536) (y mod 65536).

(** Where the camera is. *)
Definition camera (g : DxApp) : float * float * float := (m_Theta g, m_Phi g, m_Radius g).

(** ** UploadBuffer on the bytes it maps

    [UploadBuffer<T>] for a [T] of [sizeofT] bytes: the element size the
    constructor picks, the size of the buffer it asks for, and [CopyData]
    on the mapped bytes.  An index that leads outside the mapping has no
    defined behaviour ([None]). *)
Module UploadBufferBytes.

Definition ElementByteSize (sizeofT : Z) (isConstantBuffer : bool) : Z :=
  if isConstantBuffer then CalcConstantBufferByteSize sizeofT else sizeofT.

(** [m_ElementByteSize * elementCount], a [UINT] product *)
Definition BufferSize (sizeofT elementCount : Z) (isConstantBuffer : bool) : Z :=
  wrap32 (ElementByteSize sizeofT isConstantBuffer * elementCount).

(** [memcpy(&m_MappedData[elementIndex * m_ElementByteSize], &data, sizeof(T))];
    the index expression is an [int] times a [UINT], a [UINT]. *)
Definition CopyData (sizeofT : Z) (isConstantBuffer : bool)
    (elementIndex : Z) (data mapped : list Byte.byte) : option (list Byte.byte) :=
  let offset := wrap32 (elementIndex * ElementByteSize sizeofT isConstantBuffer) in
  if offset + sizeofT <=? Z.of_nat (length mapped)
  then Some (splice mapped (Z.to_nat offset) (take (Z.to_nat sizeofT) data))
  else None.

(** The bytes of element [i], as the shader reads them. *)
Definition element (sizeofT : Z) (isConstantBuffer : bool) (i : Z)
    (mapped : list Byte.byte) : list Byte.byte :=
  take (Z.to_nat sizeofT)
    (drop (Z.to_nat (i * ElementByteSize sizeofT isConstantBuffer)) mapped).

End UploadBufferBytes.


(** * Facts *)

(** ** Machine integers *)

Lemma wrap32_range z : is_UINT (wrap32 z).
Proof. unfold is_UINT, wrap32, UINT_MOD. apply Z.mod_pos_bound. lia. Qed.

Lemma wrap64_range z : is_UINT64 (wrap64 z).
Proof. unfold is_UINT64, wrap64, UINT64_MOD. apply Z.mod_pos_bound. lia. Qed.

Lemma wrap64_small z : 0 <= z < UINT64_MOD -> wrap64 z = z.
Proof. intros H. unfold wrap64. now apply Z.mod_small. Qed.

Lemma wrap32_small z : 0 <= z < UINT_MOD -> wrap32 z = z.
Proof. intros H. unfold wrap32. now apply Z.mod_small. Qed.

Lemma LOWORD_range l : 0 <= LOWORD l <= 65535.
Proof.
  unfold LOWORD. pose proof (Z.land_ones l 16 ltac:(lia)) as E.
  change (Z.ones 16) with 65535 in E. change (2 ^ 16) with 65536 in E.
  rewrite E. pose proof (Z.mod_pos_bound l 65536). lia.
Qed.

Lemma HIWORD_range l : 0 <= HIWORD l <= 65535.
Proof.
  unfold HIWORD. pose proof (Z.land_ones (Z.shiftr l 16) 16 ltac:(lia)) as E.
  change (Z.ones 16) with 65535 in E. change (2 ^ 16) with 65536 in E.
  rewrite E. pose proof (Z.mod_pos_bound (Z.shiftr l 16) 65536). lia.
Qed.

Lemma short_of_word_range w :
  0 <= w <= 65535 -> -32768 <= short_of_word w <= 32767.
Proof. unfold short_of_word. intros H. destruct (Z.ltb_spec w 32768); lia. Qed.


(** ** Literals *)

Lemma literals_nearest :
  F32.nearest 8388608 (-25) 25 100 = true /\
  F32.nearest 10737418 (-31) 5 1000 = true /\
  F32.nearest 13421773 (-27) 1 10 = true /\
  F32.nearest 8388608 (-23) 1 1 = true /\
  F32.nearest 12582912 (-23) 15 10 = true /\
  F32.nearest 12582912 (-22) 3 1 = true /\
  F32.nearest 10485760 (-21) 5 1 = true /\
  F32.nearest 15728640 (-20) 15 1 = true /\
  F32.nearest 11796480 (-16) 180 1 = true /\
  F32.nearest 16384000 (-14) 1000 1 = true /\
  F32.nearest 13176795 (-22) 3141592654 1000000000 = true /\
  F32.nearest 13176795 (-24) 785398163 1000000000 = true.
Proof. vm_compute. repeat split. Qed.


Lemma Pi_nearest : F32.nearest 13176795 (-22) 31415926535 10000000000 = true.
Proof. vm_compute. reflexivity. Qed.


(** ** CalcConstantBufferByteSize *)

Lemma not32_255 : not32 255 = 4294967040.
Proof. reflexivity. Qed.

(** Masking with [~255] clears the low eight bits. *)
Lemma land_not255 (y : Z) :
  0 <= y < UINT_MOD -> Z.land y 4294967040 = 256 * (y / 256).
Proof.
  intros Hy. unfold UINT_MOD in Hy.
  replace (256 * (y / 256)) with (Z.shiftl (Z.shiftr y 8) 8)
    by (rewrite Z.shiftl_mul_pow2, Z.shiftr_div_pow2 by lia; change (2 ^ 8) with 256; lia).
  change 4294967040 with (Z.shiftl (Z.ones 24) 8).
  apply Z.bits_inj'. intros n Hn.
  rewrite Z.land_spec.
  destruct (Z.ltb_spec n 8) as [Hlt | Hge].
  - rewrite !Z.shiftl_spec_low by lia. apply andb_false_r.
  - rewrite !Z.shiftl_spec_high by lia.
    rewrite Z.shiftr_spec by lia.
    replace (n - 8 + 8) with n by lia.
    destruct (Z.ltb_spec (n - 8) 24) as [Hin | Hout].
    + rewrite Z.ones_spec_low by lia. apply andb_true_r.
    + rewrite Z.ones_spec_high by lia. rewrite andb_false_r.
      symmetry. apply Z.bits_above_log2; [lia|].
      destruct (Z.eq_dec y 0) as [-> | Hne]; [simpl; lia|].
      apply Z.log2_lt_pow2; [lia|].
      apply Z.lt_le_trans with (2 ^ 32); [lia|].
      apply Z.pow_le_mono_r; lia.
Qed.

Lemma next_multiple_least (x : Z) :
  next_multiple_of_256 x mod 256 = 0 /\
  x <= next_multiple_of_256 x < x + 256.
Proof.
  unfold next_multiple_of_256. split.
  - rewrite Z.mul_comm. apply Z.mod_mul. lia.
  - pose proof (Z.div_mod (x + 255) 256 ltac:(lia)).
    pose proof (Z.mod_pos_bound (x + 255) 256 ltac:(lia)). lia.
Qed.

(** C7, as stated: some [UINT] is not rounded up. *)
Lemma CalcConstantBufferByteSize_wraps :
  is_UINT 4294967295 /\
  CalcConstantBufferByteSize 4294967295 = 0 /\
  CalcConstantBufferByteSize 4294967295 <> next_multiple_of_256 4294967295.
Proof.
  split; [unfold is_UINT, UINT_MOD; lia|].
  split; [reflexivity|]. vm_compute. discriminate.
Qed.

(** C7, amended: for every [UINT] [x] up to [2^32 - 256],
    [CalcConstantBufferByteSize x] is [x] rounded up to the next multiple of
    256 (the smallest multiple of 256 that is at least [x]); this covers 1,
    255, 256, 257 and 1024.  Above that bound the 32-bit sum [x + 255] wraps
    and the result is 0. *)
Theorem CalcConstantBufferByteSize_rounds_up (x : Z) :
  0 <= x <= 4294967040 ->
  CalcConstantBufferByteSize x = next_multiple_of_256 x /\
  CalcConstantBufferByteSize x mod 256 = 0 /\
  x <= CalcConstantBufferByteSize x < x + 256.
Proof.
  intros Hx.
  assert (E : CalcConstantBufferByteSize x = next_multiple_of_256 x).
  { unfold CalcConstantBufferByteSize, next_multiple_of_256.
    rewrite not32_255, wrap32_small by (unfold UINT_MOD; lia).
    apply land_not255. unfold UINT_MOD. lia. }
  rewrite E. split; [reflexivity|]. apply next_multiple_least.
Qed.

Lemma CalcConstantBufferByteSize_rounds_up_witness :
  0 <= 257 <= 4294967040 /\
  (CalcConstantBufferByteSize 257 = next_multiple_of_256 257 /\
   CalcConstantBufferByteSize 257 mod 256 = 0 /\
   257 <= CalcConstantBufferByteSize 257 < 257 + 256).
Proof.
  split; [lia|]. apply (CalcConstantBufferByteSize_rounds_up 257). lia.
Defined.

Lemma CalcConstantBufferByteSize_listed :
  CalcConstantBufferByteSize 1 = 256 /\
  CalcConstantBufferByteSize 255 = 256 /\
  CalcConstantBufferByteSize 256 = 256 /\
  CalcConstantBufferByteSize 257 = 512 /\
  CalcConstantBufferByteSize 1024 = 1024.
Proof. repeat split. Qed.

Lemma CalcConstantBufferByteSize_above (x : Z) :
  4294967040 < x < UINT_MOD -> CalcConstantBufferByteSize x = 0.
Proof.
  intros Hx. unfold UINT_MOD in Hx.
  unfold CalcConstantBufferByteSize. rewrite not32_255.
  unfold wrap32, UINT_MOD.
  replace ((x + 255) mod 2 ^ 32) with (x + 255 - 2 ^ 32)
    by (apply Z.mod_unique with 1; lia).
  rewrite land_not255 by (unfold UINT_MOD; lia).
  rewrite Z.div_small by lia. reflexivity.
Qed.

(** ** binary32 *)

Lemma all_from_spec n p :
  forall lo, all_from n lo p = true -> forall z, lo <= z < lo + Z.of_nat n -> p z = true.
Proof.
  induction n as [ | n IH]; intros lo H z Hz; [lia|].
  cbn [all_from] in H. apply andb_prop in H as [H0 H1].
  destruct (Z.eq_dec z lo) as [-> | Hne]; [exact H0|].
  apply (IH (lo + 1) H1). lia.
Qed.

Lemma all_between_spec lo hi p :
  all_between lo hi p = true -> forall z, lo <= z <= hi -> p z = true.
Proof.
  unfold all_between. intros H z Hz.
  apply (all_from_spec _ _ _ H). lia.
Qed.

Lemma SFcompare_antisym (x y : float) :
  SFcompare y x = option_map CompOpp (SFcompare x y).
Proof.
  destruct x as [sx | sx | | sx mx ex], y as [sy | sy | | sy my ey];
    try reflexivity; try (destruct sx; reflexivity); try (destruct sy; reflexivity);
    try (destruct sx, sy; reflexivity).
  cbn [SFcompare option_map].
  destruct sx, sy; try reflexivity.
  - rewrite (Z.compare_antisym ey ex).
    destruct (ey ?= ex)%Z; cbn; try reflexivity.
    rewrite (Pos.compare_cont_antisym mx my Eq). cbn. reflexivity.
  - rewrite (Z.compare_antisym ey ex).
    destruct (ey ?= ex)%Z; cbn; try reflexivity.
    rewrite (Pos.compare_cont_antisym mx my Eq). cbn.
    now destruct (Pos.compare_cont Eq mx my).
Qed.

Lemma SFcompare_refl (x : float) : F32.is_nan x = false -> SFcompare x x = Some Eq.
Proof.
  destruct x as [s | s | | s m e]; cbn; try discriminate; intros _.
  - reflexivity.
  - now destruct s.
  - rewrite Z.compare_refl.
    change (Pos.compare_cont Eq m m) with (Pos.compare m m).
    rewrite Pos.compare_refl. now destruct s.
Qed.

Lemma leb_not_nan_l (x y : float) : F32.leb x y = true -> F32.is_nan x = false.
Proof. destruct x; try reflexivity. discriminate. Qed.

Lemma leb_not_nan_r (x y : float) : F32.leb x y = true -> F32.is_nan y = false.
Proof. destruct x, y; try reflexivity; discriminate. Qed.

Lemma leb_refl (x : float) : F32.is_nan x = false -> F32.leb x x = true.
Proof. intros H. unfold F32.leb, SFleb. now rewrite SFcompare_refl. Qed.

(** [!(x < low)] gives [low <= x] once neither is a NaN. *)
Lemma not_ltb_leb (x y : float) :
  F32.is_nan x = false -> F32.is_nan y = false ->
  F32.ltb x y = false -> F32.leb y x = true.
Proof.
  intros Hx Hy. unfold F32.ltb, F32.leb, SFltb, SFleb.
  rewrite (SFcompare_antisym x y).
  destruct (SFcompare x y) as [[ | | ] | ] eqn:E; cbn; try reflexivity; try discriminate.
  destruct x, y; discriminate.
Qed.

(** [MathHelper::Clamp] lands in [[low, high]] unless it is handed a NaN. *)
Lemma Clamp_in_range (x low high : float) :
  F32.is_nan x = false -> F32.leb low high = true ->
  in_range (MathHelper.Clamp x low high) low high = true.
Proof.
  intros Hx Hlh.
  pose proof (leb_not_nan_l _ _ Hlh) as Hl.
  pose proof (leb_not_nan_r _ _ Hlh) as Hh.
  unfold MathHelper.Clamp, in_range.
  destruct (F32.ltb x low) eqn:E1.
  - now rewrite leb_refl, Hlh.
  - destruct (F32.ltb high x) eqn:E2.
    + now rewrite Hlh, leb_refl.
    + rewrite (not_ltb_leb x low), (not_ltb_leb high x); auto.
Qed.

(** Between two positive finite bounds there are only positive finite floats. *)
Lemma in_range_finite (x : float) (ml mh : positive) (el eh : Z) :
  in_range x (S754_finite false ml el) (S754_finite false mh eh) = true ->
  exists m e, x = S754_finite false m e.
Proof.
  unfold in_range, F32.leb, SFleb. intros H. apply andb_prop in H as [H1 H2].
  destruct x as [s | s | | s m e]; cbn in H1, H2; try discriminate.
  - destruct s; discriminate.
  - destruct s; [discriminate|]. eauto.
Qed.

(** *** Rounding never makes a NaN *)

Lemma iter_pos_inv {A} (f : A -> A) (P : A -> Prop) :
  (forall a, P a -> P (f a)) -> forall n a, P a -> P (SpecFloat.iter_pos f n a).
Proof.
  intros Hf. induction n as [n IH | n IH | ]; intros a Ha; cbn; auto.
Qed.

Lemma shr_1_nonneg mrs : 0 <= shr_m mrs -> 0 <= shr_m (shr_1 mrs).
Proof.
  destruct mrs as [m r s]. cbn. intros H.
  destruct m as [ | [p | p | ] | p]; cbn; lia.
Qed.

Lemma shr_fexp_nonneg prec emax m e l :
  0 <= m -> 0 <= shr_m (fst (shr_fexp prec emax m e l)).
Proof.
  intros Hm. unfold shr_fexp, shr.
  assert (H0 : 0 <= shr_m (shr_record_of_loc m l)) by (destruct l as [ | [ | | ]]; exact Hm).
  destruct (fexp prec emax (Zdigits2 m + e) - e); cbn; auto.
  apply iter_pos_inv; auto using shr_1_nonneg.
Qed.

Lemma round_nearest_even_nonneg m l : 0 <= m -> 0 <= round_nearest_even m l.
Proof.
  intros Hm. destruct l as [ | [ | | ]]; cbn; try lia.
  destruct (Z.even m); lia.
Qed.

Lemma binary_round_aux_not_nan prec emax s m e l :
  0 <= m -> F32.is_nan (binary_round_aux prec emax s m e l) = false.
Proof.
  intros Hm. unfold binary_round_aux.
  pose proof (shr_fexp_nonneg prec emax m e l Hm) as H1.
  destruct (shr_fexp prec emax m e l) as [mrs1 e1]. cbn [fst] in H1.
  pose proof (shr_fexp_nonneg prec emax
                (round_nearest_even (shr_m mrs1) (loc_of_shr_record mrs1)) e1 loc_Exact
                (round_nearest_even_nonneg _ _ H1)) as H2.
  destruct (shr_fexp prec emax _ e1 loc_Exact) as [mrs2 e2]. cbn [fst] in H2.
  destruct (shr_m mrs2); try reflexivity; [|lia].
  now destruct (e2 <=? emax - prec).
Qed.

Lemma binary_normalize_not_nan prec emax m e sz :
  F32.is_nan (binary_normalize prec emax m e sz) = false.
Proof.
  destruct m; cbn; [reflexivity| | ];
    unfold binary_round; destruct (shl_align _ _ _);
    apply binary_round_aux_not_nan; lia.
Qed.

Lemma of_int_not_nan d : F32.is_nan (F32.of_int d) = false.
Proof. apply binary_normalize_not_nan. Qed.

Lemma add_finite_not_nan (x y : float) :
  F32.is_finite x = true -> F32.is_nan y = false -> F32.is_nan (F32.add x y) = false.
Proof.
  destruct x as [sx | sx | | sx mx ex], y as [sy | sy | | sy my ey];
    cbn; try discriminate; try reflexivity; intros _ _.
  - now destruct sx, sy.
  - apply binary_normalize_not_nan.
Qed.

Lemma sub_finite_not_nan (x y : float) :
  F32.is_finite x = true -> F32.is_finite y = true -> F32.is_nan (F32.sub x y) = false.
Proof.
  destruct x as [sx | sx | | sx mx ex], y as [sy | sy | | sy my ey];
    cbn; try discriminate; try reflexivity; intros _ _.
  - now destruct sx, sy.
  - apply binary_normalize_not_nan.
Qed.

(** Mouse coordinates are 16-bit, so a movement is at most 65535 pixels;
    the angle and distance it stands for are ordinary numbers. *)
Lemma angle_of_pixels_finite d :
  -65535 <= d <= 65535 -> F32.is_finite (angle_of_pixels d) = true.
Proof.
  apply (all_between_spec (-65535) 65535 (fun d => F32.is_finite (angle_of_pixels d))).
  vm_compute. reflexivity.
Qed.

Lemma distance_of_pixels_finite d :
  -65535 <= d <= 65535 -> F32.is_finite (distance_of_pixels d) = true.
Proof.
  apply (all_between_spec (-65535) 65535 (fun d => F32.is_finite (distance_of_pixels d))).
  vm_compute. reflexivity.
Qed.

Lemma of_int_exact z : 0 <= z <= 65535 -> F32.exactly (F32.of_int z) z = true.
Proof.
  apply (all_between_spec 0 65535 (fun z => F32.exactly (F32.of_int z) z)).
  vm_compute. reflexivity.
Qed.

Lemma finite_not_nan (x : float) : F32.is_finite x = true -> F32.is_nan x = false.
Proof. now destruct x. Qed.

(** ** The camera *)

Lemma Phi_bounds_ordered : F32.leb Phi_low Phi_high = true.
Proof. vm_compute. reflexivity. Qed.

Lemma Radius_bounds_ordered : F32.leb Radius_low Radius_high = true.
Proof. vm_compute. reflexivity. Qed.

Lemma in_Phi_range_finite x : in_range x Phi_low Phi_high = true -> F32.is_finite x = true.
Proof.
  intros H. apply (in_range_finite x 13421773 12757365 (-27) (-22)) in H.
  destruct H as (m & e & ->). reflexivity.
Qed.

Lemma in_Radius_range_finite x : in_range x Radius_low Radius_high = true -> F32.is_finite x = true.
Proof.
  intros H. apply (in_range_finite x 12582912 15728640 (-22) (-20)) in H.
  destruct H as (m & e & ->). reflexivity.
Qed.

Lemma camera_ok_initial : camera_ok g_DxApp_initial.
Proof. unfold camera_ok, is_short. cbn. repeat split; try lia; vm_compute; reflexivity. Qed.

Lemma OnMouseMove_app_eq (btnState x y : Z) (w : World) :
  g_DxApp (snd (OnMouseMove btnState x y w)) = OnMouseMove_app btnState x y (g_DxApp w).
Proof. reflexivity. Qed.

Lemma OnMouseMove_app_camera (btnState x y : Z) (g : DxApp) :
  camera_ok g -> is_short x -> is_short y ->
  camera_ok (OnMouseMove_app btnState x y g).
Proof.
  intros (Hphi & Hrad & Hlx & Hly) Hx Hy. unfold is_short in *.
  unfold OnMouseMove_app.
  destruct (negb (Z.land btnState MK_LBUTTON =? 0)).
  - cbn. unfold camera_ok. cbn. repeat split; try assumption; try (unfold is_short; lia).
    apply Clamp_in_range; [|exact Phi_bounds_ordered].
    apply add_finite_not_nan; [now apply in_Phi_range_finite|].
    apply finite_not_nan.
    apply (angle_of_pixels_finite (y - pt_y (m_LastMousePos g))). lia.
  - destruct (negb (Z.land btnState MK_RBUTTON =? 0)).
    + cbn. unfold camera_ok. cbn. repeat split; try assumption; try (unfold is_short; lia).
      apply Clamp_in_range; [|exact Radius_bounds_ordered].
      apply add_finite_not_nan; [now apply in_Radius_range_finite|].
      apply sub_finite_not_nan.
      * apply (distance_of_pixels_finite (x - pt_x (m_LastMousePos g))). lia.
      * apply (distance_of_pixels_finite (y - pt_y (m_LastMousePos g))). lia.
    + cbn. unfold camera_ok. cbn. repeat split; try assumption; unfold is_short; lia.
Qed.

(** C9, as stated: the azimuth angle is not clamped.  One left-button drag
    from the initial camera across 32767 pixels leaves it at the plain sum,
    beyond 100 radians. *)
Lemma azimuth_not_clamped :
  camera_ok g_DxApp_initial /\
  let g' := g_DxApp (snd (OnMouseMove MK_LBUTTON 32767 0 (World_initial []))) in
  m_Theta g' = F32.add (m_Theta g_DxApp_initial) (angle_of_pixels 32767) /\
  F32.ltb (F32.of_int 100) (m_Theta g') = true /\
  in_range (m_Theta g') Phi_low Phi_high = false.
Proof.
  split; [exact camera_ok_initial|]. vm_compute. repeat split.
Qed.

(** C9, amended: after every [OnMouseMove] call with 16-bit coordinates,
    from a camera whose polar angle and radius are in range (as the initial
    one is), the polar angle lies in [[0.1f, Pi - 0.1f]] and the radius in
    [[3, 15]]: a left-button drag clamps the polar angle, a right-button
    drag the radius.  The azimuth angle is not clamped: a left-button drag
    adds the angle of the horizontal movement to it, and nothing else
    changes it. *)
Theorem OnMouseMove_keeps_camera (btnState x y : Z) (w : World) :
  camera_ok (g_DxApp w) -> is_short x -> is_short y ->
  let g := g_DxApp w in
  let g' := g_DxApp (snd (OnMouseMove btnState x y w)) in
  camera_ok g' /\
  in_range (m_Phi g') Phi_low Phi_high = true /\
  in_range (m_Radius g') Radius_low Radius_high = true /\
  m_Theta g' =
    (if Z.land btnState MK_LBUTTON =? 0 then m_Theta g
     else F32.add (m_Theta g) (angle_of_pixels (x - pt_x (m_LastMousePos g)))).
Proof.
  intros Hc Hx Hy g g'. subst g g'. rewrite OnMouseMove_app_eq.
  pose proof (OnMouseMove_app_camera btnState x y _ Hc Hx Hy) as Hc'.
  split; [exact Hc'|]. destruct Hc' as (H1 & H2 & _).
  split; [exact H1|]. split; [exact H2|].
  unfold OnMouseMove_app.
  destruct (Z.land btnState MK_LBUTTON =? 0); cbn; [|reflexivity].
  destruct (negb (Z.land btnState MK_RBUTTON =? 0)); reflexivity.
Qed.

Lemma OnMouseMove_keeps_camera_witness :
  camera_ok (g_DxApp (World_initial [])) /\ is_short 10 /\ is_short 20 /\
  in_range (m_Phi (g_DxApp (snd (OnMouseMove MK_LBUTTON 10 20 (World_initial []))))) 
    Phi_low Phi_high = true.
Proof.
  assert (H1 : camera_ok (g_DxApp (World_initial []))) by exact camera_ok_initial.
  assert (H2 : is_short 10) by (unfold is_short; lia).
  assert (H3 : is_short 20) by (unfold is_short; lia).
  split; [exact H1|]. split; [exact H2|]. split; [exact H3|].
  exact (proj1 (proj2 (OnMouseMove_keeps_camera MK_LBUTTON 10 20 (World_initial []) H1 H2 H3))).
Defined.
#[global] Arguments constant {E} newValue _ /.

(** ** The monad *)

Lemma wp_assoc {R A B C} (m : M R A) (f : A -> M R B) (g : B -> M R C) Q w :
  wp (m ≫= (fun a => f a ≫= g)) Q w -> wp ((m ≫= f) ≫= g) Q w.
Proof.
  unfold wp, mbind, M_bind. destruct (m w) as [[a | r | x] w']; cbn; auto.
Qed.

(** A statement that always continues, followed by [k]. *)
Lemma wp_bind_det {R A B} (m : M R A) (k : A -> M R B) Q w a w' :
  m w = (Continue a, w') -> wp (k a) Q w' -> wp (m ≫= k) Q w.
Proof. unfold wp, mbind, M_bind. intros ->. auto. Qed.

Lemma wp_det {R A} (m : M R A) (Q : Step R A -> World -> Prop) w s w' :
  m w = (s, w') -> Q s w' -> wp m Q w.
Proof. unfold wp. intros ->. auto. Qed.

Lemma wp_bind_return {R A B} (r : R) (k : A -> M R B) Q w :
  Q (Return r) w -> wp (return_ r ≫= k) Q w.
Proof. auto. Qed.

Lemma wp_bind_abort {R A B} x (k : A -> M R B) Q w :
  Q (Abort x) w -> wp (abort x ≫= k) Q w.
Proof. auto. Qed.

Lemma wp_bind_answer {R B} (k : Z -> M R B) Q w :
  (forall a rest, wp (k a) Q (w <| w_answers := rest |>)) -> wp (answer ≫= k) Q w.
Proof.
  intros H. unfold wp, answer, mbind, M_bind.
  destruct (w_answers w) as [ | a rest] eqn:E.
  - exact (H 0 (w_answers w)).
  - apply H.
Qed.

Lemma wp_answer {R} (Q : Step R Z -> World -> Prop) w :
  (forall a rest, Q (Continue a) (w <| w_answers := rest |>)) -> wp answer Q w.
Proof.
  intros H. unfold wp, answer. destruct (w_answers w) as [ | a rest] eqn:E; cbn.
  - exact (H 0 (w_answers w)).
  - apply H.
Qed.

Lemma wp_bind_deref {R A B} (p : ComPtr A) (k : A -> M R B) Q w :
  (forall a, p = Some a -> wp (k a) Q w) ->
  (p = None -> Q (Abort NullDereference) w) ->
  wp (deref p ≫= k) Q w.
Proof. intros H1 H2. destruct p; [apply H1 | apply H2]; reflexivity. Qed.

Lemma wp_deref {R A} (p : ComPtr A) (Q : Step R A -> World -> Prop) w :
  (forall a, p = Some a -> Q (Continue a) w) ->
  (p = None -> Q (Abort NullDereference) w) ->
  wp (deref p) Q w.
Proof. intros H1 H2. destruct p; cbn; [apply H1 | apply H2]; reflexivity. Qed.

Lemma wp_bind_block_until {R B} v (k : unit -> M R B) Q w :
  (forall g', gpu_run_until v (w_gpu w) = Some g' -> wp (k tt) Q (w <| w_gpu := g' |>)) ->
  (gpu_run_until v (w_gpu w) = None -> Q (Abort WaitsForever) w) ->
  wp (block_until v ≫= k) Q w.
Proof.
  intros H1 H2. unfold wp, block_until, mbind, M_bind.
  destruct (gpu_run_until v (w_gpu w)) eqn:E; [apply H1 | apply H2]; reflexivity.
Qed.

Lemma wp_block_until {R} v (Q : Step R unit -> World -> Prop) w :
  (forall g', gpu_run_until v (w_gpu w) = Some g' -> Q (Continue tt) (w <| w_gpu := g' |>)) ->
  (gpu_run_until v (w_gpu w) = None -> Q (Abort WaitsForever) w) ->
  wp (block_until v) Q w.
Proof.
  intros H1 H2. unfold wp, block_until.
  destruct (gpu_run_until v (w_gpu w)) eqn:E; cbn; [apply H1 | apply H2]; reflexivity.
Qed.

(** A call, followed by [k]: what the callee establishes must be enough. *)
Lemma wp_bind_call {R R' B} (f : M R R) (k : R -> M R' B) Q w :
  wp f (fun s w' => match s with
                    | Continue r | Return r => wp (k r) Q w'
                    | Abort x => Q (Abort x) w'
                    end) w ->
  wp (call f ≫= k) Q w.
Proof.
  unfold wp, call, mbind, M_bind. destruct (f w) as [[a | r | x] w']; cbn; auto.
Qed.

Lemma wp_call {R R'} (f : M R R) (Q : Step R' R -> World -> Prop) w :
  wp f (fun s w' => match s with
                    | Continue r | Return r => Q (Continue r) w'
                    | Abort x => Q (Abort x) w'
                    end) w ->
  wp (call f) Q w.
Proof. unfold wp, call. destruct (f w) as [[a | r | x] w']; cbn; auto. Qed.

Lemma wp_mono {R A} (m : M R A) (P Q : Step R A -> World -> Prop) w :
  wp m P w -> (forall s w', P s w' -> Q s w') -> wp m Q w.
Proof. unfold wp. auto. Qed.

Lemma wp_conj {R A} (m : M R A) (P Q : Step R A -> World -> Prop) w :
  wp m P w -> wp m Q w -> wp m (fun s w' => P s w' /\ Q s w') w.
Proof. unfold wp. auto. Qed.

Lemma wp_run {R A} (m : M R A) (Q : Step R A -> World -> Prop) w s w' :
  m w = (s, w') -> wp m Q w -> Q s w'.
Proof. unfold wp. intros ->. auto. Qed.

(** The record updates of a goal are carried out. *)
Ltac norm := cbn [apply_update constant id
  g_MainWnd g_DxApp s_FrameStats w_gpu w_trace w_answers w_counter
  gpu_resources gpu_next gpu_cmdlist gpu_queue gpu_retired gpu_fence
  cl_recording cl_commands
  m_DxgiFactory m_D3dDevice m_Fence m_CurrentFence m_CommandQueue
  m_DirectCommandListAllocator m_CommandList m_SwapChain m_CurrentBackBuffer
  m_SwapChainBuffer m_DepthStencilBuffer m_ScreenViewport m_ScissorRect
  m_RtvHeap m_DsvHeap m_RtvDescriptorSize m_DsvDescriptorSize
  m_CbvSrvUavDescriptorSize m_4xMsaaQuality m_MsaaEnabled m_Timer m_IsPaused
  m_ClientWidth m_ClientHeight m_IsResizing m_IsMinimized m_IsMaximized
  m_RootSignature m_CbvHeap m_ObjectCB m_BoxGeo m_VsByteCode m_PsByteCode
  m_PSO m_World m_View m_Proj m_Theta m_Phi m_Radius m_LastMousePos
  fst snd].

(** A test is decided by what is known about it, or else both ways. *)
Ltac wp_case c :=
  first [ match goal with H : c = _ |- _ => rewrite H end
        | destruct c eqn:? ].

(** The driver calls and helpers that are run by unfolding them. *)
Ltac unfold_stmt m :=
  lazymatch m with
  | enter _ => unfold enter at 1
  | api _ _ => unfold api at 1
  | hresult _ _ => unfold hresult at 1
  | check _ _ _ _ => unfold check at 1
  | create _ _ => unfold create at 1
  | assert _ _ _ => unfold assert at 1
  | record _ => unfold record at 1
  | QueryCounter => unfold QueryCounter at 1
  | update_timer _ => unfold update_timer at 1
  | Timer_Reset => unfold Timer_Reset at 1
  | Timer_Start => unfold Timer_Start at 1
  | Timer_Stop => unfold Timer_Stop at 1
  | Timer_Tick => unfold Timer_Tick at 1
  | Queue_Signal _ _ => unfold Queue_Signal at 1
  | Queue_ExecuteCommandLists _ => unfold Queue_ExecuteCommandLists at 1
  | Fence_GetCompletedValue _ => unfold Fence_GetCompletedValue at 1
  | Win32_CreateEventEx _ => unfold Win32_CreateEventEx at 1
  | Fence_SetEventOnCompletion _ _ _ => unfold Fence_SetEventOnCompletion at 1
  | Win32_WaitForSingleObject _ _ _ => unfold Win32_WaitForSingleObject at 1
  | CmdList_Reset _ => unfold CmdList_Reset at 1
  | CmdList_Close _ => unfold CmdList_Close at 1
  | SwapChain_Present _ => unfold SwapChain_Present at 1
  | SwapChain_GetBuffer _ _ _ => unfold SwapChain_GetBuffer at 1
  | SwapChain_ResizeBuffers _ _ _ _ _ _ => unfold SwapChain_ResizeBuffers at 1
  | Factory_CreateSwapChain _ _ _ _ _ _ _ => unfold Factory_CreateSwapChain at 1
  | Device_CreateCommittedResource _ _ _ _ => unfold Device_CreateCommittedResource at 1
  | CurrentBackBuffer => unfold CurrentBackBuffer at 1
  | CurrentBackBufferView => unfold CurrentBackBufferView at 1
  | DepthStencilView => unfold DepthStencilView at 1
  | UpdateSubresources _ _ _ _ => unfold UpdateSubresources at 1
  | alloc_back_buffers _ _ _ _ =>
      progress (change (Z.to_nat Settings.s_SwapChainBufferCount) with 2%nat;
                cbn [alloc_back_buffers])
  | OnResize_views _ _ _ =>
      progress (change (Z.to_nat Settings.s_SwapChainBufferCount) with 2%nat;
                cbn [OnResize_views])
  end.

(** Symbolic execution: the head statement of the goal is run. *)
Ltac wp_head m :=
  lazymatch m with
  | mbind _ (mbind _ _) => simple apply wp_assoc
  | mbind _ (return_ _) => simple apply wp_bind_return
  | mbind _ (abort _) => simple apply wp_bind_abort
  | mbind _ answer => simple apply wp_bind_answer; intros ? ?; norm
  | mbind _ (deref _) => simple apply wp_bind_deref; norm; [intros ? ? | intros ?]
  | mbind _ (block_until _) =>
      simple apply wp_bind_block_until; norm; [intros ? ? | intros ?]
  | mbind _ (if ?c then _ else _) => wp_case c
  | mbind _ (match ?x with _ => _ end) => destruct x eqn:?
  | mbind _ (call _) => fail
  | mbind _ ?f =>
      first [ unfold_stmt f | eapply wp_bind_det; [reflexivity | cbv beta; norm] ]
  | return_ _ => unfold wp, return_; norm
  | abort _ => unfold wp, abort; norm
  | answer => simple apply wp_answer; intros ? ?; norm
  | deref _ => simple apply wp_deref; norm; [intros ? ? | intros ?]
  | block_until _ => simple apply wp_block_until; norm; [intros ? ? | intros ?]
  | if ?c then _ else _ => wp_case c
  | match ?x with _ => _ end => destruct x eqn:?
  | call _ => fail
  | ?f => first [ unfold_stmt f | eapply wp_det; [reflexivity | norm] ]
  end.

Ltac wp_step :=
  lazymatch goal with
  | |- wp ?m _ _ => wp_head m
  end.
Ltac wp_go := repeat wp_step.

(** ** The GPU *)

Lemma gpu_step_empty g : gpu_queue g = [] -> gpu_step g = g.
Proof. unfold gpu_step. now intros ->. Qed.

Lemma gpu_run_empty n g : gpu_queue g = [] -> gpu_run n g = g.
Proof.
  induction n as [ | n IH]; intros H; cbn; [reflexivity|].
  rewrite gpu_step_empty by exact H. auto.
Qed.

Lemma gpu_step_cons g it rest :
  gpu_queue g = it :: rest ->
  gpu_queue (gpu_step g) = rest /\
  gpu_retired (gpu_step g) = gpu_retired g ++ [it] /\
  gpu_fence (gpu_step g) = fence_after (gpu_fence g) [it] /\
  gpu_resources (gpu_step g) = retire_item (gpu_resources g) it /\
  gpu_next (gpu_step g) = gpu_next g /\
  gpu_cmdlist (gpu_step g) = gpu_cmdlist g.
Proof.
  unfold gpu_step. intros ->. destruct it; cbn; auto 10.
Qed.

Lemma signals_app q1 q2 : signals (q1 ++ q2) = signals q1 ++ signals q2.
Proof.
  induction q1 as [ | [cs | v | ] q1 IH]; cbn; auto. now rewrite IH.
Qed.

Lemma fence_after_app f q1 q2 :
  fence_after f (q1 ++ q2) = fence_after (fence_after f q1) q2.
Proof. unfold fence_after. apply fold_left_app. Qed.

Lemma resources_after_app rs q1 q2 :
  resources_after rs (q1 ++ q2) = resources_after (resources_after rs q1) q2.
Proof. unfold resources_after. apply fold_left_app. Qed.

(** After any number of steps the GPU has retired a prefix of its queue. *)
Lemma gpu_run_prefix n : forall g,
  exists k, (k <= length (gpu_queue g))%nat /\
    gpu_queue (gpu_run n g) = drop k (gpu_queue g) /\
    gpu_retired (gpu_run n g) = gpu_retired g ++ take k (gpu_queue g) /\
    gpu_fence (gpu_run n g) = fence_after (gpu_fence g) (take k (gpu_queue g)) /\
    gpu_resources (gpu_run n g) = resources_after (gpu_resources g) (take k (gpu_queue g)) /\
    gpu_next (gpu_run n g) = gpu_next g /\
    gpu_cmdlist (gpu_run n g) = gpu_cmdlist g.
Proof.
  induction n as [ | n IH]; intros g.
  - exists O. cbn. rewrite app_nil_r. repeat split; auto. lia.
  - cbn [gpu_run]. destruct (gpu_queue g) as [ | it rest] eqn:E.
    + rewrite gpu_step_empty by exact E. rewrite gpu_run_empty by exact E.
      exists O. rewrite E. cbn. rewrite app_nil_r. repeat split; auto.
    + destruct (gpu_step_cons g it rest E) as (Hq & Hr & Hf & Hrs & Hn & Hc).
      destruct (IH (gpu_step g)) as (k & Hk & Iq & Ir & If & Irs & In & Ic).
      exists (S k). rewrite Hq in *. cbn [length take drop firstn skipn].
      repeat split.
      * lia.
      * exact Iq.
      * rewrite Ir, Hr, <- app_assoc. reflexivity.
      * rewrite If, Hf. change (it :: take k rest) with ([it] ++ take k rest).
        now rewrite fence_after_app.
      * rewrite Irs, Hrs. reflexivity.
      * congruence.
      * congruence.
Qed.

Lemma gpu_run_until_aux_run v fuel : forall g g',
  gpu_run_until_aux v fuel g = Some g' ->
  v <= gpu_fence g' /\ exists n, g' = gpu_run n g.
Proof.
  induction fuel as [ | fuel IH]; intros g g'; cbn.
  - destruct (Z.leb_spec v (gpu_fence g)) as [Hle | Hgt]; [|discriminate].
    intros [= <-]. split; [lia|]. now exists O.
  - destruct (Z.leb_spec v (gpu_fence g)) as [Hle | Hgt].
    + intros [= <-]. split; [lia|]. now exists O.
    + intros Hr. apply IH in Hr as [Hv [n ->]]. split; [exact Hv|]. now exists (S n).
Qed.

Lemma gpu_run_until_run v g g' :
  gpu_run_until v g = Some g' -> v <= gpu_fence g' /\ exists n, g' = gpu_run n g.
Proof. apply gpu_run_until_aux_run. Qed.

(** A wait for a value that is the last thing in the queue ends. *)
Lemma gpu_run_until_aux_total v : forall q g fuel,
  gpu_queue g = q ++ [QSignal v] -> (length q < fuel)%nat ->
  exists g', gpu_run_until_aux v fuel g = Some g'.
Proof.
  induction q as [ | it q IH]; intros g fuel Hq Hfuel.
  - destruct fuel as [ | fuel]; [lia|]. cbn.
    destruct (Z.leb_spec v (gpu_fence g)); [eauto|].
    destruct (gpu_step_cons g _ _ Hq) as (Hq' & _ & Hf & _). cbn in Hf.
    destruct fuel; cbn; rewrite Hf; rewrite Z.leb_refl; eauto.
  - destruct fuel as [ | fuel]; [cbn in Hfuel; lia|]. cbn.
    destruct (Z.leb_spec v (gpu_fence g)); [eauto|].
    destruct (gpu_step_cons g _ _ Hq) as (Hq' & _).
    apply (IH (gpu_step g) fuel Hq'). cbn in Hfuel. lia.
Qed.

Lemma gpu_run_until_total v q g :
  gpu_queue g = q ++ [QSignal v] -> exists g', gpu_run_until v g = Some g'.
Proof.
  intros H. unfold gpu_run_until. apply (gpu_run_until_aux_total v q g _ H).
  rewrite H, length_app. cbn. lia.
Qed.

Lemma gpu_run_until_done v g : v <= gpu_fence g -> gpu_run_until v g = Some g.
Proof.
  intros H. unfold gpu_run_until. destruct (length (gpu_queue g)); cbn;
    destruct (Z.leb_spec v (gpu_fence g)); auto; lia.
Qed.

(** *** The fence invariant *)

Lemma increasing_bounds lo l hi :
  increasing lo l hi = true -> lo <= hi /\ forall v, In v l -> lo < v <= hi.
Proof.
  revert lo. induction l as [ | x l IH]; intros lo H; cbn in H.
  - split; [lia|]. intros v [].
  - apply andb_prop in H as [H1 H2]. apply IH in H2 as [H2 H3].
    split; [lia|]. intros v [<- | Hv]; [lia|]. specialize (H3 v Hv). lia.
Qed.

Lemma increasing_weaken lo l hi hi' :
  increasing lo l hi = true -> hi <= hi' -> increasing lo l hi' = true.
Proof.
  revert lo. induction l as [ | x l IH]; intros lo H Hh; cbn in *.
  - lia.
  - apply andb_prop in H as [H1 H2]. rewrite H1. cbn. eauto.
Qed.

Lemma increasing_snoc lo l hi v :
  increasing lo l hi = true -> hi < v -> increasing lo (l ++ [v]) v = true.
Proof.
  revert lo. induction l as [ | x l IH]; intros lo H Hv; cbn in *.
  - apply andb_true_intro. split; lia.
  - apply andb_prop in H as [H1 H2]. rewrite H1. cbn. eauto.
Qed.

Lemma increasing_split lo q1 q2 hi :
  increasing lo (signals (q1 ++ q2)) hi = true ->
  increasing (fence_after lo q1) (signals q2) hi = true.
Proof.
  revert lo. induction q1 as [ | [cs | v | ] q1 IH]; intros lo H; cbn in H; auto.
  - apply (IH lo H).
  - apply andb_prop in H as [H1 H2]. apply (IH v H2).
  - apply (IH lo H).
Qed.

Lemma increasing_prefix_bound lo q hi k :
  increasing lo (signals q) hi = true -> fence_after lo (take k q) <= hi.
Proof.
  intros H. rewrite <- (take_drop k q) in H.
  apply increasing_split, increasing_bounds in H. tauto.
Qed.

(** ** FlushCommandQueue *)

Lemma gpu_run_add n1 n2 g : gpu_run n2 (gpu_run n1 g) = gpu_run (n1 + n2) g.
Proof. revert g. induction n1 as [ | n1 IH]; intros g; cbn; auto. Qed.

Lemma fence_after_snoc f q v : fence_after f (q ++ [QSignal v]) = v.
Proof. unfold fence_after. now rewrite fold_left_app. Qed.

(** While the fence is short of [v] and [v] was the last thing queued, the
    signal is still in the queue. *)
Lemma enqueue_fields it g :
  gpu_queue (enqueue it g) = gpu_queue g ++ [it] /\
  gpu_retired (enqueue it g) = gpu_retired g /\
  gpu_fence (enqueue it g) = gpu_fence g /\
  gpu_resources (enqueue it g) = gpu_resources g /\
  gpu_next (enqueue it g) = gpu_next g /\
  gpu_cmdlist (enqueue it g) = gpu_cmdlist g.
Proof. repeat split. Qed.

Lemma signal_pending n g0 v :
  gpu_fence (gpu_run n (enqueue (QSignal v) g0)) < v ->
  exists q, gpu_queue (gpu_run n (enqueue (QSignal v) g0)) = q ++ [QSignal v].
Proof.
  intros Hlt.
  destruct (gpu_run_prefix n (enqueue (QSignal v) g0)) as (k & Hk & Hq & _ & Hf & _).
  destruct (enqueue_fields (QSignal v) g0) as (Eq & _ & Ef & _).
  rewrite Eq in Hk, Hq, Hf. rewrite Ef in Hf.
  rewrite length_app in Hk. cbn in Hk.
  destruct (Nat.eq_dec k (length (gpu_queue g0) + 1)%nat) as [-> | Hne].
  - rewrite take_ge in Hf by (rewrite length_app; cbn; lia).
    rewrite fence_after_snoc in Hf. lia.
  - exists (drop k (gpu_queue g0)). rewrite Hq. rewrite drop_app_le by lia. reflexivity.
Qed.

Lemma no_deadlock n g0 v :
  gpu_fence (gpu_run n (enqueue (QSignal v) g0)) < v ->
  gpu_run_until v (gpu_run n (enqueue (QSignal v) g0)) <> None.
Proof.
  intros H. destruct (signal_pending n g0 v H) as [q Hq].
  destruct (gpu_run_until_total v q _ Hq) as [g' ->]. discriminate.
Qed.

Ltac flush_leaf :=
  match goal with
  | |- ?x = ?y \/ _ => left; reflexivity
  | |- _ \/ (exists n, enqueue ?it ?g = gpu_run n _) => right; exists O; reflexivity
  | |- _ \/ (exists n, gpu_run ?k ?g = gpu_run n _) => right; exists k; reflexivity
  | |- exists n, gpu_run ?k ?g = gpu_run n _ => exists k; reflexivity
  | H : gpu_run_until ?v (gpu_run ?k ?g) = Some ?g' |- _ \/ (exists n, ?g' = _) =>
      right; apply gpu_run_until_run in H as [_ [n ->]];
      exists (k + n)%nat; apply gpu_run_add
  | H : gpu_run_until ?v (gpu_run ?k ?g) = Some ?g' |- exists n, ?g' = _ =>
      apply gpu_run_until_run in H as [_ [n ->]];
      exists (k + n)%nat; apply gpu_run_add
  | H : gpu_run_until ?v _ = Some ?g' |- ?v <= gpu_fence ?g' =>
      apply gpu_run_until_run in H as [H _]; exact H
  | H : (?a <? ?b) = false |- ?b <= ?a => apply Z.ltb_ge; exact H
  | H : gpu_run_until ?v (gpu_run ?k (enqueue (QSignal ?v) ?g)) = None,
    L : (gpu_fence (gpu_run ?k (enqueue (QSignal ?v) ?g)) <? ?v) = true |- _ =>
      exfalso; apply Z.ltb_lt in L; exact (no_deadlock k g v L H)
  | H : ?p = None |- ?p = None \/ _ => left; exact H
  | H : ?p = None |- _ \/ ?p = None => right; exact H
  end.

Lemma FlushCommandQueue_spec w : wp FlushCommandQueue (FlushPost w) w.
Proof.
  unfold FlushCommandQueue. wp_go; unfold FlushPost, flush_target; norm.
  all: cbn [signalled app].
  all: repeat split; try reflexivity; auto.
  all: try flush_leaf.
Qed.

(** The statics of [CalculateFrameStats] and the performance counter are
    out of its reach. *)
Lemma FlushCommandQueue_frame w :
  wp FlushCommandQueue (fun _ w' =>
    s_FrameStats w' = s_FrameStats w /\ w_counter w' = w_counter w) w.
Proof. unfold FlushCommandQueue. wp_go; norm; auto. Qed.

Lemma FlushCommandQueue_post w s w' :
  FlushCommandQueue w = (s, w') -> FlushPost w s w'.
Proof. intros H. exact (wp_run _ _ _ _ _ H (FlushCommandQueue_spec w)). Qed.

Lemma FlushCommandQueue_never_hangs w : fst (FlushCommandQueue w) <> Abort WaitsForever.
Proof.
  destruct (FlushCommandQueue w) as [s w'] eqn:E.
  apply FlushCommandQueue_post in E as (_ & _ & E). cbn.
  destruct s as [ | | f]; try discriminate. destruct E as [-> _]. discriminate.
Qed.

(** With the invariant and room below [2^64], a flush that ran to its
    end has emptied the queue. *)
Lemma drained (g0 : Gpu) (cur : Z) (n : nat) :
  increasing (gpu_fence g0) (signals (gpu_queue g0)) cur = true ->
  cur + 1 <= gpu_fence (gpu_run n (enqueue (QSignal (cur + 1)) g0)) ->
  gpu_queue (gpu_run n (enqueue (QSignal (cur + 1)) g0)) = [] /\
  gpu_retired (gpu_run n (enqueue (QSignal (cur + 1)) g0)) =
    gpu_retired g0 ++ gpu_queue g0 ++ [QSignal (cur + 1)] /\
  gpu_fence (gpu_run n (enqueue (QSignal (cur + 1)) g0)) = cur + 1 /\
  gpu_resources (gpu_run n (enqueue (QSignal (cur + 1)) g0)) =
    resources_after (gpu_resources g0) (gpu_queue g0).
Proof.
  intros Hinv Hge.
  destruct (gpu_run_prefix n (enqueue (QSignal (cur + 1)) g0))
    as (k & Hk & Hq & Hr & Hf & Hrs & _).
  destruct (enqueue_fields (QSignal (cur + 1)) g0) as (Eq & Er & Ef & Ers & _).
  rewrite Eq in Hk, Hq, Hr, Hf, Hrs. rewrite Ef in Hf. rewrite Er in Hr. rewrite Ers in Hrs.
  rewrite length_app in Hk. cbn in Hk.
  assert (Hk' : k = (length (gpu_queue g0) + 1)%nat).
  { destruct (Nat.eq_dec k (length (gpu_queue g0) + 1)%nat) as [E | Hne]; [exact E|].
    exfalso. rewrite take_app_le in Hf by lia.
    pose proof (increasing_prefix_bound _ _ _ k Hinv). lia. }
  subst k.
  rewrite drop_ge in Hq by (rewrite length_app; cbn; lia).
  rewrite take_ge in Hr, Hf, Hrs by (rewrite length_app; cbn; lia).
  rewrite fence_after_snoc in Hf.
  rewrite resources_after_app in Hrs. cbn in Hrs.
  auto.
Qed.

Lemma fence_inv_after_run (g0 : Gpu) (hi : Z) (n : nat) :
  increasing (gpu_fence g0) (signals (gpu_queue g0)) hi = true ->
  increasing (gpu_fence (gpu_run n g0)) (signals (gpu_queue (gpu_run n g0))) hi = true.
Proof.
  intros H. destruct (gpu_run_prefix n g0) as (k & _ & Hq & _ & Hf & _).
  rewrite Hq, Hf. apply increasing_split. now rewrite take_drop.
Qed.

(** One flush keeps the fence invariant while the counter does not wrap. *)
Lemma FlushCommandQueue_fence_inv w s w' :
  FlushCommandQueue w = (s, w') -> (forall f, s <> Abort f) ->
  0 <= m_CurrentFence (g_DxApp w) -> m_CurrentFence (g_DxApp w) + 1 < UINT64_MOD ->
  fence_inv w = true ->
  m_CurrentFence (g_DxApp w') = m_CurrentFence (g_DxApp w) + 1 /\
  signalled (w_trace w') = signalled (w_trace w) ++ [m_CurrentFence (g_DxApp w) + 1] /\
  fence_inv w' = true.
Proof.
  intros E Hs H0 Hlt Hinv.
  apply FlushCommandQueue_post in E as (Happ & _ & E).
  unfold flush_target in *. rewrite wrap64_small in * by (unfold UINT64_MOD in *; lia).
  unfold fence_inv in *. rewrite Happ. norm.
  split; [reflexivity|].
  destruct s as [[] | [] | f]; [ | | now destruct (Hs f)].
  - destruct E as (Hsig & _ & n & ->). split; [exact Hsig|].
    apply fence_inv_after_run.
    destruct (enqueue_fields (QSignal (m_CurrentFence (g_DxApp w) + 1)) (w_gpu w))
      as (-> & _ & -> & _).
    rewrite signals_app. cbn [signals].
    apply increasing_snoc with (hi := m_CurrentFence (g_DxApp w)); [exact Hinv | lia].
  - destruct E as (Hsig & [-> | [n ->]]); (split; [exact Hsig|]).
    + apply increasing_weaken with (hi := m_CurrentFence (g_DxApp w)); [exact Hinv | lia].
    + apply fence_inv_after_run.
      destruct (enqueue_fields (QSignal (m_CurrentFence (g_DxApp w) + 1)) (w_gpu w))
        as (-> & _ & -> & _).
      rewrite signals_app. cbn [signals].
      apply increasing_snoc with (hi := m_CurrentFence (g_DxApp w)); [exact Hinv | lia].
Qed.

Lemma fence_inv_completed w :
  fence_inv w = true -> gpu_fence (w_gpu w) <= m_CurrentFence (g_DxApp w).
Proof. intros H. apply increasing_bounds in H. tauto. Qed.

(** At the top of its range the counter goes back to 0. *)
Lemma fence_counter_wraps_at_top :
  let w := (World_initial [])
             <| g_DxApp := g_DxApp_initial <| m_CommandQueue := Some tt |>
                                           <| m_Fence := Some tt |>
                                           <| m_CurrentFence := 18446744073709551615 |> |>
             <| w_gpu := gpu_initial <| gpu_fence := 18446744073709551615 |> |> in
  is_UINT64 (m_CurrentFence (g_DxApp w)) /\
  fence_inv w = true /\
  fst (FlushCommandQueue w) = Continue tt /\
  m_CurrentFence (g_DxApp (snd (FlushCommandQueue w))) = 0 /\
  m_CurrentFence (g_DxApp (snd (FlushCommandQueue w))) < m_CurrentFence (g_DxApp w) /\
  signalled (w_trace (snd (FlushCommandQueue w))) = [0].
Proof. vm_compute. repeat split; congruence. Qed.

(** C2, amended: while the 64-bit counter does not wrap, that is, for a
    run of [n] flush calls from a counter [c] with [c + n < 2^64], every
    flush advances the CPU-side target by exactly 1 before its wait, so the
    targets are [c+1, ..., c+n], strictly increasing, and they are the
    values passed to [Signal], in this order; the completed value of the
    fence, the values signalled and still pending, and the target stay in
    increasing order, so the completed value never exceeds what was
    signalled.  (At [2^64 - 1] the counter wraps to 0.) *)
Theorem fence_targets_increase (w : World) (ts : list Z) (w' : World) :
  flushes w ts w' ->
  0 <= m_CurrentFence (g_DxApp w) ->
  m_CurrentFence (g_DxApp w) + Z.of_nat (length ts) < UINT64_MOD ->
  fence_inv w = true ->
  ts = map (fun i => m_CurrentFence (g_DxApp w) + Z.of_nat i) (seq 1 (length ts)) /\
  m_CurrentFence (g_DxApp w') = m_CurrentFence (g_DxApp w) + Z.of_nat (length ts) /\
  signalled (w_trace w') = signalled (w_trace w) ++ ts /\
  fence_inv w' = true /\
  gpu_fence (w_gpu w') <= m_CurrentFence (g_DxApp w').
Proof.
  intros Hf. induction Hf as [w | w s w1 ts w2 Hrun Hs Hrest IH]; intros H0 Hlt Hinv.
  - cbn. rewrite Z.add_0_r, app_nil_r. repeat split; auto. now apply fence_inv_completed.
  - cbn [length] in *.
    destruct (FlushCommandQueue_fence_inv w s w1 Hrun Hs H0 ltac:(lia) Hinv)
      as (Hcur & Hsig & Hinv1).
    destruct (IH ltac:(lia) ltac:(lia) Hinv1) as (Its & Icur & Isig & Iinv & Ile).
    repeat split.
    + cbn [seq map]. rewrite Hcur at 1. f_equal; try lia.
      rewrite Its at 1. rewrite <- (seq_shift (length ts) 1), map_map.
      apply map_ext. intros i. lia.
    + lia.
    + rewrite Isig, Hsig, Hcur, <- app_assoc. reflexivity.
    + exact Iinv.
    + exact Ile.
Qed.

Lemma fence_targets_increase_witness :
  let w := (World_initial [])
             <| g_DxApp := g_DxApp_initial <| m_CommandQueue := Some tt |>
                                           <| m_Fence := Some tt |> |> in
  exists w', flushes w [1; 2] w' /\
    m_CurrentFence (g_DxApp w') = 2 /\ signalled (w_trace w') = [1; 2].
Proof.
  intros w.
  set (w1 := snd (FlushCommandQueue w)).
  set (w2 := snd (FlushCommandQueue w1)).
  assert (F : flushes w [1; 2] w2).
  { change [1; 2] with (m_CurrentFence (g_DxApp w1) :: m_CurrentFence (g_DxApp w2) :: []).
    refine (flushes_cons w (Continue tt) w1 _ w2 _ _ _);
      [reflexivity | intros f; discriminate | ].
    refine (flushes_cons w1 (Continue tt) w2 _ w2 _ _ _);
      [reflexivity | intros f; discriminate | ].
    apply flushes_nil. }
  exists w2. split; [exact F|].
  destruct (fence_targets_increase w [1; 2] w2 F) as (_ & H2 & H3 & _).
  - cbn. lia.
  - vm_compute. reflexivity.
  - vm_compute. reflexivity.
  - split; [exact H2 | exact H3].
Defined.

(** ** Properties of the trace *)

Section Keeps.

Variable ok : Event -> bool.
Variable P : list Event -> Prop.
Hypothesis P_cons : forall e t, ok e = true -> P t -> P (e :: t).

Lemma keeps_bind {R A B} (m : M R A) (k : A -> M R B) :
  keeps P m -> (forall a, keeps P (k a)) -> keeps P (m ≫= k).
Proof.
  intros Hm Hk w Hw. unfold mbind, M_bind.
  specialize (Hm w Hw). destruct (m w) as [[a | r | x] w']; cbn in *; auto.
  now apply Hk.
Qed.

Lemma keeps_quiet {R A} (m : M R A) :
  (forall w, w_trace (snd (m w)) = w_trace w) -> keeps P m.
Proof. intros H w Hw. now rewrite H. Qed.

Lemma keeps_ret {R A} (a : A) : keeps P (mret a : M R A).
Proof. now apply keeps_quiet. Qed.

Lemma keeps_return {R A} (r : R) : keeps P (return_ r : M R A).
Proof. now apply keeps_quiet. Qed.

Lemma keeps_abort {R A} f : keeps P (abort f : M R A).
Proof. now apply keeps_quiet. Qed.

Lemma keeps_get {R} : keeps P (get : M R World).
Proof. now apply keeps_quiet. Qed.

Lemma keeps_app {R A} (f : DxApp -> A) : keeps P (app f : M R A).
Proof. now apply keeps_quiet. Qed.

Lemma keeps_update_app {R} f : keeps P (update_app f : M R unit).
Proof. now apply keeps_quiet. Qed.

Lemma keeps_update_gpu {R} f : keeps P (update_gpu f : M R unit).
Proof. now apply keeps_quiet. Qed.

Lemma keeps_answer {R} : keeps P (answer : M R Z).
Proof. apply keeps_quiet. intros w. unfold answer. now destruct (w_answers w). Qed.

Lemma keeps_reading {R} : keeps P (reading : M R Z).
Proof. now apply keeps_quiet. Qed.

Lemma keeps_statics {R} : keeps P (statics : M R FrameStats.t).
Proof. now apply keeps_quiet. Qed.

Lemma keeps_set_statics {R} s : keeps P (set_statics s : M R unit).
Proof. now apply keeps_quiet. Qed.

Lemma keeps_alloc {R} r : keeps P (alloc r : M R Handle).
Proof. now apply keeps_quiet. Qed.

Lemma keeps_deref {R A} (p : ComPtr A) : keeps P (deref p : M R A).
Proof. apply keeps_quiet. intros w. now destruct p. Qed.

Lemma keeps_block_until {R} v : keeps P (block_until v : M R unit).
Proof.
  apply keeps_quiet. intros w. unfold block_until.
  now destruct (gpu_run_until v (w_gpu w)).
Qed.

Lemma keeps_state {R A} (f : World -> A) :
  keeps P ((fun w => (Continue (f w), w)) : M R A).
Proof. now apply keeps_quiet. Qed.

Lemma keeps_set_wnd {R} (h : Z) :
  keeps P ((fun w => (Continue tt, w <| g_MainWnd := h |>)) : M R unit).
Proof. now apply keeps_quiet. Qed.

Lemma keeps_emit {R} e : ok e = true -> keeps P (emit e : M R unit).
Proof. intros H w Hw. cbn. now apply P_cons. Qed.

Lemma keeps_call {R R'} (f : M R R) : keeps P f -> keeps P (call f : M R' R).
Proof.
  intros H w Hw. specialize (H w Hw). unfold call.
  destruct (f w) as [[a | r | x] w']; exact H.
Qed.

End Keeps.

Create HintDb keeps discriminated.

#[global] Hint Resolve keeps_ret keeps_return keeps_abort keeps_get keeps_app
  keeps_update_app keeps_update_gpu keeps_answer keeps_alloc keeps_deref
  keeps_reading keeps_statics keeps_set_statics
  keeps_block_until keeps_state keeps_set_wnd : keeps.

(** Structural proof that a computation keeps a trace property; [side]
    settles that an emitted event is allowed. *)
Ltac keeps_step side :=
  lazymatch goal with
  | |- keeps _ (mbind _ _) => apply (keeps_bind _ _); [ | intros ? ]
  | |- keeps _ (emit _) => eapply keeps_emit; [ eassumption | side ]
  | |- keeps _ (call _) => apply keeps_call
  | |- keeps _ (if ?c then _ else _) => destruct c
  | |- keeps _ (match ?x with _ => _ end) => destruct x
  | |- keeps _ ?m => first [ unfold_stmt m | solve [eauto with keeps] ]
  end.

Ltac keeps_go side := repeat keeps_step side.

Section KeepsProgram.

Variable ok : Event -> bool.
Variable P : list Event -> Prop.
Hypothesis P_cons : forall e t, ok e = true -> P t -> P (e :: t).
(** Calls that do not wait for the GPU are allowed anywhere, and so is
    whatever [FlushCommandQueue] calls. *)
Hypothesis ok_api : forall site a, blocks_on_gpu a = false -> ok (EvApi site a) = true.
Hypothesis ok_flush : forall a, ok (EvApi FnFlushCommandQueue a) = true.
Hypothesis ok_enter_flush : ok (EvEnter FnFlushCommandQueue) = true.

Ltac side := first [ apply ok_flush | apply ok_api; reflexivity | assumption ].

Lemma alloc_back_buffers_keeps {R} n w h f :
  keeps P (alloc_back_buffers n w h f : M R (list Handle)).
Proof. induction n; cbn [alloc_back_buffers]; keeps_go side. Qed.
Hint Resolve alloc_back_buffers_keeps : keeps.

Lemma FlushCommandQueue_keeps : keeps P FlushCommandQueue.
Proof. unfold FlushCommandQueue. keeps_go side. Qed.
Hint Resolve FlushCommandQueue_keeps : keeps.

Lemma OnResize_views_keeps n : forall i h, keeps P (OnResize_views n i h).
Proof. induction n; intros i h; cbn [OnResize_views]; keeps_go side. Qed.
Hint Resolve OnResize_views_keeps : keeps.

(** [OnResize] adds its own entry to the trace and then only allowed events. *)
Lemma OnResize_trace cfg (P0 : list Event -> Prop) :
  (forall t, P0 t -> P (EvEnter FnOnResize :: t)) ->
  forall w, P0 (w_trace w) -> P (w_trace (snd (OnResize cfg w))).
Proof.
  intros Henter w Hw. unfold OnResize, enter.
  match goal with
  | |- P (w_trace (snd ((emit ?e ≫= ?k) w))) =>
      change (P (w_trace (snd (k tt (w <| w_trace := e :: w_trace w |>)))));
      cut (keeps P (k tt)); [intros K; apply K; cbn; auto | cbv beta]
  end.
  keeps_go side.
Qed.

(** From here on every function may be entered. *)
Hypothesis ok_enter : forall f, ok (EvEnter f) = true.

Ltac side ::= first [ apply ok_flush | apply ok_api; reflexivity | apply ok_enter ].

Lemma CreateDefaultBuffer_keeps device cmdList data byteSize uploadBuffer : keeps P (CreateDefaultBuffer device cmdList data byteSize uploadBuffer).
Proof. unfold CreateDefaultBuffer. keeps_go side. Qed.
Hint Resolve CreateDefaultBuffer_keeps : keeps.

Lemma CreateCommandObjects_keeps  : keeps P (CreateCommandObjects).
Proof. unfold CreateCommandObjects. keeps_go side. Qed.
Hint Resolve CreateCommandObjects_keeps : keeps.

Lemma CreateSwapChain_keeps  : keeps P (CreateSwapChain).
Proof. unfold CreateSwapChain. keeps_go side. Qed.
Hint Resolve CreateSwapChain_keeps : keeps.

Lemma CreateDescriptorHeaps_keeps  : keeps P (CreateDescriptorHeaps).
Proof. unfold CreateDescriptorHeaps. keeps_go side. Qed.
Hint Resolve CreateDescriptorHeaps_keeps : keeps.

Lemma InitD3D_device_keeps cfg : keeps P (InitD3D_device cfg).
Proof. unfold InitD3D_device. keeps_go side. Qed.
Hint Resolve InitD3D_device_keeps : keeps.

Lemma InitD3D_msaa_keeps cfg : keeps P (InitD3D_msaa cfg).
Proof. unfold InitD3D_msaa. keeps_go side. Qed.
Hint Resolve InitD3D_msaa_keeps : keeps.

Lemma OnResize_keeps cfg : keeps P (OnResize cfg).
Proof. intros w Hw. apply (OnResize_trace cfg P); auto. Qed.
Hint Resolve OnResize_keeps : keeps.

Lemma InitD3D_other_keeps cfg : keeps P (InitD3D_other cfg).
Proof. unfold InitD3D_other. keeps_go side. Qed.
Hint Resolve InitD3D_other_keeps : keeps.

Lemma InitD3D_keeps cfg : keeps P (InitD3D cfg).
Proof. unfold InitD3D. keeps_go side. Qed.
Hint Resolve InitD3D_keeps : keeps.

Lemma SetMsaaEnabled_keeps cfg enabled : keeps P (SetMsaaEnabled cfg enabled).
Proof. unfold SetMsaaEnabled. keeps_go side. Qed.
Hint Resolve SetMsaaEnabled_keeps : keeps.

Lemma OnMouseDown_keeps btnState x y : keeps P (OnMouseDown btnState x y).
Proof. unfold OnMouseDown. keeps_go side. Qed.
Hint Resolve OnMouseDown_keeps : keeps.

Lemma OnMouseUp_keeps btnState x y : keeps P (OnMouseUp btnState x y).
Proof. unfold OnMouseUp. keeps_go side. Qed.
Hint Resolve OnMouseUp_keeps : keeps.

Lemma OnMouseMove_keeps btnState x y : keeps P (OnMouseMove btnState x y).
Proof. unfold OnMouseMove. keeps_go side. Qed.
Hint Resolve OnMouseMove_keeps : keeps.

Lemma CompileShader_keeps entrypoint target : keeps P (CompileShader entrypoint target).
Proof. unfold CompileShader. keeps_go side. Qed.
Hint Resolve CompileShader_keeps : keeps.

Lemma BuildDescriptorHeaps_keeps  : keeps P (BuildDescriptorHeaps).
Proof. unfold BuildDescriptorHeaps. keeps_go side. Qed.
Hint Resolve BuildDescriptorHeaps_keeps : keeps.

Lemma UploadBuffer_ctor_keeps device elementCount isConstantBuffer : keeps P (UploadBuffer_ctor device elementCount isConstantBuffer).
Proof. unfold UploadBuffer_ctor. keeps_go side. Qed.
Hint Resolve UploadBuffer_ctor_keeps : keeps.

Lemma BuildConstantBuffers_keeps  : keeps P (BuildConstantBuffers).
Proof. unfold BuildConstantBuffers. keeps_go side. Qed.
Hint Resolve BuildConstantBuffers_keeps : keeps.

Lemma BuildRootSignature_keeps  : keeps P (BuildRootSignature).
Proof. unfold BuildRootSignature. keeps_go side. Qed.
Hint Resolve BuildRootSignature_keeps : keeps.

Lemma BuildShadersAndInputLayout_keeps  : keeps P (BuildShadersAndInputLayout).
Proof. unfold BuildShadersAndInputLayout. keeps_go side. Qed.
Hint Resolve BuildShadersAndInputLayout_keeps : keeps.

Lemma BuildBoxGeometry_keeps  : keeps P (BuildBoxGeometry).
Proof. unfold BuildBoxGeometry. keeps_go side. Qed.
Hint Resolve BuildBoxGeometry_keeps : keeps.

Lemma BuildPSO_keeps  : keeps P (BuildPSO).
Proof. unfold BuildPSO. keeps_go side. Qed.
Hint Resolve BuildPSO_keeps : keeps.

Lemma OnInitialize_keeps  : keeps P (OnInitialize).
Proof. unfold OnInitialize. keeps_go side. Qed.
Hint Resolve OnInitialize_keeps : keeps.

Lemma Update_keeps  : keeps P (Update).
Proof. unfold Update. keeps_go side. Qed.
Hint Resolve Update_keeps : keeps.

Lemma Draw_keeps  : keeps P (Draw).
Proof. unfold Draw. keeps_go side. Qed.
Hint Resolve Draw_keeps : keeps.

Lemma CalculateFrameStats_keeps : keeps P CalculateFrameStats.
Proof. unfold CalculateFrameStats. keeps_go side. Qed.
Hint Resolve CalculateFrameStats_keeps : keeps.

Lemma WndProc_SIZE_keeps cfg wParam lParam : keeps P (WndProc_SIZE cfg wParam lParam).
Proof. unfold WndProc_SIZE. keeps_go side. Qed.
Hint Resolve WndProc_SIZE_keeps : keeps.

Lemma WndProc_keeps cfg hWnd msg wParam lParam : keeps P (WndProc cfg hWnd msg wParam lParam).
Proof. unfold WndProc. keeps_go side. Qed.
Hint Resolve WndProc_keeps : keeps.

Lemma Run_idle_keeps  : keeps P (Run_idle).
Proof. unfold Run_idle. keeps_go side. Qed.
Hint Resolve Run_idle_keeps : keeps.

Lemma Run_message_keeps cfg m : keeps P (Run_message cfg m).
Proof. unfold Run_message, Dispatch. keeps_go side. Qed.
Hint Resolve Run_message_keeps : keeps.

Lemma Run_loop_keeps cfg peeks : forall msg, keeps P (Run_loop cfg peeks msg).
Proof.
  induction peeks as [ | [m | ] rest IH]; intros msg; cbn [Run_loop]; keeps_go side.
Qed.
Hint Resolve Run_loop_keeps : keeps.

Lemma Run_keeps cfg peeks : keeps P (Run cfg peeks).
Proof. unfold Run. keeps_go side. Qed.

End KeepsProgram.

(** ** Claims about FlushCommandQueue *)

Lemma waits_in_flush_cons e t :
  waits_in_flush e = true ->
  Forall (fun e => waits_in_flush e = true) t ->
  Forall (fun e => waits_in_flush e = true) (e :: t).
Proof. intros. now constructor. Qed.

Lemma waits_in_flush_api site a : blocks_on_gpu a = false -> waits_in_flush (EvApi site a) = true.
Proof. cbn. now intros ->. Qed.

Lemma waits_in_flush_flush a : waits_in_flush (EvApi FnFlushCommandQueue a) = true.
Proof. cbn. now destruct (blocks_on_gpu a). Qed.

(** C1, as stated: the fence counter is at the top of its range,
    [2^64 - 1], the fence has reached it and one command list is still in
    the queue; the fence invariant holds.  The flush takes the target 0,
    which the fence has passed long ago, so it comes back at once: it has
    not waited, the completed value is at or above the target, and yet
    the command list and the signal are still in the queue and nothing
    has retired. *)
Lemma flush_returns_with_work_queued :
  let top := 18446744073709551615 in
  let w := World_with_queue
             <| g_DxApp := (g_DxApp World_with_queue) <| m_CurrentFence := top |> |>
             <| w_gpu := gpu_initial <| gpu_fence := top |> <| gpu_queue := [QExecute []] |> |> in
  let r := FlushCommandQueue w in
  fence_inv w = true /\
  fst r = Continue tt /\
  flush_target w = 0 /\
  flush_target w <= gpu_fence (w_gpu (snd r)) /\
  existsb is_wait (w_trace (snd r)) = false /\
  gpu_queue (w_gpu (snd r)) = [QExecute []; QSignal 0] /\
  gpu_retired (w_gpu (snd r)) = [] /\
  ~ (forall it, In it (gpu_queue (w_gpu w)) -> In it (gpu_retired (w_gpu (snd r)))).
Proof.
  intros top w r.
  assert (Hret : gpu_retired (w_gpu (snd r)) = []) by (vm_compute; reflexivity).
  split; [vm_compute; reflexivity | ]. split; [vm_compute; reflexivity | ].
  split; [vm_compute; reflexivity | ]. split; [vm_compute; discriminate | ].
  split; [vm_compute; reflexivity | ]. split; [vm_compute; reflexivity | ].
  split; [exact Hret | ].
  intros H. specialize (H (QExecute []) (or_introl eq_refl)).
  rewrite Hret in H. exact H.
Qed.

(** C1, amended: a call of [FlushCommandQueue] that runs to its end has
    passed the new target to [Signal] and comes back with the completed
    value of the fence at or above that target.  When the fence invariant
    holds before the call and the counter is below the top of its range,
    so that the target does not wrap around, everything that was queued
    before the call has then retired and the queue is empty.  The call
    never waits for something that does not happen.  And in the traces of
    the window procedure, on any message, and of the message loop, on any
    schedule of messages, whatever parks the thread until the GPU is done
    is issued by [FlushCommandQueue]. *)
Theorem flush_is_the_only_wait :
  (forall w w', FlushCommandQueue w = (Continue tt, w') ->
     m_CurrentFence (g_DxApp w') = flush_target w /\
     signalled (w_trace w') = signalled (w_trace w) ++ [flush_target w] /\
     m_CurrentFence (g_DxApp w') <= gpu_fence (w_gpu w') /\
     (fence_inv w = true -> 0 <= m_CurrentFence (g_DxApp w) ->
      m_CurrentFence (g_DxApp w) + 1 < UINT64_MOD ->
      gpu_queue (w_gpu w') = [] /\
      gpu_retired (w_gpu w') =
        gpu_retired (w_gpu w) ++ gpu_queue (w_gpu w) ++ [QSignal (flush_target w)])) /\
  (forall w, fst (FlushCommandQueue w) <> Abort WaitsForever) /\
  (forall cfg hWnd msg wParam lParam w,
     Forall (fun e => waits_in_flush e = true) (w_trace w) ->
     Forall (fun e => waits_in_flush e = true)
       (w_trace (snd (WndProc cfg hWnd msg wParam lParam w)))) /\
  (forall cfg peeks w,
     Forall (fun e => waits_in_flush e = true) (w_trace w) ->
     Forall (fun e => waits_in_flush e = true) (w_trace (snd (Run cfg peeks w)))).
Proof.
  split; [ | split; [ | split]].
  - intros w w' E. apply FlushCommandQueue_post in E as (Happ & _ & Hsig & Hge & n & Hgpu).
    rewrite Happ. norm.
    split; [reflexivity | ]. split; [exact Hsig | ]. split; [exact Hge | ].
    intros Hinv H0 Hlt. unfold flush_target in *.
    rewrite wrap64_small in * by (unfold UINT64_MOD in *; lia).
    rewrite Hgpu in *.
    destruct (drained (w_gpu w) (m_CurrentFence (g_DxApp w)) n Hinv Hge) as (Hq & Hr & _).
    auto.
  - apply FlushCommandQueue_never_hangs.
  - intros cfg hWnd msg wParam lParam.
    apply (WndProc_keeps waits_in_flush); auto using waits_in_flush_cons,
      waits_in_flush_api, waits_in_flush_flush.
  - intros cfg peeks.
    apply (Run_keeps waits_in_flush); auto using waits_in_flush_cons,
      waits_in_flush_api, waits_in_flush_flush.
Qed.

(** A flush that does wait: one command list is in the queue, the fence is
    behind, and the call comes back with the queue empty. *)
Lemma flush_is_the_only_wait_witness :
  let w := World_with_queue <| w_gpu := gpu_initial <| gpu_queue := [QExecute []] |> |> in
  existsb is_wait (w_trace (snd (FlushCommandQueue w))) = true /\
  gpu_queue (w_gpu (snd (FlushCommandQueue w))) = [] /\
  gpu_retired (w_gpu (snd (FlushCommandQueue w))) = [QExecute []; QSignal 1] /\
  Forall (fun e => waits_in_flush e = true)
    (w_trace (started release_build answers_ok)).
Proof.
  intros w.
  destruct flush_is_the_only_wait as (Ha & _ & Hc & _).
  destruct (Ha w (snd (FlushCommandQueue w))) as (_ & _ & _ & Hd).
  { vm_compute. reflexivity. }
  destruct Hd as (Hq & Hr).
  { vm_compute. reflexivity. }
  { vm_compute. congruence. }
  { vm_compute. reflexivity. }
  split; [vm_compute; reflexivity | ].
  split; [exact Hq | ].
  split; [exact Hr | ].
  apply (Hc release_build 1 WM_CREATE 0 0 (World_initial answers_ok)).
  constructor.
Defined.

(** ** The counter of the fence over many flushes *)

Lemma flush_many_succ n w :
  flush_many (N.succ n) w = snd (FlushCommandQueue (flush_many n w)).
Proof. unfold flush_many. now rewrite N.iter_succ. Qed.

Lemma flush_many_app n w :
  g_DxApp (flush_many n w) =
    (g_DxApp w) <| m_CurrentFence :=
      if (n =? 0)%N then m_CurrentFence (g_DxApp w)
      else wrap64 (m_CurrentFence (g_DxApp w) + Z.of_N n) |>.
Proof.
  induction n as [ | n IH] using N.peano_ind.
  - reflexivity.
  - rewrite flush_many_succ.
    destruct (FlushCommandQueue (flush_many n w)) as [s w'] eqn:E.
    apply FlushCommandQueue_post in E as (Happ & _). cbn [snd].
    rewrite Happ. unfold flush_target. rewrite IH. norm.
    destruct (N.eqb_spec n 0) as [-> | Hn]; destruct (N.eqb_spec (N.succ 0) 0);
      try lia.
    + reflexivity.
    + destruct (N.eqb_spec (N.succ n) 0); [lia|].
      f_equal. unfold wrap64. rewrite Z.add_mod_idemp_l by (unfold UINT64_MOD; lia).
      f_equal. lia.
Qed.

Lemma flush_many_signalled n w :
  m_CommandQueue (g_DxApp w) <> None -> m_Fence (g_DxApp w) <> None ->
  signalled (w_trace (flush_many (N.succ n) w)) =
    signalled (w_trace (flush_many n w)) ++ [flush_target (flush_many n w)].
Proof.
  intros Hq Hf. rewrite flush_many_succ.
  destruct (FlushCommandQueue (flush_many n w)) as [s w'] eqn:E.
  apply FlushCommandQueue_post in E as (_ & _ & E). cbn [snd].
  destruct s as [ | | f]; try tauto.
  destruct E as (_ & [E | E]); rewrite flush_many_app in E; cbn in E; contradiction.
Qed.

(** C2, as stated: started at 0, the counter is at the top of its range
    after [2^64 - 1] flushes, and the next flush takes it, and the value it
    passes to [Signal], back to 0. *)
Lemma fence_counter_wraps :
  let w := flush_many 18446744073709551615 World_with_queue in
  let w' := snd (FlushCommandQueue w) in
  m_CurrentFence (g_DxApp World_with_queue) = 0 /\
  m_CurrentFence (g_DxApp w) = 18446744073709551615 /\
  (forall f, fst (FlushCommandQueue w) <> Abort f) /\
  m_CurrentFence (g_DxApp w') = 0 /\
  m_CurrentFence (g_DxApp w') < m_CurrentFence (g_DxApp w) /\
  exists l, signalled (w_trace w') = l ++ [18446744073709551615; 0].
Proof.
  pose proof (flush_many_app 18446744073709551614 World_with_queue) as Hv.
  pose proof (flush_many_app 18446744073709551615 World_with_queue) as Hw.
  pose proof (flush_many_app 18446744073709551616 World_with_queue) as Hw'.
  pose proof (flush_many_succ 18446744073709551615 World_with_queue) as Hs.
  pose proof (flush_many_signalled 18446744073709551615 World_with_queue
                ltac:(discriminate) ltac:(discriminate)) as S1.
  pose proof (flush_many_signalled 18446744073709551614 World_with_queue
                ltac:(discriminate) ltac:(discriminate)) as S0.
  change (N.succ 18446744073709551615) with 18446744073709551616%N in *.
  change (N.succ 18446744073709551614) with 18446744073709551615%N in *.
  cbv zeta.
  set (w := flush_many 18446744073709551615 World_with_queue) in *.
  set (w' := flush_many 18446744073709551616 World_with_queue) in *.
  set (v := flush_many 18446744073709551614 World_with_queue) in *.
  clearbody w w' v.
  assert (Tv : flush_target v = 18446744073709551615)
    by (unfold flush_target; rewrite Hv; reflexivity).
  assert (Tw : flush_target w = 0)
    by (unfold flush_target; rewrite Hw; reflexivity).
  rewrite <- Hs, Hw, Hw'.
  split; [reflexivity | ]. split; [reflexivity | ].
  split.
  { intros f Hf. destruct (FlushCommandQueue w) as [s w1] eqn:E.
    apply FlushCommandQueue_post in E as (_ & _ & E). cbn in Hf. subst s.
    rewrite Hw in E. destruct E as (_ & [E | E]); discriminate E. }
  split; [reflexivity | ]. split; [reflexivity | ].
  exists (signalled (w_trace v)).
  rewrite S1, S0, Tv, Tw, <- app_assoc. reflexivity.
Qed.

(** ** Draw and the back-buffer index *)

(** A call of [FlushCommandQueue] inside a function: among the globals
    only the fence target changes. *)
Lemma wp_bind_flush {R B} (k : unit -> M R B) (Q : Step R B -> World -> Prop) w :
  (forall gpu tr ans,
     wp (k tt) Q
       {| g_MainWnd := g_MainWnd w;
          g_DxApp := (g_DxApp w) <| m_CurrentFence := wrap64 (m_CurrentFence (g_DxApp w) + 1) |>;
          s_FrameStats := s_FrameStats w;
          w_gpu := gpu; w_trace := tr; w_answers := ans; w_counter := w_counter w |}) ->
  (forall f w', Q (Abort f) w') ->
  wp (call FlushCommandQueue ≫= k) Q w.
Proof.
  intros Hk Ha. apply wp_bind_call. eapply wp_mono;
    [apply wp_conj; [apply FlushCommandQueue_spec | apply FlushCommandQueue_frame] | ].
  intros s w' ((Happ & Hwnd & _) & Hst & Hcnt). destruct w' as [wnd g st gpu tr ans cnt].
  cbn [g_DxApp g_MainWnd s_FrameStats w_counter] in Happ, Hwnd, Hst, Hcnt. subst.
  destruct s as [[] | [] | f]; [apply Hk | apply Hk | apply Ha].
Qed.

Lemma wp_flush_last {R} (Q : Step R unit -> World -> Prop) w :
  (forall gpu tr ans,
     Q (Continue tt)
       {| g_MainWnd := g_MainWnd w;
          g_DxApp := (g_DxApp w) <| m_CurrentFence := wrap64 (m_CurrentFence (g_DxApp w) + 1) |>;
          s_FrameStats := s_FrameStats w;
          w_gpu := gpu; w_trace := tr; w_answers := ans; w_counter := w_counter w |}) ->
  (forall f w', Q (Abort f) w') ->
  wp (call FlushCommandQueue) Q w.
Proof.
  intros Hk Ha. apply wp_call. eapply wp_mono;
    [apply wp_conj; [apply FlushCommandQueue_spec | apply FlushCommandQueue_frame] | ].
  intros s w' ((Happ & Hwnd & _) & Hst & Hcnt). destruct w' as [wnd g st gpu tr ans cnt].
  cbn [g_DxApp g_MainWnd s_FrameStats w_counter] in Happ, Hwnd, Hst, Hcnt. subst.
  destruct s as [[] | [] | f]; [apply Hk | apply Hk | apply Ha].
Qed.

Ltac wp_flush :=
  first [ simple apply wp_bind_flush | simple apply wp_flush_last ];
  [ intros ? ? ?; norm | intros ? ?; try exact I ].

Ltac wp_run_all := repeat (wp_go; try exact I; try wp_flush).

Lemma Draw_index w :
  wp Draw (fun s w' =>
    match s with
    | Continue _ =>
        0 <= m_CurrentBackBuffer (g_DxApp w) < Settings.s_SwapChainBufferCount /\
        m_CurrentBackBuffer (g_DxApp w') =
          (m_CurrentBackBuffer (g_DxApp w) + 1) mod Settings.s_SwapChainBufferCount
    | _ => True
    end) w.
Proof.
  unfold Draw. wp_run_all.
  all: apply andb_prop in Heqb1 as [Hlo Hhi];
    apply Z.leb_le in Hlo; apply Z.ltb_lt in Hhi.
  all: (split; [split; assumption | ]).
  all: match goal with
       | |- Z.rem (?i + 1) _ = _ =>
           apply Z.rem_mod_nonneg;
             [apply Z.add_nonneg_nonneg; [exact Hlo | lia] | reflexivity]
       end.
Qed.

Lemma Draw_advances w w1 :
  Draw w = (Continue tt, w1) ->
  0 <= m_CurrentBackBuffer (g_DxApp w) < Settings.s_SwapChainBufferCount /\
  m_CurrentBackBuffer (g_DxApp w1) =
    (m_CurrentBackBuffer (g_DxApp w) + 1) mod Settings.s_SwapChainBufferCount.
Proof. intros E. exact (wp_run _ _ _ _ _ E (Draw_index w)). Qed.

Lemma draws_index n w w' :
  draws n w w' -> (0 < n)%nat ->
  0 <= m_CurrentBackBuffer (g_DxApp w) < Settings.s_SwapChainBufferCount /\
  m_CurrentBackBuffer (g_DxApp w') =
    (m_CurrentBackBuffer (g_DxApp w) + Z.of_nat n) mod Settings.s_SwapChainBufferCount.
Proof.
  induction 1 as [w | n w w1 w2 E Hrest IH]; intros Hn; [lia | ].
  apply Draw_advances in E as (Hr & E). split; [exact Hr | ].
  destruct n as [ | n].
  - inversion Hrest; subst. exact E.
  - destruct IH as (_ & IH); [lia | ]. rewrite IH, E.
    rewrite Z.add_mod_idemp_l by (unfold Settings.s_SwapChainBufferCount; lia).
    f_equal. lia.
Qed.

(** C3: a [Draw()] that runs to its end finds the index [i] of the
    current back buffer inside the swap chain's [N = 2] buffers and leaves
    it at [(i + 1) mod N]; after [n] such calls the index is
    [(i + n) mod N], so after exactly [N] of them it is [i] again. *)
Theorem back_buffer_index_cycles (n : nat) (w w' : World) :
  draws n w w' -> (0 < n)%nat ->
  Settings.s_SwapChainBufferCount = 2 /\
  0 <= m_CurrentBackBuffer (g_DxApp w) < Settings.s_SwapChainBufferCount /\
  m_CurrentBackBuffer (g_DxApp w') =
    (m_CurrentBackBuffer (g_DxApp w) + Z.of_nat n) mod Settings.s_SwapChainBufferCount /\
  (n = Z.to_nat Settings.s_SwapChainBufferCount ->
   m_CurrentBackBuffer (g_DxApp w') = m_CurrentBackBuffer (g_DxApp w)).
Proof.
  intros Hd Hn. destruct (draws_index n w w' Hd Hn) as (Hr & E).
  split; [reflexivity | ]. split; [exact Hr | ]. split; [exact E | ].
  intros ->. rewrite E. unfold Settings.s_SwapChainBufferCount in *.
  change (Z.of_nat (Z.to_nat 2)) with 2.
  rewrite <- (Z.mul_1_l 2) at 1. rewrite Z.mod_add by lia. apply Z.mod_small. lia.
Qed.

(** Two frames drawn after start-up. *)
Lemma back_buffer_index_cycles_witness :
  let w := started release_build answers_ok in
  let w1 := snd (Draw w) in
  let w2 := snd (Draw w1) in
  draws 2 w w2 /\
  m_CurrentBackBuffer (g_DxApp w) = 0 /\
  m_CurrentBackBuffer (g_DxApp w1) = 1 /\
  m_CurrentBackBuffer (g_DxApp w2) = m_CurrentBackBuffer (g_DxApp w).
Proof.
  intros w w1 w2.
  assert (D1 : draws 1 w w1).
  { refine (draws_S 0 w w1 w1 _ (draws_O w1)). vm_compute. reflexivity. }
  assert (D2 : draws 2 w w2).
  { refine (draws_S 1 w w1 w2 _ (draws_S 0 w1 w2 w2 _ (draws_O w2))); vm_compute; reflexivity. }
  split; [exact D2 | ].
  destruct (back_buffer_index_cycles 1 w w1 D1 ltac:(lia)) as (_ & _ & H1 & _).
  destruct (back_buffer_index_cycles 2 w w2 D2 ltac:(lia)) as (_ & _ & _ & H2).
  split; [vm_compute; reflexivity | ].
  split; [rewrite H1; vm_compute; reflexivity | ].
  apply H2. reflexivity.
Defined.

(** ** OnResize *)

Lemma OnResize_spec cfg w :
  wp (OnResize cfg) (fun s w' =>
    match s with
    | Continue _ =>
        resized (m_ClientWidth (g_DxApp w)) (m_ClientHeight (g_DxApp w)) (g_DxApp w')
    | _ => True
    end) w.
Proof.
  unfold OnResize.
  wp_run_all.
  all: unfold resized; norm.
  all: repeat match goal with
              | H : Some _ = Some _ |- _ => injection H as <-
              end.
  all: change (Z.to_nat (0 + 1)) with 1%nat in *; change (Z.to_nat 0) with 0%nat in *.
  all: repeat match goal with
              | H : _ !! _ = _ |- _ =>
                  cbn [lookup list_lookup] in H; first [discriminate H | injection H as <-]
              end.
  all: split; [reflexivity | ]; split; [reflexivity | ].
  all: split; [ | repeat split; reflexivity].
  all: eexists _, _, _; repeat split; reflexivity.
Qed.

Lemma OnResize_post cfg w w' :
  OnResize cfg w = (Continue tt, w') ->
  resized (m_ClientWidth (g_DxApp w)) (m_ClientHeight (g_DxApp w)) (g_DxApp w').
Proof. intros E. exact (wp_run _ _ _ _ _ E (OnResize_spec cfg w)). Qed.

(** C4: a resize that runs to its end, for a client area of [width] by
    [height] pixels as [WM_SIZE] reports them (16-bit words, which covers
    every size from the minimum track size upwards), keeps the client
    size, leaves a swap chain of [s_SwapChainBufferCount = 2] buffers of
    that size, both fetched into [m_SwapChainBuffer], sets the viewport's
    width and height to the floats that are exactly [width] and [height],
    stores the projection for the aspect ratio [width / height] (the
    binary32 quotient of the two floats), and resets the index of the
    current back buffer to 0. *)
Theorem OnResize_completed (cfg : BuildConfig) (w w' : World) :
  OnResize cfg w = (Continue tt, w') ->
  0 <= m_ClientWidth (g_DxApp w) <= 65535 ->
  0 <= m_ClientHeight (g_DxApp w) <= 65535 ->
  resized (m_ClientWidth (g_DxApp w)) (m_ClientHeight (g_DxApp w)) (g_DxApp w') /\
  Settings.s_SwapChainBufferCount = 2 /\
  F32.exactly (Width (m_ScreenViewport (g_DxApp w'))) (m_ClientWidth (g_DxApp w)) = true /\
  F32.exactly (Height (m_ScreenViewport (g_DxApp w'))) (m_ClientHeight (g_DxApp w)) = true /\
  AspectRatio (g_DxApp w') =
    F32.div (Width (m_ScreenViewport (g_DxApp w'))) (Height (m_ScreenViewport (g_DxApp w'))).
Proof.
  intros E HW HH. pose proof (OnResize_post cfg w w' E) as Hr.
  split; [exact Hr | ]. split; [reflexivity | ].
  destruct Hr as (EW & EH & _ & VW & VH & _).
  rewrite VW, VH. unfold AspectRatio. rewrite EW, EH.
  split; [now apply of_int_exact | ]. split; [now apply of_int_exact | reflexivity].
Qed.

(** The window is dragged to 1024 by 768 after start-up. *)
Lemma OnResize_completed_witness :
  let w := (started release_build answers_ok)
             <| g_DxApp := (g_DxApp (started release_build answers_ok))
                             <| m_ClientWidth := 1024 |> <| m_ClientHeight := 768 |> |> in
  let w' := snd (OnResize release_build w) in
  resized 1024 768 (g_DxApp w') /\
  Width (m_ScreenViewport (g_DxApp w')) = F32.lit 8388608 (-13) /\
  Height (m_ScreenViewport (g_DxApp w')) = F32.lit 12582912 (-14).
Proof.
  intros w w'.
  destruct (OnResize_completed release_build w w') as (Hr & _).
  - vm_compute. reflexivity.
  - vm_compute. split; discriminate.
  - vm_compute. split; discriminate.
  - split; [exact Hr | ]. split; vm_compute; reflexivity.
Defined.

(** ** CreateDefaultBuffer *)

(** The answer of the environment, kept as what it is in the script. *)
Lemma wp_bind_answer_exact {R B} (k : Z -> M R B) Q w :
  wp (k (hd 0 (w_answers w))) Q (w <| w_answers := tl (w_answers w) |>) ->
  wp (answer ≫= k) Q w.
Proof.
  unfold wp, answer, mbind, M_bind. destruct w as [wnd g st gpu tr ans cnt].
  cbn. destruct ans as [ | a rest]; cbn; auto.
Qed.

Ltac wp_step_exact :=
  lazymatch goal with
  | |- wp (mbind _ answer) _ _ => simple apply wp_bind_answer_exact; norm
  | _ => wp_step
  end.

Lemma CreateDefaultBuffer_spec device cmdList data byteSize uploadBuffer w :
  device <> nullptr -> cmdList <> nullptr ->
  wp (CreateDefaultBuffer device cmdList data byteSize uploadBuffer)
     (CreateDefaultBuffer_post data byteSize uploadBuffer w) w.
Proof.
  intros Hd Hc. unfold CreateDefaultBuffer.
  repeat wp_step_exact.
  all: try contradiction.
  all: try match goal with H : Some _ = None |- _ => discriminate H end.
  all: repeat match goal with H : Some _ = Some _ |- _ => injection H as <- end.
  all: try (rewrite lookup_insert_eq; norm).
  all: unfold CreateDefaultBuffer_post, reported; norm.
  all: repeat match goal with
              | H : FAILED _ = ?b |- context [FAILED ?x] =>
                  let E := fresh in
                  assert (E : FAILED x = b) by exact H; rewrite E; clear E
              end.
  all: repeat split; try reflexivity.
  - rewrite insert_insert_eq. reflexivity.
  - rewrite <- !app_assoc. reflexivity.
Qed.

Lemma CreateDefaultBuffer_run device cmdList data byteSize uploadBuffer w s w' :
  device <> nullptr -> cmdList <> nullptr ->
  CreateDefaultBuffer device cmdList data byteSize uploadBuffer w = (s, w') ->
  CreateDefaultBuffer_post data byteSize uploadBuffer w s w'.
Proof.
  intros Hd Hc E.
  exact (wp_run _ _ _ _ _ E (CreateDefaultBuffer_spec _ _ _ _ _ w Hd Hc)).
Qed.

(** C5: a call of [CreateDefaultBuffer] with a device and a command list
    asks for a default-heap buffer of [byteSize] bytes in the common state
    and then for an upload-heap buffer of the same size.  When both
    allocations succeed it returns the default buffer and leaves the
    upload buffer in [uploadBuffer]; the caller's data is in the upload
    buffer, and the command list has grown by exactly three commands: the
    transition of the default buffer to the copy-destination state, the
    copy of [byteSize] bytes from the start of the upload buffer to the
    start of the default buffer, and the transition of the default buffer
    to the generic-read state.  When the first allocation fails it shows
    the message box of that failure and returns null with nothing recorded
    or allocated; when the second fails it shows the other message box and
    returns null with nothing recorded. *)
Theorem CreateDefaultBuffer_cases (device cmdList : ComPtr unit)
    (data : list Byte.byte) (byteSize : Z) (uploadBuffer : ComPtr Handle) (w : World) :
  device <> nullptr -> cmdList <> nullptr ->
  CreateDefaultBuffer_post data byteSize uploadBuffer w
    (fst (CreateDefaultBuffer device cmdList data byteSize uploadBuffer w))
    (snd (CreateDefaultBuffer device cmdList data byteSize uploadBuffer w)).
Proof. intros Hd Hc. now apply CreateDefaultBuffer_spec. Qed.

(** Three bytes are uploaded on a machine where both allocations succeed. *)
Lemma CreateDefaultBuffer_cases_witness :
  let data := [Byte.x01; Byte.x02; Byte.x03] in
  let r := CreateDefaultBuffer (Some tt) (Some tt) data 3 nullptr World_with_queue in
  fst r = Return (Some 1%N, Some 2%N) /\
  cl_commands (gpu_cmdlist (w_gpu (snd r))) = upload_commands 1%N 2%N 3 /\
  (gpu_resources (w_gpu (snd r)) !! 2%N) = Some (upload_resource 3 data).
Proof.
  intros data r.
  pose proof (CreateDefaultBuffer_cases (Some tt) (Some tt) data 3 nullptr World_with_queue
                ltac:(discriminate) ltac:(discriminate)) as H.
  unfold CreateDefaultBuffer_post in H.
  change (FAILED (hd 0 (w_answers World_with_queue))) with false in H.
  change (FAILED (hd 0 (tl (w_answers World_with_queue)))) with false in H.
  cbv beta iota zeta in H.
  destruct H as (_ & _ & _ & Hs & Hr & _ & _ & Hc).
  split; [exact Hs | ]. split; [exact Hc | ].
  fold r in Hr. rewrite Hr. exact (lookup_insert_eq _ 2%N _).
Defined.

(** ** The upload pipeline *)

(** A command leaves the resources it does not write to alone. *)
Lemma exec_command_other c rs h :
  written c <> Some h -> exec_command c rs !! h = rs !! h.
Proof.
  intros Hw. destruct c; cbn in *; try reflexivity.
  - destruct resource as [r | ]; [ | reflexivity].
    destruct (rs !! r) as [res | ]; [ | reflexivity].
    destruct (res_state res =? stateBefore); [ | reflexivity].
    apply lookup_insert_ne. congruence.
  - destruct dst as [d | ]; [ | reflexivity]. destruct src as [s | ]; [ | reflexivity].
    destruct (rs !! d) as [rd | ]; [ | reflexivity].
    destruct (rs !! s) as [rsrc | ]; [ | reflexivity].
    match goal with |- (if ?c then _ else _) !! _ = _ => destruct c end; [ | reflexivity].
    apply lookup_insert_ne. congruence.
Qed.

Lemma writes_below_other n c h :
  writes_below n c = true -> (n <= h)%N -> written c <> Some h.
Proof.
  unfold writes_below. destruct (written c) as [h' | ]; [ | discriminate].
  intros H Hle E. injection E as ->. apply N.ltb_lt in H. lia.
Qed.

Lemma exec_commands_other n cs : forall rs h,
  forallb (writes_below n) cs = true -> (n <= h)%N ->
  exec_commands cs rs !! h = rs !! h.
Proof.
  unfold exec_commands.
  induction cs as [ | c cs IH]; intros rs h Hb Hle; [reflexivity | ].
  cbn in Hb. apply andb_prop in Hb as [Hc Hcs]. cbn [fold_left].
  rewrite IH by assumption.
  apply exec_command_other. now apply writes_below_other with n.
Qed.

Lemma resources_after_other n its : forall rs h,
  forallb (item_below n) its = true -> (n <= h)%N ->
  resources_after rs its !! h = rs !! h.
Proof.
  unfold resources_after.
  induction its as [ | it its IH]; intros rs h Hb Hle; [reflexivity | ].
  cbn in Hb. apply andb_prop in Hb as [Hit Hits]. cbn [fold_left].
  rewrite IH by assumption.
  destruct it as [cs | v | ]; cbn [retire_item]; try reflexivity.
  now apply exec_commands_other with n.
Qed.

Lemma exec_commands_app cs1 cs2 rs :
  exec_commands (cs1 ++ cs2) rs = exec_commands cs2 (exec_commands cs1 rs).
Proof. unfold exec_commands. apply fold_left_app. Qed.

Lemma splice_all (data : list Byte.byte) :
  splice (repeat Byte.x00 (length data)) 0 data = data.
Proof.
  unfold splice. cbn [take]. rewrite app_nil_l, Nat.add_0_l.
  rewrite drop_ge by (rewrite repeat_length; lia). apply app_nil_r.
Qed.

(** The three commands of [CreateDefaultBuffer], run on the two buffers
    as they were allocated and filled. *)
Lemma exec_upload_commands (d u : Handle) (data : list Byte.byte) rs :
  d <> u ->
  rs !! d = Some (default_resource (Z.of_nat (length data))) ->
  rs !! u = Some (upload_resource (Z.of_nat (length data)) data) ->
  exec_commands (upload_commands d u (Z.of_nat (length data))) rs !! d =
    Some {| res_heap := D3D12_HEAP_TYPE_DEFAULT;
            res_desc := Buffer (Z.of_nat (length data));
            res_state := D3D12_RESOURCE_STATE_GENERIC_READ;
            res_bytes := data |}.
Proof.
  intros Hne Hd Hu. unfold upload_commands, exec_commands. cbn [fold_left].
  set (n := Z.of_nat (length data)) in *.
  assert (E1 : exec_command
                 (ResourceBarrier (Some d) D3D12_RESOURCE_STATE_COMMON
                    D3D12_RESOURCE_STATE_COPY_DEST) rs =
               <[d := set_state D3D12_RESOURCE_STATE_COPY_DEST (default_resource n)]> rs).
  { cbn [exec_command]. rewrite Hd. reflexivity. }
  rewrite E1. clear E1.
  assert (E2 : exec_command (CopyBufferRegion (Some d) 0 (Some u) 0 n)
                 (<[d := set_state D3D12_RESOURCE_STATE_COPY_DEST (default_resource n)]> rs) =
               <[d := set_bytes data
                        (set_state D3D12_RESOURCE_STATE_COPY_DEST (default_resource n))]> rs).
  { cbn [exec_command]. rewrite lookup_insert_eq.
    rewrite lookup_insert_ne by exact Hne. rewrite Hu.
    cbn [set_state res_state res_bytes res_heap res_desc default_resource upload_resource].
    change (D3D12_RESOURCE_STATE_COPY_DEST =? D3D12_RESOURCE_STATE_COPY_DEST) with true.
    change (D3D12_RESOURCE_STATE_GENERIC_READ =? D3D12_RESOURCE_STATE_GENERIC_READ) with true.
    unfold n. rewrite repeat_length, Nat2Z.id.
    replace (0 <=? Z.of_nat (length data)) with true by (symmetry; apply Z.leb_le; lia).
    replace (0 + Z.of_nat (length data) <=? Z.of_nat (length data)) with true
      by (symmetry; apply Z.leb_le; lia).
    change (0 <=? 0) with true.
    change (true && true && true && true && true) with true. cbv iota.
    rewrite insert_insert_eq. change (Z.to_nat 0) with 0%nat.
    rewrite drop_0, firstn_all, splice_all. reflexivity. }
  rewrite E2. clear E2.
  cbn [exec_command]. rewrite lookup_insert_eq.
  change (res_state (set_bytes data
            (set_state D3D12_RESOURCE_STATE_COPY_DEST (default_resource n))) =?
          D3D12_RESOURCE_STATE_COPY_DEST) with true.
  cbv iota. rewrite insert_insert_eq, lookup_insert_eq. reflexivity.
Qed.

Lemma CmdList_Close_spec {R} site w :
  wp (CmdList_Close (R := R) site) (fun s w' =>
    exists hr, s = Continue hr /\ g_DxApp w' = g_DxApp w /\
      w_gpu w' =
        if FAILED hr then w_gpu w
        else (w_gpu w) <| gpu_cmdlist :=
               {| cl_recording := false;
                  cl_commands := cl_commands (gpu_cmdlist (w_gpu w)) |} |>) w.
Proof.
  unfold CmdList_Close. wp_go.
  all: unfold wp, mret, M_ret; norm.
  all: eexists; split; [reflexivity | ]; split; [reflexivity | ].
  all: match goal with H : FAILED _ = _ |- _ => rewrite H end; reflexivity.
Qed.

Lemma Queue_ExecuteCommandLists_spec {R} site w :
  wp (Queue_ExecuteCommandLists (R := R) site) (fun s w' =>
    s = Continue tt /\ g_DxApp w' = g_DxApp w /\
    w_gpu w' = enqueue (QExecute (cl_commands (gpu_cmdlist (w_gpu w)))) (w_gpu w)) w.
Proof.
  unfold Queue_ExecuteCommandLists. wp_go.
  unfold wp, update_gpu; norm. auto.
Qed.

(** C6, as stated: after start-up the command list is reset; the fence
    counter is at the top of its range, [2^64 - 1], and the fence has
    reached it.  Three bytes are given to [CreateDefaultBuffer], the
    command list is closed and submitted and the flush runs to its end:
    its target has wrapped around to 0, so it does not wait, the copy has
    not been executed and the default buffer still holds three zero
    bytes. *)
Lemma upload_lost_at_counter_top :
  let data := [Byte.x01; Byte.x02; Byte.x03] in
  let top := 18446744073709551615 in
  let w0 := snd (CmdList_Reset (R := unit) FnOnInitialize (started release_build answers_ok)) in
  let w := w0 <| g_DxApp := (g_DxApp w0) <| m_CurrentFence := top |> |>
              <| w_gpu := (w_gpu w0) <| gpu_fence := top |> |> in
  let d := gpu_next (w_gpu w) in
  let r1 := CreateDefaultBuffer (Some tt) (Some tt) data 3 nullptr w in
  let r2 := CmdList_Close (R := unit) FnOnInitialize (snd r1) in
  let r3 := Queue_ExecuteCommandLists (R := unit) FnOnInitialize (snd r2) in
  let r4 := FlushCommandQueue (snd r3) in
  gpu_wf (w_gpu w) = true /\
  fence_inv w = true /\
  cl_recording (gpu_cmdlist (w_gpu w)) = true /\
  fst r1 = Return (Some d, Some (N.succ d)) /\
  fst r2 = Continue 0 /\
  fst r3 = Continue tt /\
  fst r4 = Continue tt /\
  option_map res_bytes (gpu_resources (w_gpu (snd r4)) !! d) =
    Some [Byte.x00; Byte.x00; Byte.x00] /\
  option_map res_bytes (gpu_resources (w_gpu (snd r4)) !! d) <> Some data.
Proof.
  intros data top w0 w d r1 r2 r3 r4.
  assert (Hb : option_map res_bytes (gpu_resources (w_gpu (snd r4)) !! d) =
               Some [Byte.x00; Byte.x00; Byte.x00]) by (vm_compute; reflexivity).
  split; [vm_compute; reflexivity | ]. split; [vm_compute; reflexivity | ].
  split; [vm_compute; reflexivity | ]. split; [vm_compute; reflexivity | ].
  split; [vm_compute; reflexivity | ]. split; [vm_compute; reflexivity | ].
  split; [vm_compute; reflexivity | ]. split; [exact Hb | ].
  rewrite Hb. discriminate.
Qed.

(** C6, amended: the upload pipeline gives the data back when the fence
    counter does not wrap around.  [CreateDefaultBuffer] is called with
    [data] and its length on a device and a command list and succeeds;
    the command list is closed and submitted; a flush runs to its end.
    Before, what is recorded or queued writes only to handles that exist,
    the fence invariant holds and the fence counter is below the top of
    its range, [2^64 - 1].  Then the default buffer holds exactly the
    bytes of [data], and is in the generic-read state. *)
Theorem upload_round_trip (device cmdList : ComPtr unit) (site : Fn)
    (data : list Byte.byte) (buffer uploader : ComPtr Handle) (hr : Z)
    (w w1 w2 w3 w4 : World) :
  gpu_wf (w_gpu w) = true ->
  fence_inv w = true ->
  0 <= m_CurrentFence (g_DxApp w) ->
  m_CurrentFence (g_DxApp w) + 1 < UINT64_MOD ->
  device <> nullptr -> cmdList <> nullptr ->
  CreateDefaultBuffer device cmdList data (Z.of_nat (length data)) nullptr w =
    (Return (buffer, uploader), w1) ->
  buffer <> nullptr ->
  CmdList_Close (R := unit) site w1 = (Continue hr, w2) ->
  FAILED hr = false ->
  Queue_ExecuteCommandLists (R := unit) site w2 = (Continue tt, w3) ->
  FlushCommandQueue w3 = (Continue tt, w4) ->
  exists d r,
    buffer = Some d /\
    gpu_resources (w_gpu w4) !! d = Some r /\
    res_bytes r = data /\
    res_heap r = D3D12_HEAP_TYPE_DEFAULT /\
    res_state r = D3D12_RESOURCE_STATE_GENERIC_READ.
Proof.
  intros Hwf Hinv H0 Hlt Hdev Hlist E1 Hbuf E2 Hhr E3 E4.
  (* CreateDefaultBuffer *)
  apply CreateDefaultBuffer_run in E1; [ | assumption | assumption].
  unfold CreateDefaultBuffer_post in E1. cbv zeta in E1.
  destruct E1 as (Happ1 & Hq1 & Hf1 & E1).
  destruct (FAILED (hd 0 (w_answers w))).
  { destruct E1 as (E1 & _). injection E1 as -> _. contradiction. }
  destruct (FAILED (hd 0 (tl (w_answers w)))).
  { destruct E1 as (E1 & _). injection E1 as -> _. contradiction. }
  destruct E1 as (E1 & Hrs1 & _ & _ & Hcmd1). injection E1 as -> ->.
  set (d := gpu_next (w_gpu w)) in *.
  (* Close and ExecuteCommandLists *)
  pose proof (wp_run _ _ _ _ _ E2 (CmdList_Close_spec site w1)) as (hr' & Ehr & Happ2 & Hg2).
  injection Ehr as <-. rewrite Hhr in Hg2.
  pose proof (wp_run _ _ _ _ _ E3 (Queue_ExecuteCommandLists_spec site w2))
    as (_ & Happ3 & Hg3).
  (* the flush *)
  apply FlushCommandQueue_post in E4 as (_ & _ & _ & Hge & n & Hg4).
  assert (Hcur : m_CurrentFence (g_DxApp w3) = m_CurrentFence (g_DxApp w))
    by (rewrite Happ3, Happ2, Happ1; reflexivity).
  unfold flush_target in *. rewrite Hcur in *.
  rewrite wrap64_small in * by (unfold UINT64_MOD in *; lia).
  assert (Hq3 : gpu_queue (w_gpu w3) =
                gpu_queue (w_gpu w) ++
                [QExecute (cl_commands (gpu_cmdlist (w_gpu w)) ++
                           upload_commands d (N.succ d) (Z.of_nat (length data)))]).
  { rewrite Hg3, Hg2. unfold enqueue. norm.
    f_equal; [exact Hq1 | ]. f_equal. f_equal. exact Hcmd1. }
  assert (Hrs3 : gpu_resources (w_gpu w3) = gpu_resources (w_gpu w1))
    by (rewrite Hg3, Hg2; reflexivity).
  assert (Hf3 : gpu_fence (w_gpu w3) = gpu_fence (w_gpu w))
    by (rewrite Hg3, Hg2; cbn; exact Hf1).
  rewrite Hg4 in *.
  destruct (drained (w_gpu w3) (m_CurrentFence (g_DxApp w)) n) as (_ & _ & _ & Hrs4).
  { rewrite Hf3, Hq3, signals_app. cbn [signals]. rewrite app_nil_r. exact Hinv. }
  { exact Hge. }
  rewrite Hrs4, Hq3, Hrs3, resources_after_app. cbn [resources_after fold_left retire_item].
  rewrite exec_commands_app.
  (* what was recorded and queued before does not touch the new buffers *)
  unfold gpu_wf in Hwf. apply andb_prop in Hwf as [Hcs Hits]. fold d in Hcs, Hits.
  set (rs := exec_commands (cl_commands (gpu_cmdlist (w_gpu w)))
               (fold_left retire_item (gpu_queue (w_gpu w)) (gpu_resources (w_gpu w1)))).
  assert (Hother : forall h, (d <= h)%N -> rs !! h = gpu_resources (w_gpu w1) !! h).
  { intros h Hh. unfold rs. rewrite (exec_commands_other d) by assumption.
    apply (resources_after_other d); assumption. }
  exists d, {| res_heap := D3D12_HEAP_TYPE_DEFAULT;
               res_desc := Buffer (Z.of_nat (length data));
               res_state := D3D12_RESOURCE_STATE_GENERIC_READ;
               res_bytes := data |}.
  split; [reflexivity | ]. split; [ | repeat split; reflexivity].
  apply exec_upload_commands.
  - lia.
  - rewrite Hother by lia. rewrite Hrs1.
    rewrite lookup_insert_ne by lia. apply lookup_insert_eq.
  - rewrite Hother by lia. rewrite Hrs1, lookup_insert_eq.
    rewrite Nat2Z.id, firstn_all, splice_all. reflexivity.
Qed.

(** Three bytes go through the pipeline after start-up, the command list
    having been reset. *)
Lemma upload_round_trip_witness :
  let data := [Byte.x01; Byte.x02; Byte.x03] in
  let w := snd (CmdList_Reset (R := unit) FnOnInitialize (started release_build answers_ok)) in
  let r1 := CreateDefaultBuffer (Some tt) (Some tt) data 3 nullptr w in
  let r2 := CmdList_Close (R := unit) FnOnInitialize (snd r1) in
  let r3 := Queue_ExecuteCommandLists (R := unit) FnOnInitialize (snd r2) in
  let r4 := FlushCommandQueue (snd r3) in
  exists (d : Handle) (r : Resource),
    fst r1 = Return (Some d, Some (N.succ d)) /\
    fst r4 = Continue tt /\
    cl_recording (gpu_cmdlist (w_gpu w)) = true /\
    (gpu_resources (w_gpu (snd r4)) !! d) = Some r /\ res_bytes r = data.
Proof.
  intros data w r1 r2 r3 r4.
  assert (P1 : gpu_wf (w_gpu w) = true) by (vm_compute; reflexivity).
  assert (P2 : fence_inv w = true) by (vm_compute; reflexivity).
  assert (P3 : 0 <= m_CurrentFence (g_DxApp w)) by (vm_compute; discriminate).
  assert (P4 : m_CurrentFence (g_DxApp w) + 1 < UINT64_MOD) by (vm_compute; reflexivity).
  assert (P5 : Some tt <> @None unit) by discriminate.
  assert (P6 : CreateDefaultBuffer (Some tt) (Some tt) data (Z.of_nat (length data)) nullptr w =
               (Return (Some (gpu_next (w_gpu w)), Some (N.succ (gpu_next (w_gpu w)))), snd r1))
    by (vm_compute; reflexivity).
  assert (P7 : Some (gpu_next (w_gpu w)) <> None) by discriminate.
  assert (P8 : CmdList_Close (R := unit) FnOnInitialize (snd r1) = (Continue 0, snd r2))
    by (vm_compute; reflexivity).
  assert (P9 : FAILED 0 = false) by reflexivity.
  assert (P10 : Queue_ExecuteCommandLists (R := unit) FnOnInitialize (snd r2) =
                (Continue tt, snd r3)) by (vm_compute; reflexivity).
  assert (P11 : FlushCommandQueue (snd r3) = (Continue tt, snd r4))
    by (vm_compute; reflexivity).
  pose proof (upload_round_trip (Some tt) (Some tt) FnOnInitialize data
                _ _ 0 w (snd r1) (snd r2) (snd r3) (snd r4)
                P1 P2 P3 P4 P5 P5 P6 P7 P8 P9 P10 P11) as (d & r & Hd & Hr & Hb & _).
  assert (Ed : gpu_next (w_gpu w) = d)
    by exact (f_equal (fun o => match o with Some x => x | None => d end) Hd).
  clear Hd. subst d. exists (gpu_next (w_gpu w)), r.
  split; [vm_compute; reflexivity | ].
  split; [vm_compute; reflexivity | ].
  split; [vm_compute; reflexivity | ].
  split; [exact Hr | exact Hb].
Defined.

(** ** InitD3D and the MSAA quality levels *)

Lemma InitD3D_device_spec cfg w :
  wp (InitD3D_device cfg) (fun s w' =>
    match s with
    | Continue _ => m_D3dDevice (g_DxApp w') <> None
    | _ => True
    end) w.
Proof.
  unfold InitD3D_device. wp_go. all: try exact I.
  all: unfold wp, update_app; norm.
  all: match goal with H : _ = Some _ |- _ => rewrite H end; discriminate.
Qed.

Lemma InitD3D_msaa_spec cfg w :
  m_D3dDevice (g_DxApp w) <> None ->
  wp (InitD3D_msaa cfg) (fun s w' =>
    let hr := hd 0 (w_answers w) in
    let levels := wrap32 (hd 0 (tl (w_answers w))) in
    if FAILED hr then
      s = Return false /\ reported FnInitD3D "Couldn't check MSAA quality levels" w'
    else
      m_4xMsaaQuality (g_DxApp w') = levels /\
      existsb is_MessageBox (w_trace w') = existsb is_MessageBox (w_trace w) /\
      if 0 <? levels then s = Continue tt
      else if def_NDEBUG cfg then s = Continue tt
      else s = Abort (AssertionFailed "Unexpected MSAA quality level!")) w.
Proof.
  intros Hdev. unfold InitD3D_msaa.
  repeat wp_step_exact.
  all: try contradiction.
  all: unfold wp, mret, M_ret, reported; norm; cbv zeta.
  all: repeat match goal with
              | H : _ = true |- context [if ?x then _ else _] =>
                  let E := fresh in
                  assert (E : x = true) by exact H; rewrite E; clear E
              | H : _ = false |- context [if ?x then _ else _] =>
                  let E := fresh in
                  assert (E : x = false) by exact H; rewrite E; clear E
              end.
  all: repeat match goal with |- context [if ?x then _ else _] => destruct x end.
  all: repeat split; reflexivity.
Qed.

(** How [InitD3D] goes on from the end of its first part. *)
Lemma InitD3D_from_msaa cfg w w1 :
  InitD3D_device cfg (InitD3D_entered w) = (Continue tt, w1) ->
  InitD3D cfg w =
    match InitD3D_msaa cfg w1 with
    | (Continue _, w2) => InitD3D_other cfg w2
    | (Return r, w2) => (Return r, w2)
    | (Abort f, w2) => (Abort f, w2)
    end.
Proof.
  intros E. unfold InitD3D, enter.
  change ((emit (EvEnter FnInitD3D) ≫= (fun _ => InitD3D_device cfg ≫= (fun _ =>
            InitD3D_msaa cfg ≫= (fun _ => InitD3D_other cfg)))) w)
    with ((InitD3D_device cfg ≫= (fun _ =>
            InitD3D_msaa cfg ≫= (fun _ => InitD3D_other cfg))) (InitD3D_entered w)).
  unfold mbind at 1. unfold M_bind at 1. rewrite E.
  unfold mbind, M_bind. destruct (InitD3D_msaa cfg w1) as [[[] | r | f] w2]; reflexivity.
Qed.

(** C8: the code at the input on which it departs from the claim and from
    its own assertion.  The quality-level query succeeds and yields zero
    levels.  A build with assertions stops [InitD3D] at the failed
    assertion "Unexpected MSAA quality level!".  A build with [NDEBUG]
    runs past it: [InitD3D] shows no message box and returns [true] with
    the quality level 0 stored, and start-up goes on into
    [OnInitialize]. *)
Lemma zero_quality_levels_not_fatal :
  let answers := [0; 0; 0; 32; 8; 32; 0; 0] in
  let r := InitD3D release_build (World_initial answers) in
  fst r = Return true /\
  m_4xMsaaQuality (g_DxApp (snd r)) = 0 /\
  existsb is_MessageBox (w_trace (snd r)) = false /\
  existsb (is_enter FnOnInitialize) (w_trace (started release_build answers)) = true /\
  fst (InitD3D debug_build (World_initial (0 :: answers))) =
    Abort (AssertionFailed "Unexpected MSAA quality level!").
Proof. vm_compute. repeat split; reflexivity. Qed.

(** The ways the query of the quality levels can end.  [InitD3D] has
    created its device and fence and asks for the quality levels of 4x
    MSAA.  When the query fails it shows the message box "Couldn't check
    MSAA quality levels" and returns [false].  When the query succeeds
    the number of levels is stored and, if it is positive, initialization
    goes on.  When it is zero, a build with assertions stops at the
    failed assertion "Unexpected MSAA quality level!"; a build with
    [NDEBUG] has no assertion, shows nothing and goes on with the quality
    level 0. *)
Theorem msaa_query_cases (cfg : BuildConfig) (w w1 : World) :
  InitD3D_device cfg (InitD3D_entered w) = (Continue tt, w1) ->
  let hr := hd 0 (w_answers w1) in
  let levels := wrap32 (hd 0 (tl (w_answers w1))) in
  if FAILED hr then
    fst (InitD3D cfg w) = Return false /\
    reported FnInitD3D "Couldn't check MSAA quality levels" (snd (InitD3D cfg w))
  else if 0 <? levels then
    exists w2, InitD3D cfg w = InitD3D_other cfg w2 /\
               m_4xMsaaQuality (g_DxApp w2) = levels
  else if def_NDEBUG cfg then
    exists w2, InitD3D cfg w = InitD3D_other cfg w2 /\
               m_4xMsaaQuality (g_DxApp w2) = 0 /\
               existsb is_MessageBox (w_trace w2) = existsb is_MessageBox (w_trace w1)
  else
    fst (InitD3D cfg w) = Abort (AssertionFailed "Unexpected MSAA quality level!").
Proof.
  intros E hr levels.
  assert (Hdev : m_D3dDevice (g_DxApp w1) <> None)
    by exact (wp_run _ _ _ _ _ E (InitD3D_device_spec cfg _)).
  rewrite (InitD3D_from_msaa cfg w w1 E).
  pose proof (InitD3D_msaa_spec cfg w1 Hdev) as H. unfold wp in H. cbv zeta in H.
  fold hr levels in H.
  destruct (InitD3D_msaa cfg w1) as [s w2]. cbn [fst snd] in H.
  destruct (FAILED hr).
  { destruct H as (-> & H). split; [reflexivity | exact H]. }
  destruct H as (Hq & Hbox & H).
  destruct (0 <? levels) eqn:Hpos.
  { subst s. exists w2. split; [reflexivity | exact Hq]. }
  destruct (def_NDEBUG cfg).
  - subst s. exists w2. split; [reflexivity | ]. split; [ | exact Hbox].
    rewrite Hq. apply Z.ltb_ge in Hpos.
    pose proof (wrap32_range (hd 0 (tl (w_answers w1)))). fold levels in H.
    unfold is_UINT in *. lia.
  - subst s. reflexivity.
Qed.

(** The three ways the query can end, on machines that differ in the
    seventh and eighth answer only. *)
Lemma msaa_query_cases_witness :
  fst (InitD3D release_build (World_initial [0; 0; 0; 32; 8; 32; -1])) = Return false /\
  fst (InitD3D debug_build (World_initial [0; 0; 0; 0; 32; 8; 32; 0; 0])) =
    Abort (AssertionFailed "Unexpected MSAA quality level!") /\
  fst (InitD3D release_build (World_initial answers_ok)) = Return true.
Proof.
  split; [ | split].
  - pose proof (msaa_query_cases release_build (World_initial [0; 0; 0; 32; 8; 32; -1])
                  (snd (InitD3D_device release_build
                          (InitD3D_entered (World_initial [0; 0; 0; 32; 8; 32; -1]))))
                  ltac:(vm_compute; reflexivity)) as H.
    cbv zeta in H.
    change (FAILED _) with true in H. cbv iota in H. exact (proj1 H).
  - pose proof (msaa_query_cases debug_build (World_initial [0; 0; 0; 0; 32; 8; 32; 0; 0])
                  (snd (InitD3D_device debug_build
                          (InitD3D_entered (World_initial [0; 0; 0; 0; 32; 8; 32; 0; 0]))))
                  ltac:(vm_compute; reflexivity)) as H.
    cbv zeta in H.
    change (FAILED _) with false in H. cbv iota in H.
    change (0 <? _) with false in H. cbv iota in H.
    change (def_NDEBUG debug_build) with false in H. cbv iota in H. exact H.
  - vm_compute. reflexivity.
Defined.

(** ** Resizing by dragging *)

Lemma entries_cons f e t :
  entries f (e :: t) = if is_enter f e then S (entries f t) else entries f t.
Proof.
  unfold entries. rewrite filter_cons.
  destruct (is_enter f e); destruct (decide _); cbn; congruence.
Qed.

(** The tests of the goal that can be decided are decided. *)
Ltac closed_tests :=
  repeat match goal with
         | |- context [?a =? ?b] =>
             let v := eval cbv in (a =? b) in
             lazymatch v with true => idtac | false => idtac end;
             change (a =? b) with v
         end;
  cbn [orb]; cbv beta iota.

(** Two tests of the same condition with different results. *)
Ltac absurd_tests :=
  match goal with
  | H1 : _ = true, H2 : _ = false |- _ =>
      exfalso; exact (Bool.diff_true_false (eq_trans (eq_sym H1) H2))
  end.

Lemma Stop_stopped c t : GameTimer.m_IsStopped t = true -> GameTimer.Stop c t = t.
Proof. unfold GameTimer.Stop. now intros ->. Qed.

(** [WM_ENTERSIZEMOVE] sets the two flags and stops the timer. *)
Lemma WndProc_ENTERSIZEMOVE cfg hWnd wParam lParam w :
  wp (WndProc cfg hWnd WM_ENTERSIZEMOVE wParam lParam) (fun s w' =>
    s = Return 0 /\
    g_DxApp w' = (g_DxApp w) <| m_IsPaused := true |> <| m_IsResizing := true |>
                   <| m_Timer := GameTimer.Stop (next_reading w) (m_Timer (g_DxApp w)) |> /\
    w_gpu w' = w_gpu w /\
    entries FnOnResize (w_trace w') = entries FnOnResize (w_trace w)) w.
Proof.
  unfold WndProc. closed_tests. wp_go.
  - repeat split; reflexivity.
  - apply negb_false_iff in Heqb.
    rewrite (Stop_stopped _ _ Heqb). repeat split; reflexivity.
Qed.

Lemma WndProc_SIZE_dragging cfg hWnd lParam w :
  m_IsMinimized (g_DxApp w) = false ->
  m_IsMaximized (g_DxApp w) = false ->
  m_IsResizing (g_DxApp w) = true ->
  wp (WndProc cfg hWnd WM_SIZE SIZE_RESTORED lParam) (fun s w' =>
    s = Return 0 /\
    w' = w <| g_DxApp := (g_DxApp w) <| m_ClientWidth := LOWORD lParam |>
                                     <| m_ClientHeight := HIWORD lParam |> |>
           <| w_trace := EvEnter FnWndProc :: w_trace w |>) w.
Proof.
  intros Hmin Hmax Hres. unfold WndProc, WndProc_SIZE. closed_tests.
  wp_go.
  all: try absurd_tests.
  all: split; [reflexivity | ].
  all: f_equal; f_equal;
    first [exact (eq_sym Hmin) | exact (eq_sym Hmax) | exact (eq_sym Hres)].
Qed.

Lemma dispatch_ENTERSIZEMOVE cfg hWnd wParam lParam w :
  let w1 := dispatch cfg hWnd WM_ENTERSIZEMOVE wParam lParam w in
  g_DxApp w1 = (g_DxApp w) <| m_IsPaused := true |> <| m_IsResizing := true |>
                 <| m_Timer := GameTimer.Stop (next_reading w) (m_Timer (g_DxApp w)) |> /\
  w_gpu w1 = w_gpu w /\
  entries FnOnResize (w_trace w1) = entries FnOnResize (w_trace w).
Proof. exact (proj2 (WndProc_ENTERSIZEMOVE cfg hWnd wParam lParam w)). Qed.

Lemma dispatch_SIZE_dragging cfg hWnd lParam w :
  m_IsMinimized (g_DxApp w) = false ->
  m_IsMaximized (g_DxApp w) = false ->
  m_IsResizing (g_DxApp w) = true ->
  dispatch cfg hWnd WM_SIZE SIZE_RESTORED lParam w =
    w <| g_DxApp := (g_DxApp w) <| m_ClientWidth := LOWORD lParam |>
                                <| m_ClientHeight := HIWORD lParam |> |>
      <| w_trace := EvEnter FnWndProc :: w_trace w |>.
Proof.
  intros Hmin Hmax Hres.
  exact (proj2 (WndProc_SIZE_dragging cfg hWnd lParam w Hmin Hmax Hres)).
Qed.

(** What a drag leaves of the world [w] it started in, at any moment
    before it ends. *)
Lemma drag_sizes_spec cfg hWnd sizes : forall w,
  m_IsMinimized (g_DxApp w) = false ->
  m_IsMaximized (g_DxApp w) = false ->
  m_IsResizing (g_DxApp w) = true ->
  same_but_size (g_DxApp w) (g_DxApp (drag_sizes cfg hWnd sizes w)) /\
  m_ClientWidth (g_DxApp (drag_sizes cfg hWnd sizes w)) =
    from_option LOWORD (m_ClientWidth (g_DxApp w)) (last sizes) /\
  m_ClientHeight (g_DxApp (drag_sizes cfg hWnd sizes w)) =
    from_option HIWORD (m_ClientHeight (g_DxApp w)) (last sizes) /\
  w_gpu (drag_sizes cfg hWnd sizes w) = w_gpu w /\
  entries FnOnResize (w_trace (drag_sizes cfg hWnd sizes w)) =
    entries FnOnResize (w_trace w).
Proof.
  unfold drag_sizes.
  induction sizes as [ | l sizes IH]; intros w Hmin Hmax Hres; cbn [fold_left].
  - repeat split.
  - rewrite (dispatch_SIZE_dragging cfg hWnd l w Hmin Hmax Hres).
    match goal with
    | |- context [fold_left _ _ ?w1] =>
        destruct (IH w1 Hmin Hmax Hres) as (Hs & HW & HH & Hg & He)
    end.
    split; [ | split; [ | split; [ | split]]].
    + unfold same_but_size in *. rewrite Hs at 1. reflexivity.
    + rewrite HW. rewrite last_cons. destruct (last sizes); reflexivity.
    + rewrite HH. rewrite last_cons. destruct (last sizes); reflexivity.
    + rewrite Hg. reflexivity.
    + rewrite He. apply entries_cons.
Qed.

(** The same, for a property that also speaks about a call that dies. *)
Lemma wp_bind_flush_framed {R B} (k : unit -> M R B) (Q : Step R B -> World -> Prop) w :
  (forall gpu tr ans,
     wp (k tt) Q
       {| g_MainWnd := g_MainWnd w;
          g_DxApp := (g_DxApp w) <| m_CurrentFence := wrap64 (m_CurrentFence (g_DxApp w) + 1) |>;
          s_FrameStats := s_FrameStats w;
          w_gpu := gpu; w_trace := tr; w_answers := ans; w_counter := w_counter w |}) ->
  (forall f gpu tr ans,
     Q (Abort f)
       {| g_MainWnd := g_MainWnd w;
          g_DxApp := (g_DxApp w) <| m_CurrentFence := wrap64 (m_CurrentFence (g_DxApp w) + 1) |>;
          s_FrameStats := s_FrameStats w;
          w_gpu := gpu; w_trace := tr; w_answers := ans; w_counter := w_counter w |}) ->
  wp (call FlushCommandQueue ≫= k) Q w.
Proof.
  intros Hk Ha. apply wp_bind_call. eapply wp_mono;
    [apply wp_conj; [apply FlushCommandQueue_spec | apply FlushCommandQueue_frame] | ].
  intros s w' ((Happ & Hwnd & _) & Hst & Hcnt). destruct w' as [wnd g st gpu tr ans cnt].
  cbn [g_DxApp g_MainWnd s_FrameStats w_counter] in Happ, Hwnd, Hst, Hcnt. subst.
  destruct s as [[] | [] | f]; [apply Hk | apply Hk | apply Ha].
Qed.

Lemma wp_flush_last_framed {R} (Q : Step R unit -> World -> Prop) w :
  (forall s gpu tr ans,
     Q s
       {| g_MainWnd := g_MainWnd w;
          g_DxApp := (g_DxApp w) <| m_CurrentFence := wrap64 (m_CurrentFence (g_DxApp w) + 1) |>;
          s_FrameStats := s_FrameStats w;
          w_gpu := gpu; w_trace := tr; w_answers := ans; w_counter := w_counter w |}) ->
  wp (call FlushCommandQueue) Q w.
Proof.
  intros Hk. apply wp_call. eapply wp_mono;
    [apply wp_conj; [apply FlushCommandQueue_spec | apply FlushCommandQueue_frame] | ].
  intros s w' ((Happ & Hwnd & _) & Hst & Hcnt). destruct w' as [wnd g st gpu tr ans cnt].
  cbn [g_DxApp g_MainWnd s_FrameStats w_counter] in Happ, Hwnd, Hst, Hcnt. subst.
  destruct s as [[] | [] | f]; apply Hk.
Qed.

Ltac wp_flush_framed :=
  first [ simple apply wp_bind_flush_framed; [ intros ? ? ?; norm | intros ? ? ? ?; norm ]
        | simple apply wp_flush_last_framed; intros ? ? ? ?; norm ].

Ltac wp_run_framed := repeat (wp_go; try wp_flush_framed).

(** [OnResize] leaves the flags of the window alone, however it ends. *)
Lemma OnResize_flags cfg w :
  wp (OnResize cfg) (fun s w' =>
    m_IsPaused (g_DxApp w') = m_IsPaused (g_DxApp w) /\
    m_IsResizing (g_DxApp w') = m_IsResizing (g_DxApp w) /\
    m_IsMinimized (g_DxApp w') = m_IsMinimized (g_DxApp w) /\
    m_IsMaximized (g_DxApp w') = m_IsMaximized (g_DxApp w)) w.
Proof.
  unfold OnResize. wp_run_framed.
  all: unfold wp, update_app, mret, M_ret; norm.
  all: repeat split; reflexivity.
Qed.

Lemma entries_not_enter f e t n :
  not_enter f e = true -> entries f t = n -> entries f (e :: t) = n.
Proof.
  intros He Ht. rewrite entries_cons. unfold not_enter in He.
  apply negb_true_iff in He. now rewrite He.
Qed.

Lemma OnResize_entered_once cfg w :
  entries FnOnResize (w_trace (snd (OnResize cfg w))) = S (entries FnOnResize (w_trace w)).
Proof.
  apply (OnResize_trace (not_enter FnOnResize)
           (fun t => entries FnOnResize t = S (entries FnOnResize (w_trace w)))
           (fun e t => entries_not_enter FnOnResize e t _)
           ltac:(reflexivity) ltac:(reflexivity) ltac:(reflexivity) cfg
           (fun t => entries FnOnResize t = entries FnOnResize (w_trace w))).
  - intros t Ht. cbv beta. rewrite entries_cons. cbn. now rewrite Ht.
  - reflexivity.
Qed.

Lemma OnResize_once_and_flags cfg w :
  wp (OnResize cfg) (fun s w' =>
    entries FnOnResize (w_trace w') = S (entries FnOnResize (w_trace w)) /\
    m_IsPaused (g_DxApp w') = m_IsPaused (g_DxApp w) /\
    m_IsResizing (g_DxApp w') = m_IsResizing (g_DxApp w)) w.
Proof.
  pose proof (OnResize_flags cfg w) as (Hp & Hr & _).
  unfold wp. split; [apply OnResize_entered_once | split; assumption].
Qed.

Lemma WndProc_EXITSIZEMOVE cfg hWnd wParam lParam w :
  wp (WndProc cfg hWnd WM_EXITSIZEMOVE wParam lParam) (fun s w' =>
    entries FnOnResize (w_trace w') = S (entries FnOnResize (w_trace w)) /\
    m_IsResizing (g_DxApp w') = false /\
    m_IsPaused (g_DxApp w') = false) w.
Proof.
  unfold WndProc. closed_tests. wp_go.
  apply wp_bind_call. eapply wp_mono; [apply OnResize_once_and_flags | ].
  norm. intros s w' (He & Hp & Hr).
  assert (H : entries FnOnResize (w_trace w') = S (entries FnOnResize (w_trace w)) /\
              m_IsResizing (g_DxApp w') = false /\ m_IsPaused (g_DxApp w') = false).
  { split; [ | split; assumption]. rewrite He, !entries_cons. reflexivity. }
  destruct s as [[] | [] | f]; exact H.
Qed.

Lemma Tick_stopped c c' t :
  GameTimer.m_IsStopped t = true -> GameTimer.Tick c t = GameTimer.Tick c' t.
Proof. unfold GameTimer.Tick. now intros ->. Qed.

(** While the program is paused an idle round ticks the timer and sleeps. *)
Lemma Run_idle_paused w :
  m_IsPaused (g_DxApp w) = true ->
  wp Run_idle (fun s w' =>
    g_DxApp w' = (g_DxApp w)
      <| m_Timer := GameTimer.Tick (next_reading w) (m_Timer (g_DxApp w)) |> /\
    w_gpu w' = w_gpu w /\
    entries FnDraw (w_trace w') = entries FnDraw (w_trace w) /\
    entries FnUpdate (w_trace w') = entries FnUpdate (w_trace w)) w.
Proof.
  intros Hp. unfold Run_idle. wp_go.
  all: try (exfalso;
            match goal with
            | H : negb (m_IsPaused _) = true |- _ =>
                pose proof (eq_trans (f_equal negb (eq_sym Hp)) H) as F; discriminate F
            end).
  all: unfold wp, emit; norm.
  - rewrite (Tick_stopped (next_reading w) 0 _ Heqb). repeat split; reflexivity.
  - repeat split; reflexivity.
Qed.

(** C10, as stated: a window that is maximized when the drag starts gets
    its [WM_SIZE] with [SIZE_RESTORED] while the resizing flag is set;
    [OnResize] runs then, the back buffers are new ones, and rendering is
    no longer paused. *)
Lemma resize_while_dragging :
  let w0 := started release_build answers_ok in
  let w1 := dispatch release_build 1 WM_SIZE SIZE_MAXIMIZED (MAKELPARAM 1920 1080) w0 in
  let w2 := dispatch release_build 1 WM_ENTERSIZEMOVE 0 0 w1 in
  let w3 := dispatch release_build 1 WM_SIZE SIZE_RESTORED (MAKELPARAM 800 600) w2 in
  m_IsResizing (g_DxApp w2) = true /\
  m_IsPaused (g_DxApp w2) = true /\
  m_IsResizing (g_DxApp w3) = true /\
  entries FnOnResize (w_trace w3) = S (entries FnOnResize (w_trace w2)) /\
  m_SwapChainBuffer (g_DxApp w3) <> m_SwapChainBuffer (g_DxApp w2) /\
  m_IsPaused (g_DxApp w3) = false.
Proof. vm_compute. repeat split; try reflexivity. discriminate. Qed.

(** C10, amended: the window is neither minimized nor maximized when
    [WM_ENTERSIZEMOVE] arrives and the size changes of the drag arrive as
    [WM_SIZE] with [SIZE_RESTORED].  Then, after any number of them, the
    resizing flag is set and rendering is paused, [OnResize] has not been
    entered, the GPU side (swap chain buffers, depth buffer, queue) is as
    before and of the globals, besides the two flags and the timer that
    [WM_ENTERSIZEMOVE] has stopped, only the client width and height have
    changed, to the words of the last [lParam]; an idle round of the
    message loop draws nothing.  [WM_EXITSIZEMOVE] then enters [OnResize]
    exactly once and clears both flags. *)
Theorem resize_drag (cfg : BuildConfig) (hWnd wParam0 lParam0 wParam1 lParam1 : Z)
    (sizes : list Z) (w : World) :
  m_IsMinimized (g_DxApp w) = false ->
  m_IsMaximized (g_DxApp w) = false ->
  let w1 := dispatch cfg hWnd WM_ENTERSIZEMOVE wParam0 lParam0 w in
  let w2 := drag_sizes cfg hWnd sizes w1 in
  let w3 := dispatch cfg hWnd WM_EXITSIZEMOVE wParam1 lParam1 w2 in
  (m_IsResizing (g_DxApp w2) = true /\
   m_IsPaused (g_DxApp w2) = true /\
   entries FnOnResize (w_trace w2) = entries FnOnResize (w_trace w) /\
   w_gpu w2 = w_gpu w /\
   same_but_size
     ((g_DxApp w) <| m_IsPaused := true |> <| m_IsResizing := true |>
                  <| m_Timer := GameTimer.Stop (next_reading w) (m_Timer (g_DxApp w)) |>)
     (g_DxApp w2) /\
   m_ClientWidth (g_DxApp w2) = from_option LOWORD (m_ClientWidth (g_DxApp w)) (last sizes) /\
   m_ClientHeight (g_DxApp w2) = from_option HIWORD (m_ClientHeight (g_DxApp w)) (last sizes)) /\
  entries FnDraw (w_trace (snd (Run_idle w2))) = entries FnDraw (w_trace w2) /\
  (entries FnOnResize (w_trace w3) = S (entries FnOnResize (w_trace w)) /\
   m_IsResizing (g_DxApp w3) = false /\
   m_IsPaused (g_DxApp w3) = false).
Proof.
  intros Hmin Hmax w1 w2 w3.
  destruct (dispatch_ENTERSIZEMOVE cfg hWnd wParam0 lParam0 w) as (Hsame & Hg1 & He1).
  fold w1 in Hsame, Hg1, He1.
  destruct (drag_sizes_spec cfg hWnd sizes w1) as (Hs & HW & HH & Hg & He);
    [rewrite Hsame; exact Hmin | rewrite Hsame; exact Hmax | rewrite Hsame; reflexivity | ].
  fold w2 in Hs, HW, HH, Hg, He.
  assert (Hres2 : m_IsResizing (g_DxApp w2) = true)
    by (unfold same_but_size in Hs; rewrite Hs, Hsame; reflexivity).
  assert (Hp2 : m_IsPaused (g_DxApp w2) = true)
    by (unfold same_but_size in Hs; rewrite Hs, Hsame; reflexivity).
  split; [ | split].
  - split; [exact Hres2 | ]. split; [exact Hp2 | ].
    split; [now rewrite He, He1 | ].
    split; [rewrite Hg; exact Hg1 | ].
    split; [rewrite <- Hsame; exact Hs | ].
    split; [rewrite HW, Hsame; reflexivity | rewrite HH, Hsame; reflexivity].
  - exact (proj1 (proj2 (proj2 (Run_idle_paused w2 Hp2)))).
  - destruct (WndProc_EXITSIZEMOVE cfg hWnd wParam1 lParam1 w2) as (He3 & Hr3 & Hp3).
    fold (dispatch cfg hWnd WM_EXITSIZEMOVE wParam1 lParam1 w2) in He3, Hr3, Hp3.
    fold w3 in He3, Hr3, Hp3.
    split; [now rewrite He3, He, He1 | split; assumption].
Qed.

(** After start-up the window is dragged to 1024 by 768 and then to 640
    by 480. *)
Lemma resize_drag_witness :
  let w := started release_build answers_ok in
  let w1 := dispatch release_build 1 WM_ENTERSIZEMOVE 0 0 w in
  let w2 := drag_sizes release_build 1 [MAKELPARAM 1024 768; MAKELPARAM 640 480] w1 in
  let w3 := dispatch release_build 1 WM_EXITSIZEMOVE 0 0 w2 in
  entries FnOnResize (w_trace w2) = 1%nat /\
  m_ClientWidth (g_DxApp w2) = 640 /\ m_ClientHeight (g_DxApp w2) = 480 /\
  entries FnOnResize (w_trace w3) = 2%nat.
Proof.
  intros w w1 w2 w3.
  destruct (resize_drag release_build 1 0 0 0 0 [MAKELPARAM 1024 768; MAKELPARAM 640 480] w
              ltac:(vm_compute; reflexivity) ltac:(vm_compute; reflexivity))
    as ((_ & _ & He2 & _ & _ & HW & HH) & _ & He3 & _).
  fold w1 in He2, HW, HH, He3. fold w2 in He2, HW, HH, He3. fold w3 in He3.
  split; [rewrite He2; vm_compute; reflexivity | ].
  split; [rewrite HW; reflexivity | ].
  split; [rewrite HH; reflexivity | ].
  rewrite He3. vm_compute. reflexivity.
Defined.

(** * More of the translation unit *)

(** ** GameTimer *)

Lemma wrap_s64_small z : GameTimer.is_int64 z -> GameTimer.wrap_s64 z = z.
Proof.
  unfold GameTimer.is_int64, GameTimer.wrap_s64. intros H.
  rewrite Z.mod_small by lia. lia.
Qed.

Lemma wrap_s64_range z : GameTimer.is_int64 (GameTimer.wrap_s64 z).
Proof.
  unfold GameTimer.is_int64, GameTimer.wrap_s64.
  pose proof (Z.mod_pos_bound (z + 2 ^ 63) (2 ^ 64) ltac:(lia)). lia.
Qed.

Lemma binary_round_aux_sign prec emax s m e l :
  0 <= m -> has_sign s (binary_round_aux prec emax s m e l).
Proof.
  intros Hm. unfold binary_round_aux.
  pose proof (shr_fexp_nonneg prec emax m e l Hm) as H1.
  destruct (shr_fexp prec emax m e l) as [mrs1 e1]. cbn [fst] in H1.
  pose proof (shr_fexp_nonneg prec emax
                (round_nearest_even (shr_m mrs1) (loc_of_shr_record mrs1)) e1 loc_Exact
                (round_nearest_even_nonneg _ _ H1)) as H2.
  destruct (shr_fexp prec emax _ e1 loc_Exact) as [mrs2 e2]. cbn [fst] in H2.
  destruct (shr_m mrs2); try reflexivity; [ | lia].
  now destruct (e2 <=? emax - prec).
Qed.

Lemma not_below_zero_of_sign (x : spec_float) : has_sign false x -> SFltb x (S754_zero false) = false.
Proof. destruct x as [s | s | | s m e]; cbn; try tauto; now intros ->. Qed.

Lemma to_float_not_below_zero (d : F64.float) :
  F64.ltb d F64.f0 = false -> F32.ltb (F64.to_float d) F32.f0 = false.
Proof.
  destruct d as [s | s | | s m e]; cbn [F64.to_float]; try (intros H; exact H).
  destruct s; [intros H; discriminate H | intros _].
  apply not_below_zero_of_sign. cbn [cond_Zopp binary_normalize].
  unfold binary_round. destruct (shl_align _ _ _).
  apply binary_round_aux_sign. lia.
Qed.

(** X1: after [Tick] the time step is never below zero, as a [double]
    and as the [float] that [DeltaTime()] returns; while the timer is
    stopped it is zero, and the counters are left alone. *)
Theorem Tick_delta_not_negative (currTime : Z) (g : GameTimer.t) :
  F64.ltb (GameTimer.m_DeltaTime (GameTimer.Tick currTime g)) F64.f0 = false /\
  F32.ltb (GameTimer.DeltaTime (GameTimer.Tick currTime g)) F32.f0 = false /\
  (GameTimer.m_IsStopped g = true ->
   GameTimer.m_DeltaTime (GameTimer.Tick currTime g) = F64.f0 /\
   GameTimer.TotalCounts (GameTimer.Tick currTime g) = GameTimer.TotalCounts g /\
   GameTimer.m_PrevTime (GameTimer.Tick currTime g) = GameTimer.m_PrevTime g).
Proof.
  assert (H : F64.ltb (GameTimer.m_DeltaTime (GameTimer.Tick currTime g)) F64.f0 = false).
  { unfold GameTimer.Tick. destruct (GameTimer.m_IsStopped g); cbn; [reflexivity | ].
    match goal with |- context [if ?c then _ else _] => destruct c eqn:E end;
      [reflexivity | exact E]. }
  split; [exact H | ]. split; [now apply to_float_not_below_zero | ].
  intros Hs. unfold GameTimer.Tick, GameTimer.TotalCounts. rewrite Hs. cbn. rewrite ?Hs. auto.
Qed.

Lemma Tick_delta_not_negative_witness :
  let g := GameTimer.Tick 90 (GameTimer.Tick 100 (GameTimer.Reset 0 (GameTimer.ctor 1000))) in
  GameTimer.m_DeltaTime g = F64.f0 /\
  GameTimer.m_DeltaTime (GameTimer.Tick 200 (GameTimer.Stop 150 g)) = F64.f0.
Proof.
  split; [vm_compute; reflexivity | ].
  apply (Tick_delta_not_negative 200). reflexivity.
Defined.

(** X2: a second [Stop] in a row and a [Start] of a timer that runs
    change nothing; a second [Start] in a row changes nothing either. *)
Theorem Stop_Start_idempotent (t1 t2 : Z) (g : GameTimer.t) :
  GameTimer.Stop t2 (GameTimer.Stop t1 g) = GameTimer.Stop t1 g /\
  GameTimer.Start t2 (GameTimer.Start t1 g) = GameTimer.Start t1 g /\
  GameTimer.m_IsStopped (GameTimer.Stop t1 g) = true /\
  GameTimer.m_IsStopped (GameTimer.Start t1 g) = false.
Proof.
  unfold GameTimer.Stop, GameTimer.Start.
  destruct g as [spc d b p s pr c []]; cbn; auto.
Qed.

(** X3: a pause does not count.  For a timer that runs, with counter
    readings and totals below [2^61], stopping it at [s] and starting it
    again at [r] makes the total at any later tick smaller by exactly the
    [r - s] counts of the pause, and the first time step after the pause
    is measured from [r]. *)
Theorem pause_is_not_counted (s r x : Z) (g : GameTimer.t) :
  GameTimer.m_IsStopped g = false ->
  0 <= GameTimer.m_BaseTime g < 2 ^ 61 ->
  0 <= GameTimer.m_PausedTime g < 2 ^ 61 ->
  0 <= s <= r -> r < 2 ^ 61 -> 0 <= x < 2 ^ 61 ->
  GameTimer.TotalCounts (GameTimer.Tick x (GameTimer.Start r (GameTimer.Stop s g))) =
    GameTimer.TotalCounts (GameTimer.Tick x g) - (r - s) /\
  GameTimer.m_PrevTime (GameTimer.Start r (GameTimer.Stop s g)) = r.
Proof.
  intros Hrun Hb Hp Hsr Hr Hx.
  unfold GameTimer.Tick, GameTimer.Start, GameTimer.Stop, GameTimer.TotalCounts.
  rewrite Hrun. cbn. rewrite ?Hrun. cbn.
  unfold GameTimer.sub64, GameTimer.add64.
  rewrite (wrap_s64_small (r - s)) by (unfold GameTimer.is_int64; lia).
  rewrite (wrap_s64_small (_ + (r - s))) by (unfold GameTimer.is_int64; lia).
  rewrite (wrap_s64_small (x - (_ + _))) by (unfold GameTimer.is_int64; lia).
  rewrite (wrap_s64_small (x - GameTimer.m_PausedTime g)) by (unfold GameTimer.is_int64; lia).
  rewrite !wrap_s64_small by (unfold GameTimer.is_int64; lia).
  split; [lia | reflexivity].
Qed.

Lemma pause_is_not_counted_witness :
  let g := GameTimer.Tick 100 (GameTimer.Reset 0 (GameTimer.ctor 1000)) in
  GameTimer.TotalCounts (GameTimer.Tick 1000 g) = 1000 /\
  GameTimer.TotalCounts
    (GameTimer.Tick 1000 (GameTimer.Start 700 (GameTimer.Stop 300 g))) = 600.
Proof.
  split; [reflexivity | ].
  refine (eq_trans (proj1 (pause_is_not_counted 300 700 1000 _ _ _ _ _ _ _)) _);
    try reflexivity; vm_compute; try split; congruence.
Defined.

Lemma run_stopped cs : forall g,
  forallb GameTimer.is_tick cs = true -> GameTimer.m_IsStopped g = true ->
  GameTimer.m_IsStopped (GameTimer.run cs g) = true /\
  GameTimer.TotalCounts (GameTimer.run cs g) = GameTimer.TotalCounts g /\
  GameTimer.TotalTime (GameTimer.run cs g) = GameTimer.TotalTime g.
Proof.
  unfold GameTimer.run.
  induction cs as [ | c cs IH]; intros g Hall Hs; [auto | ].
  cbn in Hall. apply andb_prop in Hall as [Hc Hcs].
  destruct c as [x | x | x | x]; try discriminate Hc. cbn [fold_left GameTimer.step].
  assert (Hs' : GameTimer.m_IsStopped (GameTimer.Tick x g) = true)
    by (unfold GameTimer.Tick; rewrite Hs; reflexivity).
  destruct (IH _ Hcs Hs') as (I1 & I2 & I3).
  split; [exact I1 | ]. rewrite I2, I3.
  unfold GameTimer.TotalTime, GameTimer.TotalCounts, GameTimer.Tick. rewrite Hs. cbn.
  auto.
Qed.

(** X4: a stopped timer shows the time of the stop.  [Stop] at the
    reading [s] leaves the total that a [Tick] at [s] would give, and any
    number of ticks after it change neither the counts nor what
    [TotalTime()] returns. *)
Theorem stopped_timer_is_frozen (s : Z) (ticks : list GameTimer.call) (g : GameTimer.t) :
  GameTimer.m_IsStopped g = false ->
  forallb GameTimer.is_tick ticks = true ->
  GameTimer.TotalCounts (GameTimer.Stop s g) = GameTimer.TotalCounts (GameTimer.Tick s g) /\
  GameTimer.TotalCounts (GameTimer.run ticks (GameTimer.Stop s g)) =
    GameTimer.TotalCounts (GameTimer.Stop s g) /\
  GameTimer.TotalTime (GameTimer.run ticks (GameTimer.Stop s g)) =
    GameTimer.TotalTime (GameTimer.Stop s g).
Proof.
  intros Hrun Hticks. split.
  - unfold GameTimer.Stop, GameTimer.Tick, GameTimer.TotalCounts. rewrite Hrun. cbn.
    rewrite ?Hrun. reflexivity.
  - apply run_stopped; [exact Hticks | ].
    unfold GameTimer.Stop. rewrite Hrun. reflexivity.
Qed.

Lemma stopped_timer_is_frozen_witness :
  let g := GameTimer.Stop 300 (GameTimer.Tick 100 (GameTimer.Reset 0 (GameTimer.ctor 1000))) in
  GameTimer.TotalCounts g = 300 /\
  GameTimer.TotalCounts
    (GameTimer.run [GameTimer.CallTick 400; GameTimer.CallTick 500] g) = 300.
Proof.
  split; [reflexivity | ].
  exact (proj1 (proj2 (stopped_timer_is_frozen 300
                         [GameTimer.CallTick 400; GameTimer.CallTick 500]
                         (GameTimer.Tick 100 (GameTimer.Reset 0 (GameTimer.ctor 1000)))
                         eq_refl eq_refl))).
Defined.

(** X5: [Reset] sets the base time and nothing else that the total
    depends on: the pauses before it are still subtracted, so the total at
    the next tick is [x - t] less the paused time; and until that tick the
    total is computed from the reading of the last tick before the
    [Reset], for a timer fresh from its constructor [- t] counts. *)
Theorem Reset_keeps_paused_time (t x countsPerSec : Z) (g : GameTimer.t) :
  0 <= GameTimer.m_PausedTime g < 2 ^ 62 ->
  0 <= t < 2 ^ 62 -> 0 <= x < 2 ^ 62 ->
  GameTimer.TotalCounts (GameTimer.Tick x (GameTimer.Reset t g)) =
    (x - t) - GameTimer.m_PausedTime g /\
  GameTimer.m_PausedTime (GameTimer.Reset t g) = GameTimer.m_PausedTime g /\
  GameTimer.TotalCounts (GameTimer.Reset t (GameTimer.ctor countsPerSec)) = - t.
Proof.
  intros Hp Ht Hx.
  unfold GameTimer.Tick, GameTimer.Reset, GameTimer.TotalCounts, GameTimer.ctor. cbn.
  unfold GameTimer.sub64.
  rewrite (wrap_s64_small (x - _)) by (unfold GameTimer.is_int64; lia).
  rewrite (wrap_s64_small (0 - 0)) by (unfold GameTimer.is_int64; lia).
  rewrite !wrap_s64_small by (unfold GameTimer.is_int64; lia).
  repeat split; lia.
Qed.

Lemma Reset_keeps_paused_time_witness :
  let g := GameTimer.Start 700 (GameTimer.Stop 300
             (GameTimer.Tick 100 (GameTimer.Reset 0 (GameTimer.ctor 1000)))) in
  GameTimer.m_PausedTime g = 400 /\
  GameTimer.TotalCounts (GameTimer.Tick 1000 (GameTimer.Reset 900 g)) = -300.
Proof.
  split; [reflexivity | ].
  refine (eq_trans (proj1 (Reset_keeps_paused_time 900 1000 1000 _ _ _ _)) _);
    try reflexivity; vm_compute; split; congruence.
Defined.

(** ** WndProc and Run *)

(** A call of which nothing is known. *)
Lemma wp_bind_call_any {R R' B} (f : M R R) (k : R -> M R' B) Q w :
  (forall r w', wp (k r) Q w') -> (forall x w', Q (Abort x) w') ->
  wp (call f ≫= k) Q w.
Proof.
  intros Hk Ha. apply wp_bind_call. unfold wp at 1.
  destruct (fst (f w)) as [r | r | x]; auto.
Qed.

Lemma wp_call_any {R R'} (f : M R R) (Q : Step R' R -> World -> Prop) w :
  (forall r w', Q (Continue r) w') -> (forall x w', Q (Abort x) w') ->
  wp (call f) Q w.
Proof.
  intros Hk Ha. apply wp_call. unfold wp at 1.
  destruct (fst (f w)) as [r | r | x]; auto.
Qed.

Ltac wp_any :=
  first [ simple apply wp_bind_call_any; [ intros ? ? | intros ? ?; try exact I ]
        | simple apply wp_call_any; [ intros ? ? | intros ? ?; try exact I ] ].

Lemma wp_answer_exact {R} (Q : Step R Z -> World -> Prop) w :
  Q (Continue (hd 0 (w_answers w))) (w <| w_answers := tl (w_answers w) |>) ->
  wp answer Q w.
Proof.
  unfold wp, answer. destruct w as [wnd g st gpu tr ans cnt].
  cbn. destruct ans as [ | a rest]; cbn; auto.
Qed.

(** Symbolic execution that keeps the answers as they are in the script. *)
Ltac wp_exact :=
  repeat lazymatch goal with
         | |- wp answer _ _ => simple apply wp_answer_exact; norm
         | _ => wp_step_exact
         end.




(** The tests of the [switch] on a message that is known. *)
Ltac switch_tests :=
  cbn [Z.eqb Pos.eqb orb
       WM_CREATE WM_DESTROY WM_SIZE WM_ACTIVATE WM_QUIT WM_GETMINMAXINFO WM_KEYUP
       WM_MOUSEMOVE WM_LBUTTONDOWN WM_LBUTTONUP WM_RBUTTONDOWN WM_RBUTTONUP
       WM_MBUTTONDOWN WM_MBUTTONUP WM_ENTERSIZEMOVE WM_EXITSIZEMOVE].

Lemma handled_true msg : handled msg = true -> In msg handled_messages.
Proof.
  unfold handled. intros H. apply existsb_exists in H as (k & Hk & E).
  apply Z.eqb_eq in E. now subst k.
Qed.

Lemma WndProc_returns_0 cfg hWnd msg wParam lParam w :
  In msg handled_messages ->
  wp (WndProc cfg hWnd msg wParam lParam) (fun s _ => returns_0 s) w.
Proof.
  unfold handled_messages. cbn [In]. intros H.
  repeat (destruct H as [<- | H]); try contradiction.
  all: unfold WndProc, WndProc_SIZE; switch_tests.
  all: repeat (wp_go; try exact I; try reflexivity; try wp_any).
Qed.

(** X7: for every message it has a [case] for, [WndProc] returns 0 and
    does not fall through to [DefWindowProc] (or a handler dies on the
    way). *)
Theorem handled_message_returns_0 (cfg : BuildConfig)
    (hWnd msg wParam lParam : Z) (w : World) :
  handled msg = true ->
  returns_0 (fst (WndProc cfg hWnd msg wParam lParam w)).
Proof.
  intros H. apply handled_true in H.
  exact (WndProc_returns_0 cfg hWnd msg wParam lParam w H).
Qed.

Lemma handled_message_returns_0_witness :
  fst (WndProc release_build 1 WM_KEYUP VK_ESCAPE 0 (World_initial [])) = Return 0.
Proof.
  pose proof (handled_message_returns_0 release_build 1 WM_KEYUP VK_ESCAPE 0
                (World_initial []) eq_refl) as H.
  destruct (fst (WndProc release_build 1 WM_KEYUP VK_ESCAPE 0 (World_initial [])))
    as [r | r | x] eqn:E; cbn in H.
  - contradiction.
  - now subst r.
  - vm_compute in E. discriminate E.
Defined.

Lemma Stop_is_stopped c t : GameTimer.m_IsStopped (GameTimer.Stop c t) = true.
Proof. unfold GameTimer.Stop. now destruct (GameTimer.m_IsStopped t) eqn:E. Qed.

Lemma Tick_of_stopped c t :
  GameTimer.m_IsStopped t = true ->
  GameTimer.Tick c t = t <| GameTimer.m_DeltaTime := F64.f0 |>.
Proof. unfold GameTimer.Tick. intros E. rewrite E. destruct t. cbn in *. now subst. Qed.

Lemma WndProc_ACTIVATE cfg hWnd wParam lParam w :
  wp (WndProc cfg hWnd WM_ACTIVATE wParam lParam) (fun s w' =>
    s = Return 0 /\
    g_DxApp w' =
      (g_DxApp w)
        <| m_IsPaused := (LOWORD wParam =? WA_INACTIVE) |>
        <| m_Timer := (if LOWORD wParam =? WA_INACTIVE then GameTimer.Stop else GameTimer.Start)
                        (next_reading w) (m_Timer (g_DxApp w)) |> /\
    w_gpu w' = w_gpu w /\
    entries FnUpdate (w_trace w') = entries FnUpdate (w_trace w) /\
    entries FnDraw (w_trace w') = entries FnDraw (w_trace w)) w.
Proof.
  unfold WndProc. switch_tests. wp_go.
  all: try (repeat split; reflexivity).
  apply negb_false_iff in Heqb0.
  rewrite (Stop_stopped _ _ Heqb0). repeat split; reflexivity.
Qed.

Lemma idle_rounds_paused n : forall w,
  m_IsPaused (g_DxApp w) = true ->
  GameTimer.m_IsStopped (m_Timer (g_DxApp w)) = true ->
  g_DxApp (idle_rounds n w) =
    (g_DxApp w) <| m_Timer := ticked_at_rest n (m_Timer (g_DxApp w)) |> /\
  w_gpu (idle_rounds n w) = w_gpu w /\
  entries FnUpdate (w_trace (idle_rounds n w)) = entries FnUpdate (w_trace w) /\
  entries FnDraw (w_trace (idle_rounds n w)) = entries FnDraw (w_trace w).
Proof.
  unfold idle_rounds.
  induction n as [ | n IH]; intros w Hp Hst; cbn [Nat.iter]; [repeat split | ].
  destruct (IH w Hp Hst) as (Ha & Hg & Hu & Hd).
  set (wn := Nat.iter n (fun w => snd (Run_idle w)) w) in *.
  assert (Hpn : m_IsPaused (g_DxApp wn) = true) by (rewrite Ha; exact Hp).
  assert (Hsn : GameTimer.m_IsStopped (m_Timer (g_DxApp wn)) = true).
  { rewrite Ha. norm. destruct n; cbn [ticked_at_rest]; [exact Hst | cbn; exact Hst]. }
  destruct (Run_idle_paused wn Hpn) as (Ha' & Hg' & Hd' & Hu').
  split; [ | split; [exact (eq_trans Hg' Hg) | ]].
  - refine (eq_trans Ha' _). rewrite (Tick_of_stopped _ _ Hsn).
    assert (E : forall g,
              g = (g_DxApp w) <| m_Timer := ticked_at_rest n (m_Timer (g_DxApp w)) |> ->
              g <| m_Timer := (m_Timer g) <| GameTimer.m_DeltaTime := F64.f0 |> |> =
              (g_DxApp w) <| m_Timer := ticked_at_rest (S n) (m_Timer (g_DxApp w)) |>).
    { intros g ->. norm. destruct n; reflexivity. }
    exact (E _ Ha).
  - split; [exact (eq_trans Hu' Hu) | exact (eq_trans Hd' Hd)].
Qed.

(** X8: [WM_ACTIVATE] decides whether the program renders.  A deactivation
    (low word of [wParam] is [WA_INACTIVE]) sets the pause flag and calls
    [Stop] on the timer, anything else clears the flag and calls [Start];
    nothing else of the globals and nothing of the GPU changes, and 0 is
    returned.  After a deactivation the timer is stopped, and any number
    of idle rounds of the message loop enter neither [Update] nor [Draw]
    and leave the GPU as it is; each of them calls [Tick], which on the
    stopped timer sets the time of the frame to 0.0, and that is the only
    change to the globals. *)
Theorem activation_pauses_rendering (cfg : BuildConfig) (hWnd wParam lParam : Z)
    (n : nat) (w : World) :
  let w1 := dispatch cfg hWnd WM_ACTIVATE wParam lParam w in
  fst (WndProc cfg hWnd WM_ACTIVATE wParam lParam w) = Return 0 /\
  g_DxApp w1 =
    (g_DxApp w)
      <| m_IsPaused := (LOWORD wParam =? WA_INACTIVE) |>
      <| m_Timer := (if LOWORD wParam =? WA_INACTIVE then GameTimer.Stop else GameTimer.Start)
                      (next_reading w) (m_Timer (g_DxApp w)) |> /\
  w_gpu w1 = w_gpu w /\
  (LOWORD wParam = WA_INACTIVE ->
   GameTimer.m_IsStopped (m_Timer (g_DxApp w1)) = true /\
   g_DxApp (idle_rounds n w1) =
     (g_DxApp w1) <| m_Timer := match n with
                                | O => m_Timer (g_DxApp w1)
                                | S _ => (m_Timer (g_DxApp w1)) <| GameTimer.m_DeltaTime := F64.f0 |>
                                end |> /\
   w_gpu (idle_rounds n w1) = w_gpu w /\
   entries FnUpdate (w_trace (idle_rounds n w1)) = entries FnUpdate (w_trace w) /\
   entries FnDraw (w_trace (idle_rounds n w1)) = entries FnDraw (w_trace w)).
Proof.
  intros w1.
  destruct (WndProc_ACTIVATE cfg hWnd wParam lParam w) as (Hs & Ha & Hg & Hu & Hd).
  fold (dispatch cfg hWnd WM_ACTIVATE wParam lParam w) in Ha, Hg, Hu, Hd.
  fold w1 in Ha, Hg, Hu, Hd.
  split; [exact Hs | ]. split; [exact Ha | ]. split; [exact Hg | ].
  intros Hin.
  assert (Hst : GameTimer.m_IsStopped (m_Timer (g_DxApp w1)) = true).
  { rewrite Ha, Hin. norm. apply Stop_is_stopped. }
  destruct (idle_rounds_paused n w1) as (Ia & Ig & Iu & Id);
    [rewrite Ha, Hin; reflexivity | exact Hst | ].
  split; [exact Hst | ]. split; [exact Ia | ]. split; [exact (eq_trans Ig Hg) | ].
  split; [exact (eq_trans Iu Hu) | exact (eq_trans Id Hd)].
Qed.

Lemma activation_pauses_rendering_witness :
  let w := started release_build answers_ok in
  let w1 := dispatch release_build 1 WM_ACTIVATE WA_INACTIVE 0 w in
  m_IsPaused (g_DxApp w1) = true /\
  entries FnDraw (w_trace (idle_rounds 3 w1)) = entries FnDraw (w_trace w) /\
  entries FnDraw (w_trace (idle_rounds 3 w)) = (3 + entries FnDraw (w_trace w))%nat.
Proof.
  intros w w1.
  destruct (activation_pauses_rendering release_build 1 WA_INACTIVE 0 3 w)
    as (_ & Ha & _ & H).
  fold w1 in Ha, H. destruct (H eq_refl) as (_ & _ & _ & _ & Hd).
  split; [rewrite Ha; reflexivity | ]. split; [exact Hd | ].
  vm_compute. reflexivity.
Defined.

Lemma Run_message_no_return cfg m w r : fst (Run_message cfg m w) <> Return r.
Proof.
  cut (wp (Run_message cfg m) (fun s _ => s <> Return r) w); [auto | ].
  unfold Run_message, Dispatch. repeat (wp_go; try wp_any); try discriminate.
  all: unfold wp, mret, M_ret; cbn; discriminate.
Qed.

Lemma Run_idle_no_return w r : fst (Run_idle w) <> Return r.
Proof.
  cut (wp Run_idle (fun s _ => s <> Return r) w); [auto | ].
  unfold Run_idle. repeat (wp_go; try wp_any); try discriminate.
  all: unfold wp, emit; cbn; discriminate.
Qed.

(** The loop over [before ++ rest] is the loop over [before] followed by
    the loop over [rest], when no [WM_QUIT] is among [before]. *)
Lemma Run_loop_app cfg rest before : forall msg w,
  forallb not_quit before = true -> (message msg =? WM_QUIT) = false ->
  Run_loop cfg (before ++ rest) msg w =
    match Run_loop cfg before msg w with
    | (Continue _, w') => Run_loop cfg rest (last_message before msg) w'
    | (Return r, w') => (Return r, w')
    | (Abort f, w') => (Abort f, w')
    end.
Proof.
  induction before as [ | [m | ] before IH]; intros msg w Hb Hmsg.
  - cbn [app Run_loop last_message fold_left]. rewrite Hmsg. reflexivity.
  - cbn in Hb. apply andb_prop in Hb as [Hm Hb]. apply negb_true_iff in Hm.
    rewrite <- app_comm_cons. cbn [Run_loop last_message fold_left]. rewrite Hmsg.
    unfold mbind, M_bind.
    destruct (Run_message cfg m w) as [[[] | r | f] w1]; try reflexivity.
    apply (IH m w1 Hb Hm).
  - cbn in Hb. rewrite <- app_comm_cons. cbn [Run_loop last_message fold_left]. rewrite Hmsg.
    unfold mbind, M_bind.
    destruct (Run_idle w) as [[[] | r | f] w1]; try reflexivity.
    apply (IH msg w1 Hb Hmsg).
Qed.

Lemma Run_loop_no_quit cfg before : forall msg w,
  forallb not_quit before = true -> (message msg =? WM_QUIT) = false ->
  fst (Run_loop cfg before msg w) = Continue None \/
  exists f, fst (Run_loop cfg before msg w) = Abort f.
Proof.
  induction before as [ | [m | ] before IH]; intros msg w Hb Hmsg.
  - cbn [Run_loop]. rewrite Hmsg. now left.
  - cbn in Hb. apply andb_prop in Hb as [Hm Hb]. apply negb_true_iff in Hm.
    cbn [Run_loop]. rewrite Hmsg. unfold mbind, M_bind.
    pose proof (Run_message_no_return cfg m w) as Hn.
    destruct (Run_message cfg m w) as [[[] | r | f] w1]; cbn [fst] in *.
    + apply (IH m w1 Hb Hm).
    + now destruct (Hn r).
    + right. now exists f.
  - cbn in Hb. cbn [Run_loop]. rewrite Hmsg. unfold mbind, M_bind.
    pose proof (Run_idle_no_return w) as Hn.
    destruct (Run_idle w) as [[[] | r | f] w1]; cbn [fst] in *.
    + apply (IH msg w1 Hb Hmsg).
    + now destruct (Hn r).
    + right. now exists f.
Qed.

Lemma last_message_not_quit before : forall msg,
  forallb not_quit before = true -> (message msg =? WM_QUIT) = false ->
  (message (last_message before msg) =? WM_QUIT) = false.
Proof.
  unfold last_message.
  induction before as [ | [m | ] before IH]; intros msg Hb H0; cbn [fold_left];
    [exact H0 | | ].
  - cbn in Hb. apply andb_prop in Hb as [Hm Hb]. apply negb_true_iff in Hm.
    apply (IH m Hb Hm).
  - cbn in Hb. apply (IH msg Hb H0).
Qed.

Lemma Run_loop_quit cfg peeks msg :
  message msg = WM_QUIT -> Run_loop cfg peeks msg = mret (Some (int_of (msg_wParam msg))).
Proof. intros H. destruct peeks; cbn [Run_loop]; rewrite H; reflexivity. Qed.

Lemma Run_eq cfg peeks w :
  Run cfg peeks w =
    Run_loop cfg peeks {| hwnd := 0; message := 0; msg_wParam := 0; msg_lParam := 0 |}
      (Run_entered w).
Proof. reflexivity. Qed.

Lemma WndProc_QUIT cfg hWnd wParam lParam w :
  WndProc cfg hWnd WM_QUIT wParam lParam w =
    (Continue (hd 0 (w_answers w)),
     w <| w_trace := EvApi FnWndProc (DefWindowProc WM_QUIT) :: EvEnter FnWndProc :: w_trace w |>
       <| w_answers := tl (w_answers w) |>).
Proof.
  cut (wp (WndProc cfg hWnd WM_QUIT wParam lParam) (fun s w' =>
         s = Continue (hd 0 (w_answers w)) /\
         w' = w <| w_trace := EvApi FnWndProc (DefWindowProc WM_QUIT)
                                :: EvEnter FnWndProc :: w_trace w |>
                <| w_answers := tl (w_answers w) |>) w).
  { unfold wp. intros [Hs Hw]. rewrite <- Hs, <- Hw. now destruct (WndProc _ _ _ _ _ _). }
  unfold WndProc. switch_tests. wp_exact. split; reflexivity.
Qed.

Lemma Run_message_QUIT cfg q w :
  message q = WM_QUIT -> Run_message cfg q w = (Continue tt, quit_dispatched q w).
Proof.
  intros Hq. unfold Run_message, Dispatch, quit_dispatched.
  unfold mbind, M_bind, api, emit. cbn [fst snd]. rewrite Hq.
  destruct (hwnd q =? 0); [reflexivity | ].
  unfold call. rewrite WndProc_QUIT. reflexivity.
Qed.

(** X9: the message loop ends at the first [WM_QUIT].  When the rounds
    before it go through, [Run] returns [(int)wParam] of that message, its
    low 32 bits read as a signed number.  The message itself is translated
    and dispatched like every other: when it is for no window, as the one
    [PostQuitMessage] posts, no window procedure runs; when it is for a
    window it goes through [WndProc] to [DefWindowProc].  What
    [PeekMessage] would find after it plays no part.  Without a [WM_QUIT]
    the loop does not end (or dies on the way), and [Run] never returns
    from inside the loop. *)
Theorem Run_ends_at_first_WM_QUIT (cfg : BuildConfig)
    (before after : list (option MSG)) (q : MSG) (w : World) :
  forallb not_quit before = true ->
  message q = WM_QUIT ->
  (fst (Run cfg before w) = Continue None \/ exists f, fst (Run cfg before w) = Abort f) /\
  (fst (Run cfg before w) = Continue None ->
   let w1 := snd (Run cfg before w) in
   let w2 := w1 <| w_trace := EvApi FnRun DispatchMessage
                                :: EvApi FnRun TranslateMessage :: w_trace w1 |> in
   Run cfg (before ++ Some q :: after) w =
     (Continue (Some (int_of (msg_wParam q))),
      if hwnd q =? 0 then w2
      else w2 <| w_trace := EvApi FnWndProc (DefWindowProc WM_QUIT)
                              :: EvEnter FnWndProc :: w_trace w2 |>
              <| w_answers := tl (w_answers w2) |>)) /\
  (forall f, fst (Run cfg before w) = Abort f ->
   Run cfg (before ++ Some q :: after) w = Run cfg before w).
Proof.
  intros Hb Hq. rewrite !Run_eq.
  set (msg0 := {| hwnd := 0; message := 0; msg_wParam := 0; msg_lParam := 0 |}).
  assert (H0 : (message msg0 =? WM_QUIT) = false) by reflexivity.
  split; [now apply Run_loop_no_quit | ].
  rewrite (Run_loop_app cfg (Some q :: after) before msg0 (Run_entered w) Hb H0).
  destruct (Run_loop cfg before msg0 (Run_entered w)) as [[o | r | f] w1]; cbn [fst snd].
  - split; [ | intros f Hf; discriminate Hf]. intros _.
    cbn [Run_loop].
    pose proof (last_message_not_quit before msg0 Hb H0) as Hl.
    rewrite Hl. unfold mbind at 1. unfold M_bind at 1.
    rewrite (Run_message_QUIT cfg q w1 Hq).
    rewrite (Run_loop_quit cfg after q Hq). reflexivity.
  - split; [intros Hf; discriminate Hf | intros f Hf; discriminate Hf].
  - split; [intros Hf; discriminate Hf | reflexivity].
Qed.

(** After one idle round [PostQuitMessage(5)] is found, and after another
    a [WM_QUIT] whose [wParam] does not fit an [int]. *)
Lemma Run_ends_at_first_WM_QUIT_witness :
  let w := started release_build answers_ok in
  fst (Run release_build [None; Some (quit_message 5); None] w) = Continue (Some 5) /\
  fst (Run release_build [None; Some (quit_message 4294967301); None] w) = Continue (Some 5) /\
  fst (Run release_build [None; Some (quit_message 4294967295); None] w) = Continue (Some (-1)).
Proof.
  intros w.
  assert (Hr : fst (Run release_build [None] w) = Continue None) by (vm_compute; reflexivity).
  split; [ | split].
  - destruct (Run_ends_at_first_WM_QUIT release_build [None] [None] (quit_message 5) w
                eq_refl eq_refl) as (_ & H & _).
    change ([None; Some (quit_message 5); None])
      with ([None] ++ Some (quit_message 5) :: [None]).
    rewrite (H Hr). reflexivity.
  - destruct (Run_ends_at_first_WM_QUIT release_build [None] [None] (quit_message 4294967301) w
                eq_refl eq_refl) as (_ & H & _).
    change ([None; Some (quit_message 4294967301); None])
      with ([None] ++ Some (quit_message 4294967301) :: [None]).
    rewrite (H Hr). reflexivity.
  - destruct (Run_ends_at_first_WM_QUIT release_build [None] [None] (quit_message 4294967295) w
                eq_refl eq_refl) as (_ & H & _).
    change ([None; Some (quit_message 4294967295); None])
      with ([None] ++ Some (quit_message 4294967295) :: [None]).
    rewrite (H Hr). reflexivity.
Defined.

(** ** InitD3D *)

Lemma CreateCommandObjects_spec w :
  wp CreateCommandObjects (fun s w' =>
    match s with
    | Return true =>
        g_DxApp w' = (g_DxApp w) <| m_CommandQueue := Some tt |>
                               <| m_DirectCommandListAllocator := Some tt |>
                               <| m_CommandList := Some tt |>
    | Return false => error_reported w'
    | Continue _ => False
    | Abort _ => m_D3dDevice (g_DxApp w) = None
    end) w.
Proof.
  unfold CreateCommandObjects. wp_go.
  all: unfold error_reported; norm.
  all: try (eexists _, _; reflexivity).
  all: try reflexivity.
  all: try assumption.
Qed.

Lemma CreateSwapChain_spec w :
  wp CreateSwapChain (fun s w' =>
    match s with
    | Return true =>
        exists sc,
          g_DxApp w' = (g_DxApp w) <| m_SwapChain := Some sc |> /\
          sc_Width sc = wrap32 (m_ClientWidth (g_DxApp w)) /\
          sc_Height sc = wrap32 (m_ClientHeight (g_DxApp w)) /\
          sc_Format sc = Settings.m_BackBufferFormat /\
          sc_SampleCount sc = sample_count (g_DxApp w) /\
          sc_SampleQuality sc = sample_quality (g_DxApp w) /\
          sc_BufferCount sc = 2 /\
          length (sc_buffers sc) = 2%nat
    | Return false =>
        g_DxApp w' = (g_DxApp w) <| m_SwapChain := nullptr |> /\
        hd_error (w_trace w') =
          Some (EvApi FnCreateSwapChain (MessageBox "Failed to create swap chain!" "ERROR"))
    | Continue _ => False
    | Abort _ => m_DxgiFactory (g_DxApp w) = None
    end) w.
Proof.
  unfold CreateSwapChain. wp_go.
  all: norm.
  all: try assumption.
  - split; reflexivity.
  - eexists. repeat split; reflexivity.
Qed.

Lemma CreateDescriptorHeaps_spec w :
  wp CreateDescriptorHeaps (fun s w' =>
    match s with
    | Return true =>
        g_DxApp w' = (g_DxApp w) <| m_RtvHeap := Some tt |> <| m_DsvHeap := Some tt |>
    | Return false => error_reported w'
    | Continue _ => False
    | Abort _ => m_D3dDevice (g_DxApp w) = None
    end) w.
Proof.
  unfold CreateDescriptorHeaps. wp_go.
  all: unfold error_reported; norm.
  all: try (eexists _, _; reflexivity).
  all: try reflexivity.
  all: try assumption.
Qed.

(** A call of which a specification is known. *)
Ltac wp_spec lem :=
  simple apply wp_bind_call; eapply wp_mono; [ apply lem | ];
  cbv beta; intros [? | [ | ] | ?] ? ?; try contradiction; try exact I;
  cbn [negb].

Lemma InitD3D_spec cfg w :
  wp (InitD3D cfg) (fun s w' =>
    match s with
    | Return true =>
        d3d_objects_exist (g_DxApp w') /\
        (def_NDEBUG cfg = false -> 0 < m_4xMsaaQuality (g_DxApp w')) /\
        swap_chain_for (g_DxApp w) (g_DxApp w')
    | Return false => error_reported w'
    | Continue _ => False
    | Abort _ => True
    end) w.
Proof.
  unfold InitD3D, InitD3D_device, InitD3D_msaa, InitD3D_other, assert.
  wp_go. all: try exact I.
  all: try (unfold error_reported; norm; eexists _, _; reflexivity).
  all: wp_spec CreateCommandObjects_spec; wp_go; try assumption.
  all: wp_spec CreateSwapChain_spec; wp_go;
    try (unfold error_reported; eexists _, _;
         match goal with H : _ /\ _ |- _ => exact (proj2 H) end).
  all: wp_spec CreateDescriptorHeaps_spec; wp_go; try assumption.
  all: match goal with H : exists _, _ |- _ =>
         destruct H as (sc & H & Hw & Hh & _ & Hc & Hq & Hn & Hl)
       end.
  all: repeat match goal with H : g_DxApp ?x = _ |- _ => rewrite H in *; clear H end.
  all: revert Hw Hh Hc Hq Hn Hl.
  all: unfold d3d_objects_exist, swap_chain_for, sample_count, sample_quality; norm.
  all: intros Hw Hh Hc Hq Hn Hl.
  all: repeat match goal with |- _ /\ _ => split end; try discriminate.
  all: try (intros ?; discriminate).
  all: try (intros _; apply Z.ltb_lt; assumption).
  all: exists sc; repeat split; first [reflexivity | assumption].
Qed.

Lemma WndProc_CREATE_failed cfg hWnd wParam lParam w :
  wp (WndProc cfg hWnd WM_CREATE wParam lParam) (fun s w' =>
    forall w1, InitD3D cfg (WM_CREATE_entered hWnd w) = (Return false, w1) ->
    s = Return 0 /\
    w' = w1 <| w_trace := EvApi FnWndProc DestroyWindow
                 :: EvApi FnWndProc (MessageBox "Initializing D3D 12 failed!" "ERROR")
                 :: w_trace w1 |>) w.
Proof.
  unfold WndProc. switch_tests. wp_go.
  simple apply wp_bind_call. unfold wp at 1.
  match goal with |- context [InitD3D cfg ?x] =>
    change x with (WM_CREATE_entered hWnd w)
  end.
  destruct (InitD3D cfg (WM_CREATE_entered hWnd w)) as [[r | [ | ] | x] w1]; cbn [fst snd].
  1, 2, 4: unfold wp; intros w1' Hq; discriminate Hq.
  cbn [negb]. wp_go. intros w1' Hq.
  assert (E : w1 = w1') by congruence. destruct E. split; reflexivity.
Qed.

(** X10: when [InitD3D] returns [true], everything it was to create exists:
    factory, device, fence, command queue, allocator and list, swap chain
    and the two descriptor heaps.  The swap chain has two buffers of the
    client size and the sample settings that belong to the MSAA flag and
    the quality level just queried; in a build with assertions that level
    is above zero. *)
Theorem InitD3D_true_objects_exist cfg w :
  fst (InitD3D cfg w) = Return true ->
  let g := g_DxApp w in
  let g' := g_DxApp (snd (InitD3D cfg w)) in
  d3d_objects_exist g' /\
  (def_NDEBUG cfg = false -> 0 < m_4xMsaaQuality g') /\
  swap_chain_for g g'.
Proof.
  intros H. pose proof (InitD3D_spec cfg w) as S. unfold wp in S.
  rewrite H in S. exact S.
Qed.

Lemma InitD3D_true_objects_exist_witness :
  fst (InitD3D debug_build (World_initial (0 :: answers_ok))) = Return true /\
  d3d_objects_exist (g_DxApp (snd (InitD3D debug_build (World_initial (0 :: answers_ok))))) /\
  0 < m_4xMsaaQuality (g_DxApp (snd (InitD3D debug_build (World_initial (0 :: answers_ok))))).
Proof.
  assert (H : fst (InitD3D debug_build (World_initial (0 :: answers_ok))) = Return true)
    by (vm_compute; reflexivity).
  split; [exact H | ].
  pose proof (InitD3D_true_objects_exist debug_build (World_initial (0 :: answers_ok)) H)
    as (Ho & Hq & _).
  split; [exact Ho | apply Hq; reflexivity].
Defined.

(** X11: [InitD3D] never fails silently, and a failure ends the start of
    the program.  When it returns [false] the last thing it did was to show
    an error box; [WM_CREATE] then shows a second box, destroys the window
    and returns 0, and neither [OnResize] nor [OnInitialize] is run. *)
Theorem failed_init_is_reported cfg hWnd wParam lParam w :
  fst (InitD3D cfg (WM_CREATE_entered hWnd w)) = Return false ->
  let w1 := snd (InitD3D cfg (WM_CREATE_entered hWnd w)) in
  error_reported w1 /\
  WndProc cfg hWnd WM_CREATE wParam lParam w =
    (Return 0,
     w1 <| w_trace := EvApi FnWndProc DestroyWindow
             :: EvApi FnWndProc (MessageBox "Initializing D3D 12 failed!" "ERROR")
             :: w_trace w1 |>).
Proof.
  intros H w1. split.
  - pose proof (InitD3D_spec cfg (WM_CREATE_entered hWnd w)) as S. unfold wp in S.
    rewrite H in S. exact S.
  - pose proof (WndProc_CREATE_failed cfg hWnd wParam lParam w) as S. unfold wp in S.
    destruct (S w1) as [Hs Hw].
    + subst w1. destruct (InitD3D cfg (WM_CREATE_entered hWnd w)) as [s w1].
      cbn [fst snd] in *. now subst s.
    + destruct (WndProc cfg hWnd WM_CREATE wParam lParam w) as [s w'].
      cbn [fst snd] in *. now subst.
Qed.

Lemma failed_init_is_reported_witness :
  let w := World_initial [(-1)] in
  let w1 := snd (InitD3D release_build (WM_CREATE_entered 1 w)) in
  fst (InitD3D release_build (WM_CREATE_entered 1 w)) = Return false /\
  error_reported w1 /\
  WndProc release_build 1 WM_CREATE 0 0 w =
    (Return 0,
     w1 <| w_trace := EvApi FnWndProc DestroyWindow
             :: EvApi FnWndProc (MessageBox "Initializing D3D 12 failed!" "ERROR")
             :: w_trace w1 |>).
Proof.
  assert (H : fst (InitD3D release_build (WM_CREATE_entered 1 (World_initial [(-1)]))) = Return false)
    by (vm_compute; reflexivity).
  split; [exact H | ].
  exact (failed_init_is_reported release_build 1 0 0 (World_initial [(-1)]) H).
Defined.

(** ** CreateSwapChain and SetMsaaEnabled *)

Lemma CreateSwapChain_exact w :
  m_DxgiFactory (g_DxApp w) <> None ->
  wp CreateSwapChain (fun s w' =>
    (forall f, entries f (w_trace w') = entries f (EvEnter FnCreateSwapChain :: w_trace w)) /\
    if FAILED (hd 0 (w_answers w)) then
      s = Return false /\
      g_DxApp w' = (g_DxApp w) <| m_SwapChain := nullptr |> /\
      w_gpu w' = w_gpu w /\
      hd_error (w_trace w') =
        Some (EvApi FnCreateSwapChain (MessageBox "Failed to create swap chain!" "ERROR"))
    else
      s = Return true /\
      exists sc, g_DxApp w' = (g_DxApp w) <| m_SwapChain := Some sc |> /\
                 swap_chain_of (g_DxApp w) sc) w.
Proof.
  intros Hf. unfold CreateSwapChain. repeat wp_step_exact.
  all: try contradiction.
  all: norm.
  all: match goal with
       | H : _ = ?b |- context [if ?x then _ else _] =>
           let E := fresh in assert (E : x = b) by exact H; rewrite E; clear E
       end.
  all: split; [intros f; rewrite !entries_cons; cbn [is_enter]; reflexivity | ].
  - repeat split; reflexivity.
  - split; [reflexivity | ].
    eexists. split; [reflexivity | ].
    unfold swap_chain_of, sample_count, sample_quality; norm.
    repeat split; reflexivity.
Qed.

(** X12: [CreateSwapChain] first gives up the swap chain it has.  When the
    factory cannot make a new one, the function shows an error box and
    returns [false], and no swap chain is left, the old one included; the
    GPU is untouched.  Otherwise it returns [true] with a swap chain of two
    buffers in the client size and the back buffer format, 4 samples of
    quality [m_4xMsaaQuality - 1] when MSAA is on and 1 sample of quality 0
    when it is off.  Nothing else of the application state changes. *)
Theorem CreateSwapChain_cases w :
  m_DxgiFactory (g_DxApp w) <> None ->
  let s := fst (CreateSwapChain w) in
  let w' := snd (CreateSwapChain w) in
  if FAILED (hd 0 (w_answers w)) then
    s = Return false /\
    g_DxApp w' = (g_DxApp w) <| m_SwapChain := nullptr |> /\
    w_gpu w' = w_gpu w /\
    hd_error (w_trace w') =
      Some (EvApi FnCreateSwapChain (MessageBox "Failed to create swap chain!" "ERROR"))
  else
    s = Return true /\
    exists sc, g_DxApp w' = (g_DxApp w) <| m_SwapChain := Some sc |> /\
               swap_chain_of (g_DxApp w) sc.
Proof.
  intros Hf. exact (proj2 (CreateSwapChain_exact w Hf)).
Qed.

Lemma CreateSwapChain_cases_witness :
  let w := (World_initial [(-1)]) <| g_DxApp := g_DxApp_initial <| m_DxgiFactory := Some tt |> |> in
  fst (CreateSwapChain w) = Return false /\
  m_SwapChain (g_DxApp (snd (CreateSwapChain w))) = None.
Proof.
  intros w.
  assert (Hf : m_DxgiFactory (g_DxApp w) <> None) by discriminate.
  pose proof (CreateSwapChain_cases w Hf) as H.
  change (FAILED (hd 0 (w_answers w))) with true in H. cbv zeta in H.
  destruct H as (Hs & Hg & _). split; [exact Hs | ].
  exact (f_equal m_SwapChain Hg).
Defined.

Lemma OnResize_settings cfg w :
  wp (OnResize cfg) (fun s w' =>
    m_MsaaEnabled (g_DxApp w') = m_MsaaEnabled (g_DxApp w) /\
    m_DxgiFactory (g_DxApp w') = m_DxgiFactory (g_DxApp w) /\
    m_ClientWidth (g_DxApp w') = m_ClientWidth (g_DxApp w) /\
    m_ClientHeight (g_DxApp w') = m_ClientHeight (g_DxApp w)) w.
Proof.
  unfold OnResize. wp_run_framed.
  all: unfold wp, update_app, mret, M_ret; norm.
  all: repeat split; reflexivity.
Qed.

Lemma OnResize_not_CreateSwapChain cfg w :
  entries FnCreateSwapChain (w_trace (snd (OnResize cfg w))) =
  entries FnCreateSwapChain (w_trace w).
Proof.
  apply (OnResize_trace (not_enter FnCreateSwapChain)
           (fun t => entries FnCreateSwapChain t = entries FnCreateSwapChain (w_trace w))
           (fun e t => entries_not_enter FnCreateSwapChain e t _)
           ltac:(reflexivity) ltac:(reflexivity) ltac:(reflexivity) cfg
           (fun t => entries FnCreateSwapChain t = entries FnCreateSwapChain (w_trace w))).
  - intros t Ht. cbv beta. rewrite entries_cons. cbn. exact Ht.
  - reflexivity.
Qed.

Lemma SetMsaaEnabled_spec cfg enabled w :
  m_DxgiFactory (g_DxApp w) <> None ->
  m_MsaaEnabled (g_DxApp w) = negb enabled ->
  wp (SetMsaaEnabled cfg enabled) (fun s w' =>
    m_MsaaEnabled (g_DxApp w') = enabled /\
    m_DxgiFactory (g_DxApp w') = m_DxgiFactory (g_DxApp w) /\
    entries FnCreateSwapChain (w_trace w') = S (entries FnCreateSwapChain (w_trace w)) /\
    entries FnOnResize (w_trace w') = S (entries FnOnResize (w_trace w))) w.
Proof.
  intros Hf Hm. unfold SetMsaaEnabled.
  assert (E : Bool.eqb (m_MsaaEnabled (g_DxApp w)) enabled = false)
    by (rewrite Hm; destruct enabled; reflexivity).
  wp_go.
  2: { exfalso. match goal with H : negb _ = false |- _ =>
         exact (Bool.diff_true_false (eq_trans (eq_sym (f_equal negb E)) H)) end. }
  simple apply wp_bind_call. eapply wp_mono; [apply CreateSwapChain_exact; exact Hf | ].
  cbv beta. intros s w1 [Ht Hs].
  assert (Hm1 : m_MsaaEnabled (g_DxApp w1) = enabled /\
                m_DxgiFactory (g_DxApp w1) = m_DxgiFactory (g_DxApp w)).
  { destruct (FAILED _); [destruct Hs as (_ & Hg & _) | destruct Hs as (_ & sc & Hg & _)];
      (split; [exact (f_equal m_MsaaEnabled Hg) | exact (f_equal m_DxgiFactory Hg)]). }
  assert (Hs1 : match s with Abort _ => False | _ => True end).
  { destruct (FAILED _); destruct Hs as (-> & _); exact I. }
  cbn [w_trace] in Ht.
  destruct s as [r | r | x]; [ | | contradiction].
  all: simple apply wp_call; unfold wp.
  all: pose proof (OnResize_settings cfg w1) as (H1 & H1' & _); unfold wp in H1, H1'.
  all: pose proof (OnResize_entered_once cfg w1) as H2.
  all: pose proof (OnResize_not_CreateSwapChain cfg w1) as H3.
  all: assert (G : m_MsaaEnabled (g_DxApp (snd (OnResize cfg w1))) = enabled /\
      m_DxgiFactory (g_DxApp (snd (OnResize cfg w1))) = m_DxgiFactory (g_DxApp w) /\
      entries FnCreateSwapChain (w_trace (snd (OnResize cfg w1))) =
        S (entries FnCreateSwapChain (w_trace w)) /\
      entries FnOnResize (w_trace (snd (OnResize cfg w1))) =
        S (entries FnOnResize (w_trace w)))
    by (split; [exact (eq_trans H1 (proj1 Hm1)) | ];
        split; [exact (eq_trans H1' (proj2 Hm1)) | ];
        split; [rewrite H3, Ht, !entries_cons; reflexivity
               | rewrite H2, Ht, !entries_cons; reflexivity]).
  all: destruct (fst (OnResize cfg w1)); exact G.
Qed.

(** X13: switching MSAA.  When the flag changes, [SetMsaaEnabled] stores the
    new value, builds the swap chain anew once and runs [OnResize] once,
    also when the swap chain could not be built: the result of
    [CreateSwapChain] is not looked at.  However the call ends, the flag
    holds the requested value afterwards. *)
Theorem SetMsaaEnabled_recreates cfg enabled w :
  m_DxgiFactory (g_DxApp w) <> None ->
  m_MsaaEnabled (g_DxApp w) = negb enabled ->
  let w' := snd (SetMsaaEnabled cfg enabled w) in
  m_MsaaEnabled (g_DxApp w') = enabled /\
  entries FnCreateSwapChain (w_trace w') = S (entries FnCreateSwapChain (w_trace w)) /\
  entries FnOnResize (w_trace w') = S (entries FnOnResize (w_trace w)).
Proof.
  intros Hf Hm.
  pose proof (SetMsaaEnabled_spec cfg enabled w Hf Hm) as (H1 & _ & H2 & H3).
  split; [exact H1 | split; [exact H2 | exact H3]].
Qed.

Lemma SetMsaaEnabled_recreates_witness :
  let w := (World_initial [(-1)]) <| g_DxApp := g_DxApp_initial <| m_DxgiFactory := Some tt |> |> in
  let w' := snd (SetMsaaEnabled release_build true w) in
  m_MsaaEnabled (g_DxApp w') = true /\
  entries FnCreateSwapChain (w_trace w') = 1%nat /\
  entries FnOnResize (w_trace w') = 1%nat.
Proof.
  intros w.
  assert (Hf : m_DxgiFactory (g_DxApp w) <> None) by discriminate.
  assert (Hm : m_MsaaEnabled (g_DxApp w) = negb true) by reflexivity.
  exact (SetMsaaEnabled_recreates release_build true w Hf Hm).
Defined.

Lemma WndProc_F2 cfg hWnd lParam w :
  m_DxgiFactory (g_DxApp w) <> None ->
  wp (WndProc cfg hWnd WM_KEYUP VK_F2 lParam) (fun s w' =>
    returns_0 s /\
    m_MsaaEnabled (g_DxApp w') = negb (m_MsaaEnabled (g_DxApp w)) /\
    m_DxgiFactory (g_DxApp w') = m_DxgiFactory (g_DxApp w) /\
    entries FnCreateSwapChain (w_trace w') = S (entries FnCreateSwapChain (w_trace w)) /\
    entries FnOnResize (w_trace w') = S (entries FnOnResize (w_trace w))) w.
Proof.
  intros Hf. unfold WndProc. switch_tests. cbn [VK_F2 VK_ESCAPE Z.eqb Pos.eqb]. wp_go.
  simple apply wp_bind_call. eapply wp_mono.
  - apply SetMsaaEnabled_spec; [exact Hf | ]. norm. symmetry. apply negb_involutive.
  - cbv beta. norm. rewrite !entries_cons. cbn [is_enter Fn_eqb].
    intros [[] | [] | x] w' H; [wp_go; split; [reflexivity | exact H] ..
                                | split; [exact I | exact H]].
Qed.

(** X14: the F2 key switches MSAA.  A [WM_KEYUP] for [VK_F2] does not fall
    through to [DefWindowProc]: it is answered with 0 unless
    [SetMsaaEnabled] dies on the way.  However the call ends, it leaves
    the MSAA flag negated, the swap chain having been asked for anew once
    and [OnResize] entered once.  When the first F2 has been answered
    with 0, a second F2 is answered with 0 or dies in the same way, and
    brings the flag back to what it was. *)
Theorem F2_toggles_msaa cfg (hWnd lParam lParam' : Z) (w : World) :
  m_DxgiFactory (g_DxApp w) <> None ->
  let r1 := WndProc cfg hWnd WM_KEYUP VK_F2 lParam w in
  let r2 := WndProc cfg hWnd WM_KEYUP VK_F2 lParam' (snd r1) in
  returns_0 (fst r1) /\
  m_MsaaEnabled (g_DxApp (snd r1)) = negb (m_MsaaEnabled (g_DxApp w)) /\
  entries FnCreateSwapChain (w_trace (snd r1)) = S (entries FnCreateSwapChain (w_trace w)) /\
  entries FnOnResize (w_trace (snd r1)) = S (entries FnOnResize (w_trace w)) /\
  (fst r1 = Return 0 ->
   returns_0 (fst r2) /\
   m_MsaaEnabled (g_DxApp (snd r2)) = m_MsaaEnabled (g_DxApp w)).
Proof.
  intros Hf r1 r2.
  pose proof (WndProc_F2 cfg hWnd lParam w Hf) as (H0 & Hm & Hf1 & Hc & Hr).
  fold r1 in H0, Hm, Hf1, Hc, Hr.
  assert (Hf' : m_DxgiFactory (g_DxApp (snd r1)) <> None) by (rewrite Hf1; exact Hf).
  pose proof (WndProc_F2 cfg hWnd lParam' (snd r1) Hf') as (H02 & Hm2 & _).
  fold r2 in H02, Hm2.
  repeat split; try assumption.
  rewrite Hm2, Hm. apply negb_involutive.
Qed.

(** After start-up F2 is pressed twice; both messages are answered with 0. *)
Lemma F2_toggles_msaa_witness :
  let w := started release_build answers_ok in
  let r1 := WndProc release_build 1 WM_KEYUP VK_F2 0 w in
  let r2 := WndProc release_build 1 WM_KEYUP VK_F2 0 (snd r1) in
  fst r1 = Return 0 /\
  m_MsaaEnabled (g_DxApp (snd r1)) = true /\
  fst r2 = Return 0 /\
  m_MsaaEnabled (g_DxApp (snd r2)) = false.
Proof.
  intros w r1 r2.
  assert (Hf : m_DxgiFactory (g_DxApp w) <> None) by (vm_compute; discriminate).
  assert (E1 : fst r1 = Return 0) by (vm_compute; reflexivity).
  assert (E2 : fst r2 = Return 0) by (vm_compute; reflexivity).
  pose proof (F2_toggles_msaa release_build 1 0 0 w Hf) as (_ & H1 & _ & _ & H2).
  fold r1 in H1, H2. fold r2 in H2.
  split; [exact E1 | ]. split; [exact H1 | ]. split; [exact E2 | ].
  exact (proj2 (H2 E1)).
Defined.

(** ** The mouse *)

Lemma leb_not_ltb (x y : float) : F32.leb x y = true -> F32.ltb y x = false.
Proof.
  unfold F32.ltb, F32.leb, SFltb, SFleb. rewrite (SFcompare_antisym x y).
  destruct (SFcompare x y) as [[ | | ] | ]; cbn; congruence.
Qed.

Lemma Clamp_id (x low high : float) :
  in_range x low high = true -> MathHelper.Clamp x low high = x.
Proof.
  unfold in_range, MathHelper.Clamp. intros H. apply andb_prop in H as [H1 H2].
  now rewrite (leb_not_ltb _ _ H1), (leb_not_ltb _ _ H2).
Qed.

Lemma add_zero (x : float) : x <> S754_zero true -> F32.add x F32.f0 = x.
Proof. destruct x as [[ | ] | | | ]; intros H; try reflexivity. now contradiction H. Qed.

Lemma above_positive_not_negative_zero (x : float) m e :
  F32.leb (F32.lit m e) x = true -> x <> S754_zero true.
Proof. intros H ->. discriminate H. Qed.

Lemma angle_of_no_pixels : angle_of_pixels 0 = F32.f0.
Proof. reflexivity. Qed.

Lemma distance_of_no_pixels : F32.sub (distance_of_pixels 0) (distance_of_pixels 0) = F32.f0.
Proof. reflexivity. Qed.

Lemma OnMouseMove_app_still btnState (g : DxApp) :
  in_range (m_Phi g) Phi_low Phi_high = true ->
  in_range (m_Radius g) Radius_low Radius_high = true ->
  m_Theta g <> S754_zero true ->
  camera (OnMouseMove_app btnState (pt_x (m_LastMousePos g)) (pt_y (m_LastMousePos g)) g)
  = camera g.
Proof.
  intros Hphi Hrad Hth. unfold OnMouseMove_app, camera.
  rewrite !Z.sub_diag.
  change (F32.XMConvertToRadians (F32.mul F32.f0_25 (F32.of_int 0))) with F32.f0.
  change (F32.sub (F32.mul F32.f0_005 (F32.of_int 0)) (F32.mul F32.f0_005 (F32.of_int 0)))
    with F32.f0.
  assert (Hp0 : m_Phi g <> S754_zero true).
  { apply andb_prop in Hphi as [H _]. exact (above_positive_not_negative_zero _ _ _ H). }
  assert (Hr0 : m_Radius g <> S754_zero true).
  { apply andb_prop in Hrad as [H _]. exact (above_positive_not_negative_zero _ _ _ H). }
  destruct (negb (Z.land btnState MK_LBUTTON =? 0)); cbv zeta; norm.
  - apply (f_equal2 pair); [ | reflexivity].
    apply (f_equal2 pair); [exact (add_zero _ Hth) | ].
    exact (eq_trans
             (f_equal (fun v => MathHelper.Clamp v Phi_low Phi_high) (add_zero _ Hp0))
             (Clamp_id _ _ _ Hphi)).
  - destruct (negb (Z.land btnState MK_RBUTTON =? 0)); cbv zeta; norm.
    + apply (f_equal2 pair); [reflexivity | ].
      exact (eq_trans
               (f_equal (fun v => MathHelper.Clamp v Radius_low Radius_high) (add_zero _ Hr0))
               (Clamp_id _ _ _ Hrad)).
    + reflexivity.
Qed.

(** X15: a click that does not move the mouse does not move the camera.
    After a button went down at ([x], [y]), a mouse move to the same point
    leaves azimuth, polar angle and radius as they were, whatever buttons
    it reports, as long as angle and radius are in their ranges; the one
    exception is an azimuth of minus zero, which adding zero turns into
    plus zero. *)
Theorem still_mouse_keeps_camera (btnDown btnMove x y : Z) (w : World) :
  in_range (m_Phi (g_DxApp w)) Phi_low Phi_high = true ->
  in_range (m_Radius (g_DxApp w)) Radius_low Radius_high = true ->
  m_Theta (g_DxApp w) <> S754_zero true ->
  let w1 := snd (OnMouseDown btnDown x y w) in
  let w2 := snd (OnMouseMove btnMove x y w1) in
  camera (g_DxApp w1) = camera (g_DxApp w) /\
  camera (g_DxApp w2) = camera (g_DxApp w) /\
  m_LastMousePos (g_DxApp w2) = {| pt_x := x; pt_y := y |}.
Proof.
  intros Hphi Hrad Hth w1 w2. split; [reflexivity | ]. split.
  - subst w2. rewrite OnMouseMove_app_eq.
    exact (OnMouseMove_app_still btnMove (g_DxApp w1) Hphi Hrad Hth).
  - reflexivity.
Qed.

Lemma still_mouse_keeps_camera_witness :
  let w := World_initial [] in
  camera (g_DxApp (snd (OnMouseMove MK_LBUTTON 7 (-3) (snd (OnMouseDown MK_LBUTTON 7 (-3) w)))))
  = camera (g_DxApp w).
Proof.
  intros w.
  assert (H1 : in_range (m_Phi (g_DxApp w)) Phi_low Phi_high = true) by reflexivity.
  assert (H2 : in_range (m_Radius (g_DxApp w)) Radius_low Radius_high = true) by reflexivity.
  assert (H3 : m_Theta (g_DxApp w) <> S754_zero true) by discriminate.
  exact (proj1 (proj2 (still_mouse_keeps_camera MK_LBUTTON MK_LBUTTON 7 (-3) w H1 H2 H3))).
Defined.

Lemma short_of_word_mod (x : Z) : is_short x -> short_of_word (x mod 65536) = x.
Proof.
  unfold is_short, short_of_word. intros H.
  destruct (Z_lt_le_dec x 0) as [Hn | Hp].
  - assert (E : x mod 65536 = x + 65536).
    { symmetry. apply (Z.mod_unique x 65536 (-1)); lia. }
    rewrite E. destruct (Z.ltb_spec (x + 65536) 32768); lia.
  - rewrite Z.mod_small by lia. destruct (Z.ltb_spec x 32768); lia.
Qed.

Lemma LOWORD_MAKELPARAM a b : 0 <= a < 65536 -> LOWORD (MAKELPARAM a b) = a.
Proof.
  intros H. unfold LOWORD, MAKELPARAM.
  change 65535 with (Z.ones 16). rewrite Z.land_ones by lia.
  change (2 ^ 16) with 65536. rewrite Z.add_comm, Z.mod_add by lia.
  apply Z.mod_small. exact H.
Qed.

Lemma HIWORD_MAKELPARAM a b : 0 <= a < 65536 -> 0 <= b < 65536 -> HIWORD (MAKELPARAM a b) = b.
Proof.
  intros Ha Hb. unfold HIWORD, MAKELPARAM.
  rewrite Z.shiftr_div_pow2 by lia. change (2 ^ 16) with 65536.
  rewrite Z.add_comm, Z.div_add by lia. rewrite (Z.div_small a) by lia.
  change 65535 with (Z.ones 16). rewrite Z.land_ones by lia.
  apply Z.mod_small. change (2 ^ 16) with 65536. lia.
Qed.

Lemma mouse_lParam_decoded x y :
  is_short x -> is_short y ->
  GET_X_LPARAM (mouse_lParam x y) = x /\ GET_Y_LPARAM (mouse_lParam x y) = y.
Proof.
  intros Hx Hy. unfold GET_X_LPARAM, GET_Y_LPARAM, mouse_lParam.
  pose proof (Z.mod_pos_bound x 65536 ltac:(lia)).
  pose proof (Z.mod_pos_bound y 65536 ltac:(lia)).
  rewrite LOWORD_MAKELPARAM, HIWORD_MAKELPARAM by assumption.
  split; apply short_of_word_mod; assumption.
Qed.

Lemma short_of_word_short l : 0 <= l < 65536 -> is_short (short_of_word l).
Proof.
  unfold is_short, short_of_word. intros H. destruct (Z.ltb_spec l 32768); lia.
Qed.

Lemma GET_LPARAM_short l : is_short (GET_X_LPARAM l) /\ is_short (GET_Y_LPARAM l).
Proof.
  unfold GET_X_LPARAM, GET_Y_LPARAM, LOWORD, HIWORD.
  change 65535 with (Z.ones 16). rewrite !Z.land_ones by lia.
  split; apply short_of_word_short; apply Z.mod_pos_bound; lia.
Qed.

Lemma WndProc_MOUSEMOVE cfg hWnd wParam lParam w :
  wp (WndProc cfg hWnd WM_MOUSEMOVE wParam lParam) (fun s w' =>
    s = Return 0 /\
    g_DxApp w' = OnMouseMove_app wParam (GET_X_LPARAM lParam) (GET_Y_LPARAM lParam) (g_DxApp w) /\
    w_gpu w' = w_gpu w) w.
Proof.
  unfold WndProc. switch_tests. wp_go.
  simple apply wp_bind_call. unfold OnMouseMove. wp_go.
  repeat split; reflexivity.
Qed.

(** X16: a [WM_MOUSEMOVE] keeps the camera in its ranges whatever its
    [lParam] is, since the two coordinates are read as signed 16-bit
    numbers; the message is answered with 0 and the GPU is left alone.
    When [lParam] carries the point ([x], [y]), negative coordinates
    included, that point becomes the last mouse position. *)
Theorem WM_MOUSEMOVE_keeps_camera cfg (hWnd wParam lParam : Z) (w : World) :
  camera_ok (g_DxApp w) ->
  let r := WndProc cfg hWnd WM_MOUSEMOVE wParam lParam w in
  fst r = Return 0 /\
  camera_ok (g_DxApp (snd r)) /\
  w_gpu (snd r) = w_gpu w /\
  forall x y, is_short x -> is_short y -> lParam = mouse_lParam x y ->
    m_LastMousePos (g_DxApp (snd r)) = {| pt_x := x; pt_y := y |}.
Proof.
  intros Hc r. pose proof (WndProc_MOUSEMOVE cfg hWnd wParam lParam w) as (Hs & Hg & Hgpu).
  fold r in Hs, Hg, Hgpu.
  destruct (GET_LPARAM_short lParam) as [Hx Hy].
  split; [exact Hs | ]. split; [ | split; [exact Hgpu | ]].
  - rewrite Hg. exact (OnMouseMove_app_camera wParam _ _ _ Hc Hx Hy).
  - intros x y Hsx Hsy ->. rewrite Hg.
    destruct (mouse_lParam_decoded x y Hsx Hsy) as [-> ->]. reflexivity.
Qed.

Lemma WM_MOUSEMOVE_keeps_camera_witness :
  let r := WndProc release_build 1 WM_MOUSEMOVE MK_LBUTTON (mouse_lParam (-5) 9) (World_initial [])
  in
  camera_ok (g_DxApp (snd r)) /\
  m_LastMousePos (g_DxApp (snd r)) = {| pt_x := -5; pt_y := 9 |}.
Proof.
  intros r.
  pose proof (WM_MOUSEMOVE_keeps_camera release_build 1 MK_LBUTTON (mouse_lParam (-5) 9)
                (World_initial []) camera_ok_initial) as (_ & Hc & _ & Hp).
  split; [exact Hc | ].
  apply (Hp (-5) 9); [unfold is_short; lia | unfold is_short; lia | reflexivity].
Defined.

(** ** WM_SIZE *)

Lemma WndProc_SIZE_MINIMIZED cfg hWnd lParam w :
  m_D3dDevice (g_DxApp w) <> None ->
  wp (WndProc cfg hWnd WM_SIZE SIZE_MINIMIZED lParam) (fun s w' =>
    s = Return 0 /\
    w' = w <| g_DxApp := (g_DxApp w) <| m_ClientWidth := LOWORD lParam |>
                                     <| m_ClientHeight := HIWORD lParam |>
                                     <| m_IsPaused := true |>
                                     <| m_IsMinimized := true |>
                                     <| m_IsMaximized := false |> |>
           <| w_trace := EvEnter FnWndProc :: w_trace w |>) w.
Proof.
  intros Hd.
  assert (E : negb (is_null (m_D3dDevice (g_DxApp w))) = true)
    by (destruct (m_D3dDevice (g_DxApp w)); [reflexivity | contradiction]).
  unfold WndProc, WndProc_SIZE. switch_tests.
  cbn [SIZE_MINIMIZED SIZE_MAXIMIZED SIZE_RESTORED Z.eqb Pos.eqb].
  wp_go.
  - split; reflexivity.
  - exfalso. match goal with H : negb _ = false |- _ =>
      exact (Bool.diff_true_false (eq_trans (eq_sym E) H)) end.
Qed.

Lemma WndProc_SIZE_RESTORED_minimized cfg hWnd lParam w :
  m_D3dDevice (g_DxApp w) <> None ->
  m_IsMinimized (g_DxApp w) = true ->
  wp (WndProc cfg hWnd WM_SIZE SIZE_RESTORED lParam) (fun s w' =>
    returns_0 s /\
    m_IsPaused (g_DxApp w') = false /\
    m_IsMinimized (g_DxApp w') = false /\
    m_ClientWidth (g_DxApp w') = LOWORD lParam /\
    m_ClientHeight (g_DxApp w') = HIWORD lParam /\
    entries FnOnResize (w_trace w') = S (entries FnOnResize (w_trace w))) w.
Proof.
  intros Hd Hmin.
  assert (E : negb (is_null (m_D3dDevice (g_DxApp w))) = true)
    by (destruct (m_D3dDevice (g_DxApp w)); [reflexivity | contradiction]).
  unfold WndProc, WndProc_SIZE. switch_tests.
  cbn [SIZE_MINIMIZED SIZE_MAXIMIZED SIZE_RESTORED Z.eqb Pos.eqb].
  wp_go.
  all: try absurd_tests.
  simple apply wp_bind_call. unfold wp at 1.
  match goal with |- context [OnResize cfg ?x] => set (w0 := x) end.
  pose proof (OnResize_flags cfg w0) as (Hp & _ & Hm & _).
  pose proof (OnResize_settings cfg w0) as (_ & _ & Hw & Hh).
  pose proof (OnResize_entered_once cfg w0) as He.
  unfold wp in Hp, Hm, Hw, Hh.
  assert (G : m_IsPaused (g_DxApp (snd (OnResize cfg w0))) = false /\
    m_IsMinimized (g_DxApp (snd (OnResize cfg w0))) = false /\
    m_ClientWidth (g_DxApp (snd (OnResize cfg w0))) = LOWORD lParam /\
    m_ClientHeight (g_DxApp (snd (OnResize cfg w0))) = HIWORD lParam /\
    entries FnOnResize (w_trace (snd (OnResize cfg w0))) = S (entries FnOnResize (w_trace w))).
  { split; [exact Hp | ]. split; [exact Hm | ]. split; [exact Hw | ]. split; [exact Hh | ].
    rewrite He. subst w0. norm. rewrite !entries_cons. reflexivity. }
  destruct (fst (OnResize cfg w0)) as [[] | [] | x].
  1, 2: wp_go; split; [reflexivity | exact G].
  split; [exact I | exact G].
Qed.

(** X17: minimizing and restoring the window.  With the device created, a
    [WM_SIZE] with [SIZE_MINIMIZED] stores the client size, pauses the
    program and marks the window minimized; it does not resize anything and
    leaves the GPU alone.  The [WM_SIZE] with [SIZE_RESTORED] that follows
    ends the pause, clears the mark and runs [OnResize] once with the new
    client size in place. *)
Theorem minimize_then_restore cfg (hWnd l1 l2 : Z) (w : World) :
  m_D3dDevice (g_DxApp w) <> None ->
  let r1 := WndProc cfg hWnd WM_SIZE SIZE_MINIMIZED l1 w in
  let r2 := WndProc cfg hWnd WM_SIZE SIZE_RESTORED l2 (snd r1) in
  (fst r1 = Return 0 /\
   m_IsPaused (g_DxApp (snd r1)) = true /\
   m_IsMinimized (g_DxApp (snd r1)) = true /\
   m_IsMaximized (g_DxApp (snd r1)) = false /\
   m_ClientWidth (g_DxApp (snd r1)) = LOWORD l1 /\
   m_ClientHeight (g_DxApp (snd r1)) = HIWORD l1 /\
   w_gpu (snd r1) = w_gpu w /\
   w_trace (snd r1) = EvEnter FnWndProc :: w_trace w) /\
  (returns_0 (fst r2) /\
   m_IsPaused (g_DxApp (snd r2)) = false /\
   m_IsMinimized (g_DxApp (snd r2)) = false /\
   m_ClientWidth (g_DxApp (snd r2)) = LOWORD l2 /\
   m_ClientHeight (g_DxApp (snd r2)) = HIWORD l2 /\
   entries FnOnResize (w_trace (snd r2)) = S (entries FnOnResize (w_trace w))).
Proof.
  intros Hd r1 r2.
  pose proof (WndProc_SIZE_MINIMIZED cfg hWnd l1 w Hd) as [Hs Hw]. fold r1 in Hs, Hw.
  assert (Hd1 : m_D3dDevice (g_DxApp (snd r1)) <> None) by (rewrite Hw; exact Hd).
  assert (Hm1 : m_IsMinimized (g_DxApp (snd r1)) = true) by (rewrite Hw; reflexivity).
  pose proof (WndProc_SIZE_RESTORED_minimized cfg hWnd l2 (snd r1) Hd1 Hm1)
    as (H0 & Hp & Hm & Hcw & Hch & He). fold r2 in H0, Hp, Hm, Hcw, Hch, He.
  split.
  - rewrite Hw. repeat split; try reflexivity. exact Hs.
  - repeat split; try assumption.
    rewrite He, Hw. norm. rewrite entries_cons. reflexivity.
Qed.

Lemma minimize_then_restore_witness :
  let w := started release_build answers_ok in
  let r1 := WndProc release_build 1 WM_SIZE SIZE_MINIMIZED 0 w in
  let r2 := WndProc release_build 1 WM_SIZE SIZE_RESTORED (MAKELPARAM 640 480) (snd r1) in
  m_IsPaused (g_DxApp (snd r1)) = true /\
  m_IsPaused (g_DxApp (snd r2)) = false /\
  m_ClientWidth (g_DxApp (snd r2)) = 640.
Proof.
  intros w.
  assert (Hd : m_D3dDevice (g_DxApp w) <> None) by (vm_compute; discriminate).
  pose proof (minimize_then_restore release_build 1 0 (MAKELPARAM 640 480) w Hd)
    as ((_ & H1 & _) & (_ & H2 & _ & H3 & _)).
  split; [exact H1 | split; [exact H2 | exact H3]].
Defined.

(** ** Calls that fail *)

Lemma FlushCommandQueue_failed_Signal w :
  m_CommandQueue (g_DxApp w) <> None ->
  FAILED (hd 0 (w_answers w)) = true ->
  wp FlushCommandQueue (fun s w' =>
    s = Return tt /\
    w' = w <| g_DxApp := (g_DxApp w) <| m_CurrentFence := flush_target w |> |>
           <| w_trace :=
                EvApi FnFlushCommandQueue
                  (MessageBox "Failed to signal new fence value to command queue!" "ERROR")
                :: EvApi FnFlushCommandQueue (Signal (flush_target w))
                :: EvEnter FnFlushCommandQueue :: w_trace w |>
           <| w_answers := tl (w_answers w) |>) w.
Proof.
  intros Hq Hf. unfold FlushCommandQueue. wp_exact.
  all: try contradiction.
  all: first [ split; reflexivity
             | exfalso; match goal with H : _ = false |- _ =>
                 exact (Bool.diff_true_false (eq_trans (eq_sym Hf) H)) end ].
Qed.

(** X18: a [Signal] that fails makes [FlushCommandQueue] return without
    waiting.  The function has already counted the fence value up and
    keeps the new value; it shows an error box and returns, and the GPU
    keeps its queue and its fence. *)
Theorem failed_Signal_skips_the_wait (w : World) :
  m_CommandQueue (g_DxApp w) <> None ->
  FAILED (hd 0 (w_answers w)) = true ->
  FlushCommandQueue w =
    (Return tt,
     w <| g_DxApp := (g_DxApp w) <| m_CurrentFence := flush_target w |> |>
       <| w_trace :=
            EvApi FnFlushCommandQueue
              (MessageBox "Failed to signal new fence value to command queue!" "ERROR")
            :: EvApi FnFlushCommandQueue (Signal (flush_target w))
            :: EvEnter FnFlushCommandQueue :: w_trace w |>
       <| w_answers := tl (w_answers w) |>).
Proof.
  intros Hq Hf. pose proof (FlushCommandQueue_failed_Signal w Hq Hf) as [Hs Hw].
  destruct (FlushCommandQueue w) as [s w']. cbn [fst snd] in Hs, Hw. now subst.
Qed.

Lemma failed_Signal_skips_the_wait_witness :
  let w := World_with_queue <| w_gpu := gpu_initial <| gpu_queue := [QExecute []] |> |>
                            <| w_answers := [(-1)] |> in
  fst (FlushCommandQueue w) = Return tt /\
  gpu_queue (w_gpu (snd (FlushCommandQueue w))) = [QExecute []] /\
  m_CurrentFence (g_DxApp (snd (FlushCommandQueue w))) = 1.
Proof.
  intros w.
  assert (Hq : m_CommandQueue (g_DxApp w) <> None) by discriminate.
  assert (Hf : FAILED (hd 0 (w_answers w)) = true) by reflexivity.
  rewrite (failed_Signal_skips_the_wait w Hq Hf).
  repeat split; reflexivity.
Defined.

Lemma CompileShader_exact entrypoint target w :
  wp (CompileShader entrypoint target) (fun s w' =>
    s = Return (if FAILED (hd 0 (w_answers w)) then nullptr else Some tt) /\
    g_DxApp w' = g_DxApp w /\
    w_answers w' = tl (tl (w_answers w))) w.
Proof.
  unfold CompileShader. wp_exact.
  all: match goal with
       | H : FAILED _ = ?b |- context [if ?x then _ else _] =>
           let E := fresh in assert (E : x = b) by exact H; rewrite E; clear E
       end.
  all: repeat split; reflexivity.
Qed.

Lemma BuildShadersAndInputLayout_exact w :
  wp BuildShadersAndInputLayout (fun s w' =>
    s = Continue tt /\
    g_DxApp w' = (g_DxApp w)
      <| m_VsByteCode := if FAILED (hd 0 (w_answers w)) then nullptr else Some tt |>
      <| m_PsByteCode := if FAILED (hd 0 (tl (tl (w_answers w)))) then nullptr else Some tt |>)
    w.
Proof.
  unfold BuildShadersAndInputLayout. wp_go.
  simple apply wp_bind_call. eapply wp_mono; [apply CompileShader_exact | ].
  cbv beta. norm. intros s w1 (-> & Hg1 & Ha1). wp_go.
  simple apply wp_bind_call. eapply wp_mono; [apply CompileShader_exact | ].
  cbv beta. norm. intros s w2 (-> & Hg2 & Ha2). wp_go.
  split; [reflexivity | ].
  destruct w1 as [wnd1 g1 st1 gpu1 tr1 ans1 cnt1], w2 as [wnd2 g2 st2 gpu2 tr2 ans2 cnt2].
  cbn [g_DxApp w_answers] in *. subst g1 ans1 g2. reflexivity.
Qed.

Lemma BuildPSO_null w :
  m_VsByteCode (g_DxApp w) = None \/ m_PsByteCode (g_DxApp w) = None ->
  wp BuildPSO (fun s w' =>
    s = Abort NullDereference /\
    w' = w <| w_trace := EvEnter FnBuildPSO :: w_trace w |>) w.
Proof.
  intros H. unfold BuildPSO. wp_go.
  all: try (split; reflexivity).
  all: exfalso; destruct H as [H | H];
    match goal with E : _ = Some _ |- _ =>
      exact (eq_ind None (fun o => match o with None => True | Some _ => False end) I _
               (eq_trans (eq_sym H) E)) end.
Qed.

(** X19: nobody looks at the result of [CompileShader].  When the compiler
    fails, [CompileShader] has shown an error box and handed back a null
    blob; [BuildShadersAndInputLayout] stores it and goes on as if nothing
    had happened.  [BuildPSO] then, in any state with these shader blobs,
    ends in a null dereference before it asks the device for a pipeline
    state.  When both compilations succeed both blobs are there. *)
Theorem shader_failure_is_not_checked (w : World) :
  let failedVS := FAILED (hd 0 (w_answers w)) in
  let failedPS := FAILED (hd 0 (tl (tl (w_answers w)))) in
  let r := BuildShadersAndInputLayout w in
  fst r = Continue tt /\
  g_DxApp (snd r) = (g_DxApp w)
    <| m_VsByteCode := if failedVS then nullptr else Some tt |>
    <| m_PsByteCode := if failedPS then nullptr else Some tt |> /\
  forall w2,
    m_VsByteCode (g_DxApp w2) = m_VsByteCode (g_DxApp (snd r)) ->
    m_PsByteCode (g_DxApp w2) = m_PsByteCode (g_DxApp (snd r)) ->
    failedVS || failedPS = true ->
    BuildPSO w2 = (Abort NullDereference, w2 <| w_trace := EvEnter FnBuildPSO :: w_trace w2 |>).
Proof.
  intros failedVS failedPS r.
  pose proof (BuildShadersAndInputLayout_exact w) as [Hs Hg]. fold r in Hs, Hg.
  split; [exact Hs | ]. split; [exact Hg | ].
  intros w2 Hv Hp Hf.
  assert (Hnull : m_VsByteCode (g_DxApp w2) = None \/ m_PsByteCode (g_DxApp w2) = None).
  { rewrite Hv, Hp, Hg. cbn [m_VsByteCode m_PsByteCode].
    apply orb_true_iff in Hf as [Hf | Hf].
    - left. fold failedVS. now rewrite Hf.
    - right. fold failedPS. now rewrite Hf. }
  pose proof (BuildPSO_null w2 Hnull) as [H1 H2].
  destruct (BuildPSO w2) as [s w']. cbn [fst snd] in H1, H2. now subst.
Qed.

Lemma shader_failure_is_not_checked_witness :
  let w := World_initial [(-1)] in
  let w1 := snd (BuildShadersAndInputLayout w) in
  fst (BuildShadersAndInputLayout w) = Continue tt /\
  m_VsByteCode (g_DxApp w1) = None /\
  fst (BuildPSO w1) = Abort NullDereference.
Proof.
  intros w w1.
  pose proof (shader_failure_is_not_checked w) as (Hs & Hg & Hpso).
  split; [exact Hs | ]. split; [exact (f_equal m_VsByteCode Hg) | ].
  rewrite (Hpso w1); reflexivity.
Defined.






(** ** BuildRootSignature *)

Lemma BuildRootSignature_exact w :
  m_D3dDevice (g_DxApp w) <> None ->
  wp BuildRootSignature (fun s w' =>
    let failed := FAILED (hd 0 (w_answers w)) in
    let errorBlob := negb (hd 0 (tl (w_answers w)) =? 0) in
    let failedCreate := FAILED (hd 0 (tl (tl (w_answers w)))) in
    w_gpu w' = w_gpu w /\
    if failed then
      g_DxApp w' = g_DxApp w /\
      if errorBlob then
        s = Return tt /\
        w_trace w' =
          EvApi FnBuildRootSignature (MessageBox "Failed to serialize root signature!" "ERROR")
          :: EvApi FnBuildRootSignature OutputDebugStringA
          :: EvApi FnBuildRootSignature D3D12SerializeRootSignature
          :: EvEnter FnBuildRootSignature :: w_trace w
      else
        s = Abort NullDereference /\
        w_trace w' =
          EvApi FnBuildRootSignature D3D12SerializeRootSignature
          :: EvEnter FnBuildRootSignature :: w_trace w
    else
      g_DxApp w' = (g_DxApp w)
        <| m_RootSignature := if failedCreate then nullptr else Some tt |> /\
      s = (if failedCreate then Return tt else Continue tt) /\
      (failedCreate = true ->
       hd_error (w_trace w') =
         Some (EvApi FnBuildRootSignature (MessageBox "Failed to create root signature!" "ERROR")))) w.
Proof.
  intros Hd. unfold BuildRootSignature. wp_exact.
  all: try (exfalso; apply Hd; assumption).
  all: repeat match goal with
       | H : (if ?x then _ else _) = _ |- _ =>
           destruct x eqn:?; try discriminate H; clear H
       end.
  all: try absurd_tests.
  all: try match goal with H : Some _ = None |- _ => discriminate H end.
  all: cbv zeta; norm.
  all: repeat match goal with
       | H : ?t = ?b |- context [if ?x then _ else _] =>
           let E := fresh in assert (E : x = b) by exact H; rewrite E; clear E
       end.
  all: repeat split; try reflexivity.
  all: try (intros ?; discriminate).
Qed.

(** X21: serializing the root signature.  A failure is reported only when
    it comes with an error blob: then the blob is passed to the debugger,
    an error box is shown and the function returns.  A failure without an
    error blob is not looked at, and the function ends in a null
    dereference when it reads the serialized signature that is not there.
    After a successful serialization the root signature is what
    [CreateRootSignature] gave, null and reported when that failed.  The
    GPU is not involved. *)
Theorem BuildRootSignature_cases (w : World) :
  m_D3dDevice (g_DxApp w) <> None ->
  let failed := FAILED (hd 0 (w_answers w)) in
  let errorBlob := negb (hd 0 (tl (w_answers w)) =? 0) in
  let failedCreate := FAILED (hd 0 (tl (tl (w_answers w)))) in
  let s := fst (BuildRootSignature w) in
  let w' := snd (BuildRootSignature w) in
  w_gpu w' = w_gpu w /\
  if failed then
    g_DxApp w' = g_DxApp w /\
    if errorBlob then
      s = Return tt /\
      w_trace w' =
        EvApi FnBuildRootSignature (MessageBox "Failed to serialize root signature!" "ERROR")
        :: EvApi FnBuildRootSignature OutputDebugStringA
        :: EvApi FnBuildRootSignature D3D12SerializeRootSignature
        :: EvEnter FnBuildRootSignature :: w_trace w
    else
      s = Abort NullDereference /\
      w_trace w' =
        EvApi FnBuildRootSignature D3D12SerializeRootSignature
        :: EvEnter FnBuildRootSignature :: w_trace w
  else
    g_DxApp w' = (g_DxApp w)
      <| m_RootSignature := if failedCreate then nullptr else Some tt |> /\
    s = (if failedCreate then Return tt else Continue tt) /\
    (failedCreate = true ->
     hd_error (w_trace w') =
       Some (EvApi FnBuildRootSignature (MessageBox "Failed to create root signature!" "ERROR"))).
Proof.
  intros Hd. exact (BuildRootSignature_exact w Hd).
Qed.

Lemma BuildRootSignature_cases_witness :
  let w := (World_initial [(-1); 0])
             <| g_DxApp := g_DxApp_initial <| m_D3dDevice := Some tt |> |> in
  fst (BuildRootSignature w) = Abort NullDereference /\
  existsb is_MessageBox (w_trace (snd (BuildRootSignature w))) = false.
Proof.
  intros w.
  assert (Hd : m_D3dDevice (g_DxApp w) <> None) by discriminate.
  pose proof (BuildRootSignature_cases w Hd) as H.
  change (FAILED (hd 0 (w_answers w))) with true in H.
  change (negb (hd 0 (tl (w_answers w)) =? 0)) with false in H.
  cbv zeta in H. destruct H as (_ & _ & Hs & Ht).
  split; [exact Hs | rewrite Ht; reflexivity].
Defined.

(** ** The box geometry *)

Lemma Draw_needs_buffers w geo :
  m_BoxGeo (g_DxApp w) = Some geo ->
  m_VertexBufferGPU geo = None \/ m_IndexBufferGPU geo = None ->
  wp Draw (fun s _ => s <> Continue tt) w.
Proof.
  intros Hgeo Hnull. unfold Draw. wp_run_all.
  all: try discriminate.
  all: exfalso.
  all: repeat match goal with
         | H : m_BoxGeo _ = Some ?a |- _ =>
             assert (geo = a) by
               (apply (f_equal (fun o => match o with Some x => x | None => geo end)
                         (eq_trans (eq_sym Hgeo) H)));
             clear H; subst a
         end.
  all: destruct Hnull as [Hn | Hn];
    match goal with
    | H : _ = Some _ |- _ =>
        exact (eq_ind None (fun o => match o with None => True | Some _ => False end) I _
                 (eq_trans (eq_sym Hn) H))
    end.
Qed.

Lemma CreateDefaultBuffer_returns device cmdList data byteSize uploadBuffer w :
  device <> nullptr -> cmdList <> nullptr ->
  wp (CreateDefaultBuffer device cmdList data byteSize uploadBuffer) (fun s w' =>
    g_DxApp w' = g_DxApp w /\
    exists d u, s = Return (d, u) /\
      d = (if FAILED (hd 0 (w_answers w)) then nullptr
           else if FAILED (hd 0 (tl (w_answers w))) then nullptr
           else Some (gpu_next (w_gpu w)))) w.
Proof.
  intros Hd Hc. eapply wp_mono; [apply CreateDefaultBuffer_spec; assumption | ].
  unfold CreateDefaultBuffer_post. intros s w' (Hg & _ & _ & H).
  split; [exact Hg | ].
  destruct (FAILED (hd 0 (w_answers w)));
    [ | destruct (FAILED (hd 0 (tl (w_answers w))))];
    destruct H as (-> & _); eexists _, _; split; reflexivity.
Qed.

Lemma BuildBoxGeometry_exact w :
  m_D3dDevice (g_DxApp w) <> None ->
  m_CommandList (g_DxApp w) <> None ->
  FAILED (hd 0 (w_answers w)) = false ->
  FAILED (hd 0 (tl (w_answers w))) = false ->
  wp BuildBoxGeometry (fun s w' =>
    s = Continue tt /\
    exists geo, g_DxApp w' = (g_DxApp w) <| m_BoxGeo := Some geo |> /\
      m_VertexBufferCPU geo = Some box_vertex_bytes /\
      m_IndexBufferCPU geo = Some box_index_bytes /\
      m_VertexByteStride geo = 28 /\
      m_VertexBufferByteSize geo = 224 /\
      m_IndexFormat geo = DXGI_FORMAT_R16_UINT /\
      m_IndexBufferByteSize geo = 72 /\
      m_DrawArgs geo = {[ "box" := {| m_IndexCount := 36; m_StartIndexLocation := 0;
                                     m_BaseVertexLocation := 0 |} ]} /\
      m_VertexBufferGPU geo =
        (if FAILED (hd 0 (tl (tl (w_answers w))))
         then nullptr
         else if FAILED (hd 0 (tl (tl (tl (w_answers w))))) then nullptr
         else Some (gpu_next (w_gpu w)))) w.
Proof.
  intros Hd Hl Hf1 Hf2. unfold BuildBoxGeometry. wp_exact.
  all: try absurd_tests.
  simple apply wp_bind_call.
  eapply wp_mono; [apply CreateDefaultBuffer_returns; assumption | ].
  cbv beta. norm. intros s w1 (Hg1 & vgpu & vup & -> & Hv).
  simple apply wp_bind_call.
  eapply wp_mono; [apply CreateDefaultBuffer_returns; assumption | ].
  cbv beta. intros s w2 (Hg2 & igpu & iup & -> & Hi).
  unfold wp, update_app; norm.
  split; [reflexivity | ].
  eexists. split; [rewrite Hg2, Hg1; reflexivity | ].
  cbn [m_VertexBufferCPU m_IndexBufferCPU m_VertexByteStride m_VertexBufferByteSize
       m_IndexFormat m_IndexBufferByteSize m_DrawArgs m_VertexBufferGPU].
  repeat split; try reflexivity. exact Hv.
Qed.

(** X22: the box geometry, and buffers that are not checked.  Once the two
    CPU blobs exist, [BuildBoxGeometry] runs to its end whatever
    [CreateDefaultBuffer] hands back.  The geometry holds complete copies
    of the 8 vertices and 36 indices, a stride of 28 bytes, buffer sizes of
    224 and 72 bytes and one submesh, "box", of 36 indices from 0.  The
    vertex buffer is the one [CreateDefaultBuffer] made, null when one of
    its two allocations failed; with a null vertex or index buffer no
    later [Draw] runs to its end. *)
Theorem BuildBoxGeometry_keeps_null_buffers (w : World) :
  m_D3dDevice (g_DxApp w) <> None ->
  m_CommandList (g_DxApp w) <> None ->
  FAILED (hd 0 (w_answers w)) = false ->
  FAILED (hd 0 (tl (w_answers w))) = false ->
  let r := BuildBoxGeometry w in
  fst r = Continue tt /\
  exists geo, g_DxApp (snd r) = (g_DxApp w) <| m_BoxGeo := Some geo |> /\
    m_VertexBufferCPU geo = Some box_vertex_bytes /\
    m_IndexBufferCPU geo = Some box_index_bytes /\
    m_VertexByteStride geo = 28 /\
    m_VertexBufferByteSize geo = 224 /\
    m_IndexFormat geo = DXGI_FORMAT_R16_UINT /\
    m_IndexBufferByteSize geo = 72 /\
    m_DrawArgs geo = {[ "box" := {| m_IndexCount := 36; m_StartIndexLocation := 0;
                                   m_BaseVertexLocation := 0 |} ]} /\
    m_VertexBufferGPU geo =
      (if FAILED (hd 0 (tl (tl (w_answers w))))
       then nullptr
       else if FAILED (hd 0 (tl (tl (tl (w_answers w))))) then nullptr
       else Some (gpu_next (w_gpu w))) /\
    (m_VertexBufferGPU geo = None \/ m_IndexBufferGPU geo = None ->
     forall w2, m_BoxGeo (g_DxApp w2) = Some geo -> fst (Draw w2) <> Continue tt).
Proof.
  intros Hd Hl Hf1 Hf2 r.
  pose proof (BuildBoxGeometry_exact w Hd Hl Hf1 Hf2) as (Hs & geo & Hg & H).
  fold r in Hs, Hg. split; [exact Hs | ]. exists geo. split; [exact Hg | ].
  destruct H as (H1 & H2 & H3 & H4 & H5 & H6 & H7 & H8).
  repeat (split; [assumption | ]).
  intros Hnull w2 Hgeo. exact (Draw_needs_buffers w2 geo Hgeo Hnull).
Qed.

Lemma BuildBoxGeometry_keeps_null_buffers_witness :
  let w := (World_initial [0; 0; (-1)])
             <| g_DxApp := g_DxApp_initial <| m_D3dDevice := Some tt |>
                                           <| m_CommandList := Some tt |> |> in
  let r := BuildBoxGeometry w in
  fst r = Continue tt /\ fst (Draw (snd r)) <> Continue tt.
Proof.
  intros w r.
  assert (Hd : m_D3dDevice (g_DxApp w) <> None) by discriminate.
  assert (Hl : m_CommandList (g_DxApp w) <> None) by discriminate.
  assert (Hf1 : FAILED (hd 0 (w_answers w)) = false) by reflexivity.
  assert (Hf2 : FAILED (hd 0 (tl (w_answers w))) = false) by reflexivity.
  pose proof (BuildBoxGeometry_keeps_null_buffers w Hd Hl Hf1 Hf2)
    as (Hs & geo & Hg & _ & _ & _ & _ & _ & _ & _ & Hv & Hdraw).
  fold r in Hs, Hg. split; [exact Hs | ].
  apply Hdraw; [left; exact Hv | ].
  exact (f_equal m_BoxGeo Hg).
Defined.

(** ** Frames *)

Lemma Draw_entries f w :
  Fn_eqb f FnFlushCommandQueue = false ->
  entries f (w_trace (snd (Draw w))) = entries f (EvEnter FnDraw :: w_trace w).
Proof.
  intros Hf.
  set (n := entries f (EvEnter FnDraw :: w_trace w)).
  set (P := fun t => entries f t = n).
  assert (P_cons : forall e t, not_enter f e = true -> P t -> P (e :: t))
    by (intros e t He Ht; exact (entries_not_enter f e t n He Ht)).
  assert (ok_enter_flush : not_enter f (EvEnter FnFlushCommandQueue) = true)
    by (unfold not_enter; cbn [is_enter]; now rewrite Hf).
  pose proof (FlushCommandQueue_keeps (not_enter f) P P_cons
                (fun a => eq_refl) ok_enter_flush) as Hflush.
  change (P (w_trace (snd (Draw w)))). unfold Draw, enter.
  match goal with
  | |- P (w_trace (snd ((emit ?e ≫= ?k) w))) =>
      change (P (w_trace (snd (k tt (w <| w_trace := e :: w_trace w |>)))));
      cut (keeps P (k tt)); [intros K; apply K; reflexivity | cbv beta]
  end.
  keeps_go ltac:(first [reflexivity | assumption]).
Qed.

Lemma Draw_paused w :
  wp Draw (fun s w' => m_IsPaused (g_DxApp w') = m_IsPaused (g_DxApp w)) w.
Proof.
  unfold Draw. wp_run_framed.
  all: unfold wp, update_app, mret, M_ret; norm.
  all: reflexivity.
Qed.

Lemma Update_round w :
  wp Update (fun s w' =>
    m_IsPaused (g_DxApp w') = m_IsPaused (g_DxApp w) /\
    (forall f, entries f (w_trace w') = entries f (EvEnter FnUpdate :: w_trace w)) /\
    match s with Return _ => False | _ => True end) w.
Proof.
  unfold Update. wp_go.
  all: unfold wp, update_app, mret, M_ret; norm.
  all: split; [reflexivity | split; [ | exact I]].
  all: intros f; rewrite ?entries_cons; reflexivity.
Qed.

Lemma CalculateFrameStats_round w :
  wp CalculateFrameStats (fun s w' =>
    s = Continue tt /\
    g_DxApp w' = g_DxApp w /\
    entries FnUpdate (w_trace w') = entries FnUpdate (w_trace w) /\
    entries FnDraw (w_trace w') = entries FnDraw (w_trace w)) w.
Proof.
  unfold CalculateFrameStats. cbv zeta. wp_go.
  all: repeat split; reflexivity.
Qed.

(** The three calls of a round that renders. *)
Lemma frame_running w :
  m_IsPaused (g_DxApp w) = false ->
  wp (call CalculateFrameStats;; call Update;; call Draw : M Z unit) (fun s w' =>
    m_IsPaused (g_DxApp w') = false /\
    entries FnUpdate (w_trace w') = S (entries FnUpdate (w_trace w)) /\
    match s with
    | Continue _ => entries FnDraw (w_trace w') = S (entries FnDraw (w_trace w))
    | Return _ => False
    | Abort _ =>
        (entries FnDraw (w_trace w') = entries FnDraw (w_trace w) \/
         entries FnDraw (w_trace w') = S (entries FnDraw (w_trace w)))
    end) w.
Proof.
  intros Hp.
  simple apply wp_bind_call. eapply wp_mono; [apply CalculateFrameStats_round | ].
  cbv beta. intros s w0 (-> & Hg0 & HU0 & HD0).
  assert (Hp0 : m_IsPaused (g_DxApp w0) = false)
    by exact (eq_trans (f_equal m_IsPaused Hg0) Hp).
  simple apply wp_bind_call. eapply wp_mono; [apply Update_round | ].
  cbv beta. intros s w1 (Hp1 & He1 & Hs1).
  assert (HU : entries FnUpdate (w_trace w1) = S (entries FnUpdate (w_trace w)))
    by (rewrite He1, !entries_cons, HU0; reflexivity).
  assert (HD : entries FnDraw (w_trace w1) = entries FnDraw (w_trace w))
    by (rewrite He1, !entries_cons, HD0; reflexivity).
  assert (HP : m_IsPaused (g_DxApp w1) = false) by exact (eq_trans Hp1 Hp0).
  destruct s as [[] | [] | x]; [ | contradiction | ].
  2: { split; [exact HP | split; [exact HU | left; exact HD]]. }
  simple apply wp_call. unfold wp.
  pose proof (Draw_paused w1) as Hp2. unfold wp in Hp2.
  pose proof (Draw_entries FnDraw w1 eq_refl) as Hd2.
  pose proof (Draw_entries FnUpdate w1 eq_refl) as Hu2.
  rewrite entries_cons in Hd2, Hu2. cbn [is_enter Fn_eqb] in Hd2, Hu2.
  assert (G1 : m_IsPaused (g_DxApp (snd (Draw w1))) = false) by exact (eq_trans Hp2 HP).
  assert (G2 : entries FnUpdate (w_trace (snd (Draw w1))) = S (entries FnUpdate (w_trace w)))
    by (rewrite Hu2; exact HU).
  assert (G3 : entries FnDraw (w_trace (snd (Draw w1))) = S (entries FnDraw (w_trace w)))
    by (rewrite Hd2, HD; reflexivity).
  destruct (fst (Draw w1)) as [[] | [] | x].
  - split; [exact G1 | split; [exact G2 | exact G3]].
  - split; [exact G1 | split; [exact G2 | exact G3]].
  - split; [exact G1 | split; [exact G2 | right; exact G3]].
Qed.

Lemma Run_idle_running w :
  m_IsPaused (g_DxApp w) = false ->
  wp Run_idle (fun s w' =>
    m_IsPaused (g_DxApp w') = false /\
    entries FnUpdate (w_trace w') = S (entries FnUpdate (w_trace w)) /\
    match s with
    | Continue _ => entries FnDraw (w_trace w') = S (entries FnDraw (w_trace w))
    | Return _ => False
    | Abort _ =>
        (entries FnDraw (w_trace w') = entries FnDraw (w_trace w) \/
         entries FnDraw (w_trace w') = S (entries FnDraw (w_trace w)))
    end) w.
Proof.
  intros Hp. unfold Run_idle. wp_go.
  all: try (exfalso; match goal with H : negb _ = false |- _ =>
              exact (Bool.diff_true_false (eq_trans (eq_sym (f_equal negb Hp)) H)) end).
  all: (eapply wp_mono; [apply frame_running; exact Hp | ]).
  all: cbv beta; norm; rewrite ?entries_cons; cbn [is_enter Fn_eqb Nat.add Nat.b2n];
       intros s w'; exact (fun H => H).
Qed.

Lemma Run_loop_running cfg msg n : forall w,
  m_IsPaused (g_DxApp w) = false -> (message msg =? WM_QUIT) = false ->
  let r := Run_loop cfg (repeat None n) msg w in
  m_IsPaused (g_DxApp (snd r)) = false /\
  match fst r with
  | Continue res =>
      res = None /\
      entries FnUpdate (w_trace (snd r)) = (n + entries FnUpdate (w_trace w))%nat /\
      entries FnDraw (w_trace (snd r)) = (n + entries FnDraw (w_trace w))%nat
  | Return _ => False
  | Abort _ =>
      (entries FnUpdate (w_trace (snd r)) <= n + entries FnUpdate (w_trace w))%nat /\
      (entries FnDraw (w_trace w) <= entries FnDraw (w_trace (snd r)))%nat /\
      (entries FnDraw (w_trace (snd r)) + entries FnUpdate (w_trace w)
       <= entries FnUpdate (w_trace (snd r)) + entries FnDraw (w_trace w))%nat
  end.
Proof.
  induction n as [ | n IH]; intros w Hp Hmsg; cbn [repeat Run_loop]; rewrite Hmsg.
  - cbn. repeat split; try reflexivity. exact Hp.
  - unfold mbind, M_bind.
    pose proof (Run_idle_running w Hp) as H. unfold wp in H.
    destruct (Run_idle w) as [[[] | r | f] w1]; cbn [fst snd] in H |- *.
    + destruct H as (Hp1 & HU & HD).
      specialize (IH w1 Hp1 Hmsg). cbv zeta in IH.
      destruct IH as [IHp IH]. split; [exact IHp | ].
      destruct (fst (Run_loop cfg (repeat None n) msg w1)) as [res | res | x].
      * destruct IH as (-> & IU & ID). split; [reflexivity | ]. split; lia.
      * contradiction.
      * destruct IH as (IU & ID & IUD). repeat split; lia.
    + destruct H as (_ & _ & []).
    + destruct H as (Hp1 & HU & HD). split; [exact Hp1 | ]. repeat split; lia.
Qed.

(** X23: while the program is not paused every round of the message loop
    that finds no message renders one frame.  If [n] such rounds in a row
    go through, [Update] and [Draw] have each been entered [n] times more
    and the loop is still running, not paused.  If a round dies on the
    way, [Draw] has been entered at most as often as [Update], and [Update]
    at most [n] times.  The loop does not return from inside a round. *)
Theorem running_loop_renders (cfg : BuildConfig) (msg : MSG) (n : nat) (w : World) :
  m_IsPaused (g_DxApp w) = false ->
  (message msg =? WM_QUIT) = false ->
  let r := Run_loop cfg (repeat None n) msg w in
  m_IsPaused (g_DxApp (snd r)) = false /\
  match fst r with
  | Continue res =>
      res = None /\
      entries FnUpdate (w_trace (snd r)) = (n + entries FnUpdate (w_trace w))%nat /\
      entries FnDraw (w_trace (snd r)) = (n + entries FnDraw (w_trace w))%nat
  | Return _ => False
  | Abort _ =>
      (entries FnUpdate (w_trace (snd r)) <= n + entries FnUpdate (w_trace w))%nat /\
      (entries FnDraw (w_trace w) <= entries FnDraw (w_trace (snd r)))%nat /\
      (entries FnDraw (w_trace (snd r)) + entries FnUpdate (w_trace w)
       <= entries FnUpdate (w_trace (snd r)) + entries FnDraw (w_trace w))%nat
  end.
Proof. intros Hp Hmsg. exact (Run_loop_running cfg msg n w Hp Hmsg). Qed.

Lemma running_loop_renders_witness :
  let w := started release_build answers_ok in
  let msg := {| hwnd := 0; message := 0; msg_wParam := 0; msg_lParam := 0 |} in
  let r := Run_loop release_build (repeat None 3) msg w in
  fst r = Continue None /\
  entries FnDraw (w_trace (snd r)) = (3 + entries FnDraw (w_trace w))%nat.
Proof.
  intros w msg r.
  assert (Hp : m_IsPaused (g_DxApp w) = false) by (vm_compute; reflexivity).
  assert (Hm : (message msg =? WM_QUIT) = false) by reflexivity.
  assert (Hs : fst r = Continue None) by (vm_compute; reflexivity).
  pose proof (running_loop_renders release_build msg 3 w Hp Hm) as [_ H].
  fold r in H. rewrite Hs in H. destruct H as (_ & _ & HD).
  split; [exact Hs | exact HD].
Defined.

(** ** Early returns *)

Lemma FlushCommandQueue_reports w :
  wp FlushCommandQueue (fun s w' =>
    match s with Return _ => error_reported w' | _ => True end) w.
Proof.
  unfold FlushCommandQueue. wp_go.
  all: try exact I.
  all: unfold error_reported; norm; eexists _, _; reflexivity.
Qed.

Lemma Draw_reports w :
  wp Draw (fun s w' => match s with Return _ => error_reported w' | _ => True end) w.
Proof.
  unfold Draw. wp_run_all.
  all: try exact I.
  all: unfold error_reported; norm; eexists _, _; reflexivity.
Qed.

Lemma OnResize_reports cfg w :
  wp (OnResize cfg) (fun s w' =>
    match s with Return _ => error_reported w' | _ => True end) w.
Proof.
  unfold OnResize. wp_run_all.
  all: try exact I.
  all: unfold error_reported; norm; eexists _, _; reflexivity.
Qed.

Lemma OnInitialize_reports w :
  wp OnInitialize (fun s w' =>
    match s with Return _ => error_reported w' | _ => True end) w.
Proof.
  unfold OnInitialize. repeat (wp_go; try exact I; try wp_flush; try wp_any).
  all: try exact I.
  all: unfold error_reported; norm; eexists _, _; reflexivity.
Qed.

(** X24: no early return is silent.  Whenever [FlushCommandQueue], [Draw],
    [OnResize] or [OnInitialize] ends before its last statement, the last
    thing it did was to show an error box; the functions they call may
    fail without stopping them. *)
Theorem early_returns_are_reported (cfg : BuildConfig) (w : World) :
  match fst (FlushCommandQueue w) with
  | Return _ => error_reported (snd (FlushCommandQueue w)) | _ => True end /\
  match fst (Draw w) with
  | Return _ => error_reported (snd (Draw w)) | _ => True end /\
  match fst (OnResize cfg w) with
  | Return _ => error_reported (snd (OnResize cfg w)) | _ => True end /\
  match fst (OnInitialize w) with
  | Return _ => error_reported (snd (OnInitialize w)) | _ => True end.
Proof.
  split; [exact (FlushCommandQueue_reports w) | ].
  split; [exact (Draw_reports w) | ].
  split; [exact (OnResize_reports cfg w) | exact (OnInitialize_reports w)].
Qed.

Lemma early_returns_are_reported_witness :
  let w := (started release_build answers_ok) <| w_answers := [0; 0; 0; (-1)] |> in
  fst (Draw w) = Return tt /\ error_reported (snd (Draw w)).
Proof.
  intros w.
  assert (Hs : fst (Draw w) = Return tt) by (vm_compute; reflexivity).
  destruct (early_returns_are_reported release_build w) as (_ & H & _).
  split; [exact Hs | ].
  exact (eq_ind (fst (Draw w))
           (fun s => match s with Return _ => error_reported (snd (Draw w)) | _ => True end)
           H _ Hs).
Defined.

(** ** The client size *)

Lemma WndProc_SIZE_client cfg hWnd wParam lParam w :
  wp (WndProc cfg hWnd WM_SIZE wParam lParam) (fun s w' =>
    returns_0 s /\
    m_ClientWidth (g_DxApp w') = LOWORD lParam /\
    m_ClientHeight (g_DxApp w') = HIWORD lParam) w.
Proof.
  unfold WndProc, WndProc_SIZE. switch_tests. wp_go.
  all: try (repeat split; reflexivity).
  all: simple apply wp_bind_call; unfold wp at 1.
  all: match goal with |- context [OnResize _ ?x] => set (w0 := x) end.
  all: pose proof (OnResize_settings cfg w0) as (_ & _ & Hw & Hh); unfold wp in Hw, Hh.
  all: assert (G : m_ClientWidth (g_DxApp (snd (OnResize cfg w0))) = LOWORD lParam /\
                   m_ClientHeight (g_DxApp (snd (OnResize cfg w0))) = HIWORD lParam)
         by (split; [exact Hw | exact Hh]).
  all: destruct (fst (OnResize cfg w0)) as [[] | [] | x];
    [wp_go; split; [reflexivity | exact G] ..  | split; [exact I | exact G]].
Qed.

(** X25: the client size is what the last [WM_SIZE] said.  However the
    message is handled (minimized, maximized, restored, during a drag,
    before the device exists, with [OnResize] completing or dying on the
    way), it leaves the low and high word of [lParam] as client width and
    height, both between 0 and 65535.  The message does not fall through
    to [DefWindowProc]: it is answered with 0 unless [OnResize] dies on
    the way. *)
Theorem WM_SIZE_sets_client_size (cfg : BuildConfig) (hWnd wParam lParam : Z) (w : World) :
  let r := WndProc cfg hWnd WM_SIZE wParam lParam w in
  returns_0 (fst r) /\
  m_ClientWidth (g_DxApp (snd r)) = LOWORD lParam /\
  m_ClientHeight (g_DxApp (snd r)) = HIWORD lParam /\
  0 <= m_ClientWidth (g_DxApp (snd r)) <= 65535 /\
  0 <= m_ClientHeight (g_DxApp (snd r)) <= 65535.
Proof.
  intros r. pose proof (WndProc_SIZE_client cfg hWnd wParam lParam w) as (H0 & Hw & Hh).
  fold r in H0, Hw, Hh. split; [exact H0 | ]. split; [exact Hw | ]. split; [exact Hh | ].
  rewrite Hw, Hh. split; [apply LOWORD_range | apply HIWORD_range].
Qed.

(** ** UploadBuffer::CopyData *)

Lemma splice_length (old new : list Byte.byte) off :
  (off + length new <= length old)%nat -> length (splice old off new) = length old.
Proof.
  intros H. unfold splice. rewrite !length_app, length_take, length_drop. lia.
Qed.

Lemma splice_lookup (old new : list Byte.byte) off k :
  (off + length new <= length old)%nat ->
  splice old off new !! k =
    if (k <? off)%nat then old !! k
    else if (k <? off + length new)%nat then new !! (k - off)%nat
    else old !! k.
Proof.
  intros H. unfold splice.
  destruct (Nat.ltb_spec k off) as [Hk | Hk].
  - rewrite lookup_app_l by (rewrite length_take; lia). apply lookup_take_lt. exact Hk.
  - rewrite lookup_app_r by (rewrite length_take; lia).
    rewrite length_take, Nat.min_l by lia.
    destruct (Nat.ltb_spec k (off + length new)) as [Hk' | Hk'].
    + rewrite lookup_app_l by lia. reflexivity.
    + rewrite lookup_app_r by lia. rewrite lookup_drop. f_equal. lia.
Qed.

Lemma ElementByteSize_fits sizeofT isConstantBuffer :
  0 <= sizeofT <= 4294967040 ->
  sizeofT <= UploadBufferBytes.ElementByteSize sizeofT isConstantBuffer < sizeofT + 256.
Proof.
  intros H. unfold UploadBufferBytes.ElementByteSize. destruct isConstantBuffer; [ | lia].
  assert (E : CalcConstantBufferByteSize sizeofT = next_multiple_of_256 sizeofT).
  { unfold CalcConstantBufferByteSize, next_multiple_of_256.
    rewrite not32_255, wrap32_small by (unfold UINT_MOD; lia).
    apply land_not255. unfold UINT_MOD. lia. }
  rewrite E. apply next_multiple_least.
Qed.

Lemma take_drop_lookup (l : list Byte.byte) off n k :
  take n (drop off l) !! k = if (k <? n)%nat then l !! (off + k)%nat else None.
Proof.
  destruct (Nat.ltb_spec k n) as [Hk | Hk].
  - rewrite lookup_take_lt by exact Hk. apply lookup_drop.
  - apply lookup_take_ge. exact Hk.
Qed.

Lemma element_spliced (old new : list Byte.byte) off :
  (off + length new <= length old)%nat ->
  take (length new) (drop off (splice old off new)) = new.
Proof.
  intros H. apply list_eq. intros k. rewrite take_drop_lookup.
  destruct (Nat.ltb_spec k (length new)) as [Hk | Hk].
  - rewrite splice_lookup by exact H.
    destruct (Nat.ltb_spec (off + k) off); [lia | ].
    destruct (Nat.ltb_spec (off + k) (off + length new)); [ | lia].
    f_equal. lia.
  - symmetry. apply lookup_ge_None. exact Hk.
Qed.

Lemma element_not_spliced (old new : list Byte.byte) off off' n :
  (off + length new <= length old)%nat ->
  (off' + n <= off \/ off + length new <= off')%nat ->
  take n (drop off' (splice old off new)) = take n (drop off' old).
Proof.
  intros H Hd. apply list_eq. intros k. rewrite !take_drop_lookup.
  destruct (Nat.ltb_spec k n) as [Hk | Hk]; [ | reflexivity].
  rewrite splice_lookup by exact H.
  destruct (Nat.ltb_spec (off' + k) off); [reflexivity | ].
  destruct (Nat.ltb_spec (off' + k) (off + length new)); [lia | reflexivity].
Qed.

(** X26: elements of an upload buffer do not overlap.  For a [T] of up
    to 2^32 - 256 bytes the element size the constructor picks is at least
    [sizeof(T)], as it is or rounded up to a multiple of 256.  With a
    buffer of [elementCount] elements whose size fits a [UINT], [CopyData]
    at an index below [elementCount] stays inside the mapping, the element
    read back is the data written, and every other element keeps its
    bytes. *)
Theorem CopyData_elements (sizeofT : Z) (isConstantBuffer : bool) (elementCount i : Z)
    (data mapped : list Byte.byte) :
  0 < sizeofT <= 4294967040 ->
  UploadBufferBytes.ElementByteSize sizeofT isConstantBuffer * elementCount < UINT_MOD ->
  0 <= i < elementCount ->
  length data = Z.to_nat sizeofT ->
  Z.of_nat (length mapped) = UploadBufferBytes.BufferSize sizeofT elementCount isConstantBuffer ->
  sizeofT <= UploadBufferBytes.ElementByteSize sizeofT isConstantBuffer /\
  exists mapped',
    UploadBufferBytes.CopyData sizeofT isConstantBuffer i data mapped = Some mapped' /\
    length mapped' = length mapped /\
    UploadBufferBytes.element sizeofT isConstantBuffer i mapped' = data /\
    forall j, 0 <= j < elementCount -> j <> i ->
      UploadBufferBytes.element sizeofT isConstantBuffer j mapped' =
      UploadBufferBytes.element sizeofT isConstantBuffer j mapped.
Proof.
  intros Hs Hfit Hi Hdata Hmapped.
  pose proof (ElementByteSize_fits sizeofT isConstantBuffer ltac:(lia)) as [Hle _].
  split; [exact Hle | ].
  unfold UploadBufferBytes.CopyData, UploadBufferBytes.element, UploadBufferBytes.BufferSize in *.
  set (s := UploadBufferBytes.ElementByteSize sizeofT isConstantBuffer) in *.
  assert (Hs0 : 0 < s) by lia.
  assert (Hoff : 0 <= i * s /\ i * s + s <= s * elementCount) by nia.
  assert (Htot : 0 <= s * elementCount) by nia.
  rewrite wrap32_small in Hmapped by (split; [exact Htot | exact Hfit]).
  rewrite wrap32_small by (split; [tauto | lia]).
  destruct (Z.leb_spec (i * s + sizeofT) (Z.of_nat (length mapped))) as [Hin | Hout]; [ | lia].
  rewrite firstn_all2 by lia.
  assert (Hnat : (Z.to_nat (i * s) + length data <= length mapped)%nat) by lia.
  eexists. split; [reflexivity | ].
  split; [apply splice_length; exact Hnat | ].
  split.
  - rewrite <- Hdata. apply element_spliced. exact Hnat.
  - intros j Hj Hne. apply element_not_spliced; [exact Hnat | ].
    rewrite Hdata. destruct (Z_lt_le_dec j i) as [Hlt | Hge].
    + left. assert (j * s + s <= i * s) by nia. lia.
    + right. assert (i * s + s <= j * s) by nia. lia.
Qed.

Lemma CopyData_elements_witness :
  let data := repeat Byte.x01 64 in
  let mapped := repeat Byte.x00 512 in
  exists mapped',
    UploadBufferBytes.CopyData 64 true 1 data mapped = Some mapped' /\
    UploadBufferBytes.element 64 true 1 mapped' = data /\
    UploadBufferBytes.element 64 true 0 mapped' = repeat Byte.x00 64.
Proof.
  intros data mapped.
  destruct (CopyData_elements 64 true 2 1 data mapped) as (_ & m' & Hc & _ & He & Ho).
  - lia.
  - vm_compute. reflexivity.
  - lia.
  - reflexivity.
  - reflexivity.
  - exists m'. split; [exact Hc | ]. split; [exact He | ].
    rewrite (Ho 0) by lia. reflexivity.
Defined.

(** ** CalculateFrameStats *)

Lemma wrap_s32_small z : - 2 ^ 31 <= z < 2 ^ 31 -> FrameStats.wrap_s32 z = z.
Proof.
  intros H. unfold FrameStats.wrap_s32. rewrite Z.mod_small by lia. lia.
Qed.

(** X27: the frame rate in the title is a count of calls.  While the total
    time of the timer is less than a second beyond the time accounted for,
    a call only counts one frame more and leaves the title alone.  The
    first call for which a second has passed sets the title: the rate it
    prints is the number of calls since the previous title, that call
    included, and the frame time is 1000 divided by it; the count starts
    again at 0 and the time accounted for becomes the [float] sum of its
    old value and [1.f], however late the call is. *)
Theorem title_shows_calls_since_last_title
    (quiet : list GameTimer.t) (timer : GameTimer.t) (s : FrameStats.t) :
  Forall (fun q => FrameStats.due (GameTimer.TotalTime q) s = false) quiet ->
  FrameStats.due (GameTimer.TotalTime timer) s = true ->
  0 <= FrameStats.s_FrameCount s ->
  FrameStats.s_FrameCount s + Z.of_nat (length quiet) + 1 < 2 ^ 31 ->
  let frames := FrameStats.s_FrameCount s + Z.of_nat (length quiet) + 1 in
  FrameStats.calls (quiet ++ [timer]) s =
    ({| FrameStats.s_FrameCount := 0;
        FrameStats.s_TimeElapsed := F32.add (FrameStats.s_TimeElapsed s) F32.f1 |},
     repeat None (length quiet)
       ++ [Some (F32.of_int frames, F32.div F32.f1000 (F32.of_int frames))]).
Proof.
  revert s. induction quiet as [ | q quiet IH]; intros s Hq Hd H0 Hlt frames.
  - rewrite !app_nil_l. cbn [FrameStats.calls length repeat].
    unfold FrameStats.CalculateFrameStats.
    rewrite Hd. rewrite wrap_s32_small by (cbn [length] in Hlt; lia).
    subst frames. cbn [length Z.of_nat]. rewrite Z.add_0_r. reflexivity.
  - inversion Hq as [ | ? ? Hdq Hrest]; subst.
    rewrite <- app_comm_cons. cbn [FrameStats.calls].
    unfold FrameStats.CalculateFrameStats at 1. rewrite Hdq.
    cbn [length] in Hlt. subst frames.
    rewrite wrap_s32_small by lia.
    rewrite IH; cbn [FrameStats.s_FrameCount FrameStats.s_TimeElapsed FrameStats.due] in *.
    + cbn [length repeat]. rewrite <- app_comm_cons.
      replace (FrameStats.s_FrameCount s + 1 + Z.of_nat (length quiet) + 1)
        with (FrameStats.s_FrameCount s + Z.of_nat (S (length quiet)) + 1) by lia.
      reflexivity.
    + exact Hrest.
    + exact Hd.
    + lia.
    + lia.
Qed.

(** A timer of 1000 counts per second: two frames in the first half second,
    the third at 1.5 seconds. *)
Lemma title_shows_calls_since_last_title_witness :
  let timer_at := fun t => GameTimer.Tick t (GameTimer.Reset 0 (GameTimer.ctor 1000)) in
  FrameStats.calls [timer_at 100; timer_at 400; timer_at 1500] FrameStats.initial =
    ({| FrameStats.s_FrameCount := 0; FrameStats.s_TimeElapsed := F32.f1 |},
     [None; None; Some (F32.f3, F32.div F32.f1000 F32.f3)]).
Proof.
  intros timer_at.
  assert (Hq : Forall (fun q => FrameStats.due (GameTimer.TotalTime q) FrameStats.initial = false)
                 [timer_at 100; timer_at 400])
    by (repeat constructor; vm_compute; reflexivity).
  assert (Hd : FrameStats.due (GameTimer.TotalTime (timer_at 1500)) FrameStats.initial = true)
    by (vm_compute; reflexivity).
  assert (H0 : 0 <= FrameStats.s_FrameCount FrameStats.initial) by (cbn; lia).
  assert (Hlt : FrameStats.s_FrameCount FrameStats.initial
                + Z.of_nat (length [timer_at 100; timer_at 400]) + 1 < 2 ^ 31)
    by (cbn; lia).
  exact (title_shows_calls_since_last_title [timer_at 100; timer_at 400] (timer_at 1500)
           FrameStats.initial Hq Hd H0 Hlt).
Defined.
